(** * AI Creative Suite: a shallow embedding of the generation service and of
      the React components that drive it.

    The development follows the TypeScript sources:
    - [GeminiService]  : services/geminiService (the five generation calls),
    - [IdeaGenerator]  : components/IdeaGenerator.tsx (batch orchestration),
    - [ImageGenerator] : components/ImageGenerator.tsx (bounded history),
    - [VideoCreator]   : components/VideoCreator.tsx.

    Asynchronous code is modelled by explicit traces: a call of an [async]
    function yields the list of interactions with the outside world (or of
    React state updates) in program order, together with its completion.  The
    external service is an oracle, so nothing is assumed about what it
    answers. *)

From stdpp Require Import gmap strings list fin_maps.

Open Scope string_scope.
Open Scope list_scope.

(** ** JavaScript values shared by all modules *)

(** What a [throw] (or a rejected promise) carries.  The sources only ever
    distinguish [err instanceof Error] from the rest. *)
Inductive Thrown : Type :=
| JsError (message : string)
| NotAnError (value : string).

(** Settlement of a promise / completion of a [try] block. *)
Inductive Completion (A : Type) : Type :=
| Returned (a : A)
| Threw (e : Thrown).
Arguments Returned {A} a.
Arguments Threw {A} e.

Definition isReturned {A} (c : Completion A) : bool :=
  match c with Returned _ => true | Threw _ => false end.

(** Truthiness of a value of TypeScript type [string | undefined]: both
    [undefined] and the empty string are falsy. *)
Definition truthy (v : option string) : bool :=
  match v with
  | None => false
  | Some s => negb (String.eqb s "")
  end.

(** [err instanceof Error ? err.message : 'An unknown error occurred.'] *)
Definition errorMessageOf (err : Thrown) : string :=
  match err with
  | JsError m => m
  | NotAnError _ => "An unknown error occurred."
  end.

(** ** services/geminiService *)
Module GeminiService.

Inductive PersonGeneration : Type := ALLOW_ALL | DISALLOW_ALL.

(** The [requestPayload] object of [generateVideo]. *)
Record VideoPayload : Type := mkVideoPayload {
  vp_model : string;
  vp_prompt : string;
  vp_numberOfVideos : Z;
  vp_aspectRatio : string;
  vp_durationSeconds : Z;
  vp_personGeneration : PersonGeneration;
  (** [requestPayload.image = { imageBytes, mimeType }], when assigned *)
  vp_image : option (string * string)
}.

(** The long-running operation object returned by the service.  [op_uri]
    is [operation.response?.generatedVideos?.[0]?.video?.uri]. *)
Record Operation : Type := mkOperation {
  op_name : string;
  op_done : bool;
  op_uri : option string
}.

(** The [Response] of [fetch], with what reading it yields: the body as
    text and the object URL made of the body as a blob. *)
Record FetchResponse : Type := mkFetchResponse {
  fr_ok : bool;
  fr_statusText : string;
  fr_text : string;        (** [await response.text()] *)
  fr_objectURL : string    (** [URL.createObjectURL(await response.blob())] *)
}.

(** The [contents] sent with [ai.models.generateContent]. *)
Inductive Contents : Type :=
| TextContents (prompt : string)
| ImageAndText (data mimeType prompt : string)
| SpeechContents (text voiceName : string).

(** The part of a [generateContent] response the code looks at:
    [response.text] and
    [response.candidates?.[0]?.content?.parts?.[0]?.inlineData?.data]. *)
Record ContentResponse : Type := mkContentResponse {
  cr_text : option string;
  cr_inlineData : option string
}.

(** Interactions with the outside world, in program order.  Every call
    records the API key its client was built with. *)
Inductive Event : Type :=
| EvGenerateContent (apiKey : option string) (model : string) (c : Contents)
| EvGenerateImages (apiKey : option string) (model prompt aspectRatio : string)
| EvGenerateVideos (apiKey : string) (payload : VideoPayload)
| EvSleep (milliseconds : Z)
| EvGetVideosOperation (apiKey : string) (operation : Operation)
| EvFetch (url : string).

(** The external service.  [getVideosOperation] receives the number of
    polls already made, since the service is stateful and may answer the
    same query differently over time. *)
Record Service : Type := mkService {
  generateContent : string -> Contents -> Completion ContentResponse;
  (** [response.generatedImages], [None] when the response has none; each
      entry is its [image], [None] when it has none, which is in turn its
      [imageBytes], [None] when it has none *)
  generateImages :
    string -> string -> Completion (option (list (option (option string))));
  generateVideos : VideoPayload -> Completion Operation;
  getVideosOperation : nat -> Operation -> Completion Operation;
  fetch : string -> Completion FetchResponse
}.

(** The process environment.  [API_KEY n] is the value of
    [process.env.API_KEY] once [n] interactions of the running call have
    taken place: the variable may be reassigned while a call is
    suspended. *)
Record Env : Type := mkEnv {
  API_KEY : nat -> option string
}.

(** Outcome of an [async] function run with bounded fuel: [None] when the
    fuel ran out while the function was still looping. *)
Definition Run (A : Type) : Type := (list Event * option (Completion A))%type.

Section Operations.
Context (env : Env) (svc : Service).

(** [JSON.parse(jsonStr)] followed by the test
    [result.prompts && Array.isArray(result.prompts)]: [Some l] when the
    text parses to an object whose [prompts] is the array [l], [None]
    when parsing throws or the test fails (both end in the same [catch]). *)
Context (parsePrompts : string -> option (list string)).

(** The message of the [TypeError] the engine throws when the named property
    is read of [undefined]; the text is the engine's own. *)
Context (typeError : string -> string).

Definition ideasPrompt : string :=
  "Generate a list of 5 creative, visually descriptive, and unique prompts suitable for an AI image or video generator.".

Definition generateIdeas : list Event * Completion (list string) :=
  let apiKey := API_KEY env 0 in
  let model := "gemini-2.5-flash" in
  let tried : Completion (list string) :=
    match generateContent svc model (TextContents ideasPrompt) with
    | Threw e => Threw e
    | Returned response =>
        match cr_text response with
        | None => Threw (JsError "TypeError")
        | Some text =>
            match parsePrompts text with
            | Some prompts => Returned prompts
            | None => Threw (JsError "AI response did not contain a 'prompts' array.")
            end
        end
    end in
  ([EvGenerateContent apiKey model (TextContents ideasPrompt)],
   match tried with
   | Returned prompts => Returned prompts
   | Threw _ =>
       Threw (JsError "Failed to communicate with the AI model for idea generation.")
   end).



Definition generateSpeechFromText (text : string)
  : list Event * Completion string :=
  let apiKey := API_KEY env 0 in
  let model := "gemini-2.5-flash-preview-tts" in
  let contents :=
    SpeechContents ("Read this with an expressive, narrative voice: " +:+ text) "Kore" in
  let tried : Completion string :=
    match generateContent svc model contents with
    | Threw e => Threw e
    | Returned response =>
        match cr_inlineData response with
        | Some base64Audio =>
            if truthy (Some base64Audio) then Returned base64Audio
            else Threw (JsError "No audio data received from the AI model.")
        | None => Threw (JsError "No audio data received from the AI model.")
        end
    end in
  ([EvGenerateContent apiKey model contents],
   match tried with
   | Returned audio => Returned audio
   | Threw _ => Threw (JsError "Failed to communicate with the TTS AI model.")
   end).

(** The outer [catch] of [generateImageFromPrompt] and [generateVideo]:
    an [Error] is re-thrown as it is, anything else is replaced. *)
Definition rethrow {A} (unknown : string) (c : Completion A) : Completion A :=
  match c with
  | Returned a => Returned a
  | Threw (JsError m) => Threw (JsError m)
  | Threw (NotAnError _) => Threw (JsError unknown)
  end.

Definition generateImageFromPrompt (prompt aspectRatio : string)
  : list Event * Completion string :=
  let apiKey := API_KEY env 0 in
  let model := "imagen-4.0-generate-001" in
  let tried : Completion string :=
    match generateImages svc prompt aspectRatio with
    | Threw e => Threw e
    | Returned None => Threw (JsError (typeError "0"))
    | Returned (Some []) => Threw (JsError (typeError "image"))
    | Returned (Some (None :: _)) => Threw (JsError (typeError "imageBytes"))
    | Returned (Some (Some base64ImageBytes :: _)) =>
        if truthy base64ImageBytes
        then Returned ("data:image/jpeg;base64," +:+ default "" base64ImageBytes)
        else Threw (JsError
          "Image generation succeeded, but no image data was returned.")
    end in
  ([EvGenerateImages apiKey model prompt aspectRatio],
   rethrow "An unknown error occurred during image generation." tried).

(** The [while (!operation.done)] loop.  [polls] counts the polls made so
    far; the result is [None] when the fuel is exhausted first. *)
Fixpoint pollLoop (apiKey : string) (fuel polls : nat) (operation : Operation)
  : Run Operation :=
  if op_done operation then ([], Some (Returned operation))
  else
    match fuel with
    | O => ([], None)
    | S fuel' =>
        match getVideosOperation svc polls operation with
        | Threw e =>
            ([EvSleep 10000; EvGetVideosOperation apiKey operation],
             Some (Threw e))
        | Returned operation' =>
            let '(trace, r) := pollLoop apiKey fuel' (S polls) operation' in
            (EvSleep 10000 :: EvGetVideosOperation apiKey operation :: trace, r)
        end
    end.

(** What follows the loop inside the [try] block. *)
Definition download (apiKey : string) (operation : Operation)
  : list Event * Completion string :=
  let downloadLink := op_uri operation in
  if negb (truthy downloadLink) then
    ([], Threw (JsError
       "Video generation succeeded, but no download link was provided."))
  else
    let url := default "" downloadLink +:+ "&key=" +:+ apiKey in
    match fetch svc url with
    | Threw e => ([EvFetch url], Threw e)
    | Returned response =>
        if negb (fr_ok response) then
          ([EvFetch url],
           Threw (JsError ("Failed to download video: " +:+ fr_statusText response
                           +:+ ". Details: " +:+ fr_text response)))
        else ([EvFetch url], Returned (fr_objectURL response))
    end.

Definition videoPayload (prompt aspectRatio : string) (duration : Z)
    (allowPeople : bool) (base64Image mimeType : option string) : VideoPayload :=
  {| vp_model := "veo-2.0-generate-001";
     vp_prompt := prompt;
     vp_numberOfVideos := 1;
     vp_aspectRatio := aspectRatio;
     vp_durationSeconds := duration;
     vp_personGeneration := if allowPeople then ALLOW_ALL else DISALLOW_ALL;
     vp_image :=
       if truthy base64Image && truthy mimeType
       then Some (default "" base64Image, default "" mimeType)
       else None |}.

Definition generateVideo (fuel : nat) (prompt aspectRatio : string)
    (duration : Z) (allowPeople : bool) (base64Image mimeType : option string)
  : Run string :=
  let apiKey := API_KEY env 0 in
  if negb (truthy apiKey) then
    ([], Some (Threw (JsError "API key is not available.")))
  else
    let apiKey := default "" apiKey in
    let requestPayload :=
      videoPayload prompt aspectRatio duration allowPeople base64Image mimeType in
    let unknown := "An unknown error occurred during video generation." in
    match generateVideos svc requestPayload with
    | Threw e =>
        ([EvGenerateVideos apiKey requestPayload], Some (rethrow unknown (Threw e)))
    | Returned operation =>
        match pollLoop apiKey fuel 0 operation with
        | (trace, None) => (EvGenerateVideos apiKey requestPayload :: trace, None)
        | (trace, Some (Threw e)) =>
            (EvGenerateVideos apiKey requestPayload :: trace,
             Some (rethrow unknown (Threw e)))
        | (trace, Some (Returned operation')) =>
            let '(trace', r) := download apiKey operation' in
            (EvGenerateVideos apiKey requestPayload :: trace ++ trace',
             Some (rethrow unknown r))
        end
    end.

End Operations.

(** *** Projections of a trace *)

Definition isPoll (e : Event) : bool :=
  match e with EvGetVideosOperation _ _ => true | _ => false end.
Definition isSleep (e : Event) : bool :=
  match e with EvSleep _ => true | _ => false end.
Definition isFetch (e : Event) : bool :=
  match e with EvFetch _ => true | _ => false end.

(** The service answers [pending] in turn, each to the poll that was handed
    its predecessor, and then [final]: [chain n cur rest] says that the
    polls numbered [n], [n+1], ... handed [cur] and then the operations of
    [rest] return the operations of [rest]. *)
Fixpoint chain (svc : Service) (n : nat) (cur : Operation) (rest : list Operation)
  : Prop :=
  match rest with
  | [] => True
  | next :: rest' =>
      getVideosOperation svc n cur = Returned next /\ chain svc (S n) next rest'
  end.

(** One round of the loop per pending operation. *)
Definition pollRounds (apiKey : string) (pending : list Operation) : list Event :=
  flat_map (fun op => [EvSleep 10000; EvGetVideosOperation apiKey op]) pending.

End GeminiService.

(** ** components/IdeaGenerator.tsx *)
Module IdeaGenerator.

(** A value of [generatedContent]: [{ image?: string; video?: string }]. *)
Record Content : Type := mkContent {
  image : option string;
  video : option string
}.

(** A value of [generatingState]: [{ image?: boolean; video?: boolean }]. *)
Record Generating : Type := mkGenerating {
  generatingImage : option bool;
  generatingVideo : option bool
}.

Inductive BatchType : Type := images | videos.

Record BatchJob : Type := mkBatchJob {
  type : BatchType;
  progress : nat;
  total : nat
}.

(** The [useState] cells of the component. *)
Record State : Type := mkState {
  isLoading : bool;
  error : string;
  ideas : list string;
  isKeyReady : bool;
  isCheckingKey : bool;
  generatedContent : gmap string Content;
  generatingState : gmap string Generating;
  batchJob : option BatchJob
}.

(** What a handler does, in program order: React state updates (a plain
    value or an updater function of the previous value), calls of the
    service and console output. *)
Inductive Action : Type :=
| SetIsLoading (b : bool)
| SetError (message : string)
| SetIdeas (l : list string)
| SetIsKeyReady (b : bool)
| SetGeneratedContent (m : gmap string Content)
| SetGeneratingState (m : gmap string Generating)
| SetBatchJob (job : option BatchJob)
  (** [prev => prev ? { ...prev, progress: prev.progress + 1 } : null] *)
| IncrBatchProgress
  (** [prev => prev ? { ...prev, progress: currentProgress } : null] *)
| SetBatchProgress (currentProgress : nat)
  (** [prev => ({ ...prev, [idea]: { ...prev[idea], image: imageUrl } })] *)
| PutImage (idea imageUrl : string)
  (** [prev => ({ ...prev, [idea]: { ...prev[idea], video: videoUrl } })] *)
| PutVideo (idea videoUrl : string)
  (** [prev => ({ ...prev, [idea]: { ...prev[idea], image: b } })] *)
| MarkImage (idea : string) (b : bool)
  (** [prev => ({ ...prev, [idea]: { ...prev[idea], video: b } })] *)
| MarkVideo (idea : string) (b : bool)
| CallOpenSelectKey
| CallGenerateIdeas
| CallGenerateImage (call : nat) (prompt aspectRatio : string)
| CallGenerateVideo (call : nat) (prompt aspectRatio : string)
    (duration : Z) (allowPeople : bool)
| ConsoleError (label : string) (err : Thrown).

(** [{ ...prev[idea], image: imageUrl }]: spreading [undefined] adds
    nothing. *)
Definition withImage (prev : option Content) (imageUrl : string) : Content :=
  {| image := Some imageUrl; video := prev ≫= video |}.
Definition withVideo (prev : option Content) (videoUrl : string) : Content :=
  {| image := prev ≫= image; video := Some videoUrl |}.
Definition withGeneratingImage (prev : option Generating) (b : bool) : Generating :=
  {| generatingImage := Some b; generatingVideo := prev ≫= generatingVideo |}.
Definition withGeneratingVideo (prev : option Generating) (b : bool) : Generating :=
  {| generatingImage := prev ≫= generatingImage; generatingVideo := Some b |}.

Definition setIsLoading b (s : State) : State :=
  mkState b (error s) (ideas s) (isKeyReady s) (isCheckingKey s)
          (generatedContent s) (generatingState s) (batchJob s).
Definition setError e (s : State) : State :=
  mkState (isLoading s) e (ideas s) (isKeyReady s) (isCheckingKey s)
          (generatedContent s) (generatingState s) (batchJob s).
Definition setIdeas l (s : State) : State :=
  mkState (isLoading s) (error s) l (isKeyReady s) (isCheckingKey s)
          (generatedContent s) (generatingState s) (batchJob s).
Definition setIsKeyReady b (s : State) : State :=
  mkState (isLoading s) (error s) (ideas s) b (isCheckingKey s)
          (generatedContent s) (generatingState s) (batchJob s).
Definition setGeneratedContent m (s : State) : State :=
  mkState (isLoading s) (error s) (ideas s) (isKeyReady s) (isCheckingKey s)
          m (generatingState s) (batchJob s).
Definition setGeneratingState m (s : State) : State :=
  mkState (isLoading s) (error s) (ideas s) (isKeyReady s) (isCheckingKey s)
          (generatedContent s) m (batchJob s).
Definition setBatchJob j (s : State) : State :=
  mkState (isLoading s) (error s) (ideas s) (isKeyReady s) (isCheckingKey s)
          (generatedContent s) (generatingState s) j.

Definition withProgress (n : nat) (job : BatchJob) : BatchJob :=
  {| type := type job; progress := n; total := total job |}.

(** The effect of one action on the state.  Updaters are applied to the
    state left by the actions before them, as React queues them. *)
Definition reduce (s : State) (a : Action) : State :=
  match a with
  | SetIsLoading b => setIsLoading b s
  | SetError e => setError e s
  | SetIdeas l => setIdeas l s
  | SetIsKeyReady b => setIsKeyReady b s
  | SetGeneratedContent m => setGeneratedContent m s
  | SetGeneratingState m => setGeneratingState m s
  | SetBatchJob j => setBatchJob j s
  | IncrBatchProgress =>
      setBatchJob ((fun prev => withProgress (progress prev + 1) prev) <$> batchJob s) s
  | SetBatchProgress n => setBatchJob (withProgress n <$> batchJob s) s
  | PutImage idea url =>
      setGeneratedContent
        (<[idea := withImage (generatedContent s !! idea) url]> (generatedContent s)) s
  | PutVideo idea url =>
      setGeneratedContent
        (<[idea := withVideo (generatedContent s !! idea) url]> (generatedContent s)) s
  | MarkImage idea b =>
      setGeneratingState
        (<[idea := withGeneratingImage (generatingState s !! idea) b]> (generatingState s)) s
  | MarkVideo idea b =>
      setGeneratingState
        (<[idea := withGeneratingVideo (generatingState s !! idea) b]> (generatingState s)) s
  | CallOpenSelectKey | CallGenerateIdeas | CallGenerateImage _ _ _
  | CallGenerateVideo _ _ _ _ _ | ConsoleError _ _ => s
  end.

(** The state after a log of actions. *)
Definition run (log : list Action) (s : State) : State := foldl reduce s log.

(** The image slot of a prompt, as the view reads it:
    [generatedContent[idea]?.image]. *)
Definition imageOf (s : State) (idea : string) : option string :=
  generatedContent s !! idea ≫= image.
Definition videoOf (s : State) (idea : string) : option string :=
  generatedContent s !! idea ≫= video.

Definition dquote : string := String (Ascii.ascii_of_nat 34) EmptyString.

(** Stage of one chain
    [generateImageFromPrompt(idea, '16:9').then(..).catch(..).finally(..)]:
    the service call is in flight, its [then]/[catch] reaction has run, or
    its [finally] reaction has run too. *)
Inductive Stage : Type := InFlight | Reacted | Settled.

Definition isSettled (st : Stage) : bool :=
  match st with Settled => true | _ => false end.

(** Number of chains whose [finally] reaction has run. *)
Fixpoint settledCount (stages : list Stage) : nat :=
  match stages with
  | [] => 0
  | st :: rest => (if isSettled st then 1 else 0) + settledCount rest
  end.

(** The [then]/[catch] reaction of chain [i] has run. *)
Definition hasReacted (stages : list Stage) (i : nat) : Prop :=
  exists st, stages !! i = Some st /\ st <> InFlight.

Section Handlers.
(** The translation function of [useLanguage]. *)
Context (t : string -> string).
(** [window.aistudio.openSelectKey()] and the service, as oracles.  The
    batch calls receive their position in the batch, since the service
    may answer the same prompt differently from one call to the next. *)
Context (openSelectKey : Completion unit).
Context (generateIdeas : Completion (list string)).
Context (generateImageFromPrompt : nat -> string -> string -> Completion string).
Context (generateVideo : nat -> string -> string -> Z -> bool -> Completion string).

Definition handleSelectKey : list Action :=
  CallOpenSelectKey ::
  match openSelectKey with
  | Returned _ => [SetIsKeyReady true; SetError ""]
  | Threw _ => []
  end.

Definition handleGenerate : list Action :=
  [SetIsLoading true; SetError ""; SetIdeas []; SetGeneratedContent ∅;
   SetGeneratingState ∅; SetBatchJob None; CallGenerateIdeas]
  ++ match generateIdeas with
     | Returned generatedIdeas => [SetIdeas generatedIdeas]
     | Threw err =>
         [SetError (t "idea.error.apiFail" +:+ " " +:+ errorMessageOf err)]
     end
  ++ [SetIsLoading false].

(** The [then] or [catch] reaction of the chain of call [i]. *)
Definition onReact (i : nat) (idea : string) : list Action :=
  match generateImageFromPrompt i idea "16:9" with
  | Returned imageUrl => [PutImage idea imageUrl]
  | Threw err =>
      [ConsoleError ("Failed to generate image for prompt: " +:+ dquote +:+ idea
                     +:+ dquote) err]
  end.

(** The [finally] reaction. *)
Definition onFinally (idea : string) : list Action :=
  [IncrBatchProgress; MarkImage idea false].

(** The event loop runs the next reaction of chain [i].  An index that
    names no chain, or a chain that has settled, has no reaction left. *)
Definition stepChain (ideas : list string) (sl : list Stage * list Action)
    (i : nat) : list Stage * list Action :=
  match sl.1 !! i, ideas !! i with
  | Some InFlight, Some idea => (<[i := Reacted]> (sl.1), sl.2 ++ onReact i idea)
  | Some Reacted, Some idea => (<[i := Settled]> (sl.1), sl.2 ++ onFinally idea)
  | _, _ => sl
  end.

(** The reactions run in the order of [schedule]. *)
Definition runSchedule (ideas : list string) (schedule : list nat)
  : list Stage * list Action :=
  foldl (stepChain ideas) (replicate (length ideas) InFlight, []) schedule.

(** [Promise.all(imagePromises)] has resolved. *)
Definition allSettled (stages : list Stage) : bool := forallb isSettled stages.

(** The argument of the first [setGeneratingState]: the [reduce] over
    [ideas], reading the [generatingState] of the render the handler
    belongs to. *)
Definition initialImageFlags (s : State) : gmap string Generating :=
  foldl (fun acc idea =>
           <[idea := withGeneratingImage (generatingState s !! idea) true]> acc)
        ∅ (ideas s).

Definition handleGenerateAllImages (s : State) (schedule : list nat) : list Action :=
  if negb (isKeyReady s) then [SetError (t "idea.error.apiKey")]
  else
    let sl := runSchedule (ideas s) schedule in
    [SetError "";
     SetBatchJob (Some {| type := images; progress := 0; total := length (ideas s) |});
     SetGeneratingState (initialImageFlags s)]
    ++ imap (fun i idea => CallGenerateImage i idea "16:9") (ideas s)
    ++ sl.2
    ++ (if allSettled (sl.1) then [SetBatchJob None] else []).

(** The [finally] block of the video loop, with [currentProgress] already
    incremented. *)
Definition videoFinally (idea : string) (currentProgress : nat) : list Action :=
  [SetBatchProgress currentProgress; MarkVideo idea false].

(** The [for (const idea of ideas)] loop, started with the given value of
    [currentProgress]. *)
Fixpoint videoLoop (ideas : list string) (currentProgress : nat) : list Action :=
  match ideas with
  | [] => []
  | idea :: rest =>
      MarkVideo idea true
      :: CallGenerateVideo currentProgress idea "16:9" 8 true
      :: match generateVideo currentProgress idea "16:9" 8 true with
         | Returned videoUrl =>
             PutVideo idea videoUrl
             :: videoFinally idea (S currentProgress)
             ++ videoLoop rest (S currentProgress)
         | Threw err =>
             ConsoleError ("Failed to generate video for prompt: " +:+ dquote
                           +:+ idea +:+ dquote) err
             :: SetError (t "video.error.apiFail" +:+ " " +:+ errorMessageOf err)
             :: videoFinally idea (S currentProgress)
         end
  end.

Definition handleGenerateAllVideos (s : State) : list Action :=
  if negb (isKeyReady s) then [SetError (t "idea.error.apiKey")]
  else
    [SetError "";
     SetBatchJob (Some {| type := videos; progress := 0; total := length (ideas s) |})]
    ++ videoLoop (ideas s) 0
    ++ [SetBatchJob None].

End Handlers.

(** The order in which the calls settle one after the other: both
    reactions of chain 0, then both of chain 1, and so on. *)
Definition inTurn (n : nat) : list nat := flat_map (fun i => [i; i]) (seq 0 n).

(** *** Projections of a log *)

Definition isCallVideo (a : Action) : bool :=
  match a with CallGenerateVideo _ _ _ _ _ => true | _ => false end.
Definition isCallImage (a : Action) : bool :=
  match a with CallGenerateImage _ _ _ => true | _ => false end.
Definition isIncr (a : Action) : bool :=
  match a with IncrBatchProgress => true | _ => false end.
Definition isClear (a : Action) : bool :=
  match a with SetBatchJob None => true | _ => false end.

(** *** What holds of the image batch between two reactions

    [s1] is the state when the last call has been issued; [sl] the stages
    and the log of the reactions run since. *)
Section Invariant.
Context (generateImageFromPrompt : nat -> string -> string -> Completion string).
Context (ideas : list string) (s1 : State).

(** The slot of prompt [p] holds the image of a call for [p] that
    returned and whose reaction has run; or no such call exists yet and
    the entry of [p] is as it was. *)
Definition slotInvariant (sl : list Stage * list Action) (p : string) : Prop :=
  (exists i url,
      ideas !! i = Some p
      /\ generateImageFromPrompt i p "16:9" = Returned url
      /\ hasReacted (sl.1) i
      /\ imageOf (run (sl.2) s1) p = Some url)
  \/ ((forall i, ideas !! i = Some p -> hasReacted (sl.1) i ->
                 isReturned (generateImageFromPrompt i p "16:9") = false)
      /\ generatedContent (run (sl.2) s1) !! p = generatedContent s1 !! p).

Definition batchInvariant (sl : list Stage * list Action) : Prop :=
  length (sl.1) = length ideas
  /\ batchJob (run (sl.2) s1)
     = Some {| type := images; progress := settledCount (sl.1);
               total := length ideas |}
  /\ length (List.filter isIncr (sl.2)) = settledCount (sl.1)
  /\ List.filter isClear (sl.2) = []
  /\ forall p, slotInvariant sl p.
End Invariant.

End IdeaGenerator.

(** ** components/ImageGenerator.tsx *)
Module ImageGenerator.

(** The component's own aspect ratios: ['1:1' | '16:9' | '9:16']. *)
Inductive AspectRatio : Type := Ratio_1_1 | Ratio_16_9 | Ratio_9_16.

Definition aspectRatioText (a : AspectRatio) : string :=
  match a with
  | Ratio_1_1 => "1:1"
  | Ratio_16_9 => "16:9"
  | Ratio_9_16 => "9:16"
  end.

Record ImageHistoryItem : Type := mkItem {
  imageUrl : string;
  prompt : string;
  aspectRatio : AspectRatio
}.

Definition MAX_HISTORY_ITEMS : nat := 6.

(** [String.prototype.includes]. *)
Fixpoint includes (needle haystack : string) : bool :=
  if String.prefix needle haystack then true
  else match haystack with
       | EmptyString => false
       | String _ rest => includes needle rest
       end.

(** The [useState] cells the handlers touch, and the ['imageGenHistory']
    entry of [localStorage] (the JSON text is modelled by the list it
    encodes; [None] when the key is absent). *)
Record State : Type := mkState {
  isKeyReady : bool;
  isCheckingKey : bool;
  currentAspectRatio : AspectRatio;
  isLoading : bool;
  error : string;
  currentImageUrl : option string;
  history : list ImageHistoryItem;
  storedHistory : option (list ImageHistoryItem)
}.

(** The updater passed to [setHistory]:
    [[newHistoryItem, ...prevHistory.filter(item => item.imageUrl !== url)]
       .slice(0, MAX_HISTORY_ITEMS)]. *)
Definition updatedHistory (newHistoryItem : ImageHistoryItem)
    (prevHistory : list ImageHistoryItem) : list ImageHistoryItem :=
  take MAX_HISTORY_ITEMS
    (newHistoryItem
     :: filter (fun item => imageUrl item ≠ imageUrl newHistoryItem) prevHistory).

Section Handlers.
Context (t : string -> string).
Context (openSelectKey : Completion unit).
Context (generateImageFromPrompt : string -> string -> Completion string).
(** Whether [localStorage.setItem] accepts the value (it throws when the
    quota is exceeded, which the updater catches). *)
Context (storageAccepts : list ImageHistoryItem -> bool).

Definition handleSelectKey (s : State) : State :=
  match openSelectKey with
  | Returned _ =>
      mkState true (isCheckingKey s) (currentAspectRatio s) (isLoading s) ""
              (currentImageUrl s) (history s) (storedHistory s)
  | Threw _ => s
  end.

Definition generate (s : State) (currentPrompt : string) : State :=
  if negb (truthy (Some currentPrompt)) then
    mkState (isKeyReady s) (isCheckingKey s) (currentAspectRatio s) (isLoading s)
            (t "image.error.noPrompt") (currentImageUrl s) (history s)
            (storedHistory s)
  else
    match generateImageFromPrompt currentPrompt
            (aspectRatioText (currentAspectRatio s)) with
    | Returned url =>
        let newHistoryItem :=
          {| imageUrl := url; prompt := currentPrompt;
             aspectRatio := currentAspectRatio s |} in
        let updated := updatedHistory newHistoryItem (history s) in
        mkState (isKeyReady s) (isCheckingKey s) (currentAspectRatio s) false ""
                (Some url) updated
                (if storageAccepts updated then Some updated else storedHistory s)
    | Threw err =>
        let errorMessage := errorMessageOf err in
        if includes "billed users" errorMessage
           || includes "Requested entity was not found" errorMessage
        then
          mkState false (isCheckingKey s) (currentAspectRatio s) false
                  (t "image.error.billingRequired") None (history s)
                  (storedHistory s)
        else
          mkState (isKeyReady s) (isCheckingKey s) (currentAspectRatio s) false
                  (t "image.error.apiFail" +:+ " " +:+ errorMessage) None
                  (history s) (storedHistory s)
    end.

(** The history after a run of [generate] calls, one per prompt. *)
Definition generateAll (s : State) (prompts : list string) : State :=
  foldl generate s prompts.

End Handlers.

(** Number of history entries with a given result locator. *)
Definition occurrences (url : string) (l : list ImageHistoryItem) : nat :=
  length (filter (fun item => imageUrl item = url) l).

End ImageGenerator.

(** ** components/VideoCreator.tsx *)
Module VideoCreator.

(** The [useState] cells of the component that its key handling and error
    display involve. *)
Record State : Type := mkState {
  isKeyReady : bool;
  isCheckingKey : bool;
  isLoading : bool;
  error : string;
  allowHtmlError : bool;
  videoUrl : option string
}.

Section Handlers.
Context (openSelectKey : Completion unit).

(** [await window.aistudio.openSelectKey(); setIsKeyReady(true);] *)
Definition handleSelectKey (s : State) : State :=
  match openSelectKey with
  | Returned _ =>
      mkState true (isCheckingKey s) (isLoading s) (error s) (allowHtmlError s)
              (videoUrl s)
  | Threw _ => s
  end.

End Handlers.

End VideoCreator.

(** ** What the view of the idea generator reads *)
Module IdeaGeneratorView.
Import IdeaGenerator.

(** [generatingState[idea]?.image] and [generatingState[idea]?.video]: the
    flags that make the view show a loader. *)
Definition imageFlag (s : State) (idea : string) : option bool :=
  generatingState s !! idea ≫= generatingImage.
Definition videoFlag (s : State) (idea : string) : option bool :=
  generatingState s !! idea ≫= generatingVideo.

(** The action is a call of [generateVideo] for the prompt [p]. *)
Definition callsVideoFor (p : string) (a : Action) : bool :=
  match a with
  | CallGenerateVideo _ q _ _ _ => String.eqb q p
  | _ => false
  end.

(** The action is one the reactions of the image batch perform. *)
Definition isImageReaction (a : Action) : bool :=
  match a with
  | PutImage _ _ | ConsoleError _ _ | IncrBatchProgress | MarkImage _ false => true
  | _ => false
  end.

(** The batch job, when there is one, has not counted more than its total. *)
Definition jobWithinTotal (job : option BatchJob) : Prop :=
  match job with
  | Some j => progress j <= total j
  | None => True
  end.
End IdeaGeneratorView.

(** ** checkKey, as written in IdeaGenerator.tsx, ImageGenerator.tsx and
    VideoCreator.tsx *)
Module KeyCheck.

(** What [checkKey] does, in program order. *)
Inductive Effect : Type :=
| SetTimeout (milliseconds : Z)
| CallHasSelectedApiKey
| SetIsCheckingKey (b : bool)
| SetIsKeyReady (b : bool)
| ConsoleError (err : Thrown).

(** The two [useState] cells involved; they start as
    [isKeyReady = false] and [isCheckingKey = true]. *)
Record Flags : Type := mkFlags {
  isKeyReady : bool;
  isCheckingKey : bool
}.

Definition initial : Flags := {| isKeyReady := false; isCheckingKey := true |}.

Definition reduce (f : Flags) (e : Effect) : Flags :=
  match e with
  | SetIsCheckingKey b => {| isKeyReady := isKeyReady f; isCheckingKey := b |}
  | SetIsKeyReady b => {| isKeyReady := b; isCheckingKey := isCheckingKey f |}
  | SetTimeout _ | CallHasSelectedApiKey | ConsoleError _ => f
  end.

Definition run (log : list Effect) (f : Flags) : Flags := foldl reduce f log.

Section CheckKey.
(** [window.aistudio] at the n-th invocation of [checkKey]: [None] while it
    is undefined, otherwise how its [hasSelectedApiKey()] settles. *)
Context (aistudio : nat -> option (Completion bool)).

(** [checkKey], invoked for the [attempt]-th time and followed for at most
    [fuel] timeouts; the boolean tells whether it got past the test of
    [window.aistudio]. *)
Fixpoint checkKey (fuel attempt : nat) : list Effect * bool :=
  match aistudio attempt with
  | Some hasSelectedApiKey =>
      (SetIsCheckingKey true :: CallHasSelectedApiKey
       :: match hasSelectedApiKey with
          | Returned keyExists => [SetIsKeyReady keyExists]
          | Threw e => [ConsoleError e; SetIsKeyReady false]
          end
       ++ [SetIsCheckingKey false], true)
  | None =>
      match fuel with
      | O => ([], false)
      | S fuel' =>
          let '(log, finished) := checkKey fuel' (S attempt) in
          (SetTimeout 100 :: log, finished)
      end
  end.
End CheckKey.

(** [window.aistudio] appears at the third look and the check throws. *)
Definition late (n : nat) : option (Completion bool) :=
  match n with
  | 0 | 1 => None
  | _ => Some (Threw (JsError "not allowed"))
  end.

End KeyCheck.

(** ** The image history and its persisted copy *)
Module ImageGeneratorView.
Import ImageGenerator.

(** The ['imageGenHistory'] entry of [localStorage] holds the history shown,
    or nothing was stored yet and nothing is shown. *)
Definition inSync (s : State) : Prop :=
  storedHistory s = Some (history s)
  \/ (storedHistory s = None /\ history s = []).

Definition fresh : State :=
  {| isKeyReady := true; isCheckingKey := false; currentAspectRatio := Ratio_16_9;
     isLoading := false; error := ""; currentImageUrl := None; history := [];
     storedHistory := None |}.

(** A service that echoes short prompts and refuses the others. *)
Definition echo (prompt aspectRatio : string) : Completion string :=
  if Nat.leb (String.length prompt) 1
  then Returned ("data:image/jpeg;base64," +:+ prompt)
  else Threw (JsError "Imagen API is only accessible to billed users at this time.").
End ImageGeneratorView.

(** ** components/ErrorMessage *)
Module ErrorMessage.

(** What the component renders: nothing, the message as text, or the
    message as raw HTML ([dangerouslySetInnerHTML]). *)
Inductive Rendered : Type :=
| Nothing
| Text (message : string)
| Html (message : string).

Definition render (message : string) (allowHtml : bool) : Rendered :=
  if negb (truthy (Some message)) then Nothing
  else if allowHtml then Html message else Text message.

End ErrorMessage.

(** ** components/VideoCreator.tsx: the form and its handlers *)
Module VideoCreatorForm.

(** A [File]: its [type], and what a [FileReader] makes of it with
    [readAsDataURL], the result string or the event given to [onerror]. *)
Record File : Type := mkFile {
  fileType : string;
  dataURL : Completion string
}.

Definition comma : Ascii.ascii := Ascii.ascii_of_nat 44.

(** [String.prototype.split(',')]. *)
Fixpoint splitComma (s : string) : list string :=
  match s with
  | EmptyString => [EmptyString]
  | String c rest =>
      if Ascii.eqb c comma then EmptyString :: splitComma rest
      else match splitComma rest with
           | piece :: pieces => String c piece :: pieces
           | [] => [String c EmptyString]
           end
  end.

(** [fileToBase64]: resolves to [(reader.result as string).split(',')[1]],
    which is [undefined] when the result has no comma. *)
Definition fileToBase64 (file : File) : Completion (option string) :=
  match dataURL file with
  | Returned result => Returned (splitComma result !! 1)
  | Threw e => Threw e
  end.

(** The inputs of the form that [handleGenerate] reads. *)
Record Form : Type := mkForm {
  prompt : string;
  aspectRatio : string;
  imageFile : option File;
  duration : Z;
  allowPeople : bool
}.

(** No comma occurs in the string. *)
Fixpoint noComma (s : string) : bool :=
  match s with
  | EmptyString => true
  | String c rest => negb (Ascii.eqb c comma) && noComma rest
  end.

Section Handlers.
Context (t : string -> string).

(** The [catch] block of [handleGenerate], followed by its [finally]. *)
Definition failed (s : VideoCreator.State) (err : Thrown) : VideoCreator.State :=
  let errorMessage := errorMessageOf err in
  if ImageGenerator.includes "RESOURCE_EXHAUSTED" errorMessage
     || ImageGenerator.includes "429" errorMessage
  then VideoCreator.mkState (VideoCreator.isKeyReady s) (VideoCreator.isCheckingKey s)
         false (t "video.error.quotaExceeded") true None
  else if ImageGenerator.includes "Requested entity was not found" errorMessage
  then VideoCreator.mkState false (VideoCreator.isCheckingKey s)
         false (t "video.error.invalidKey") false None
  else VideoCreator.mkState (VideoCreator.isKeyReady s) (VideoCreator.isCheckingKey s)
         false (t "video.error.apiFail" +:+ " " +:+ errorMessage) false None.

(** [handleGenerate], with the service call it makes; [None] for the state
    when the fuel runs out while the video is still being polled. *)
Definition handleGenerate (env : GeminiService.Env) (svc : GeminiService.Service)
    (fuel : nat) (form : Form) (s : VideoCreator.State)
  : list GeminiService.Event * option VideoCreator.State :=
  if negb (truthy (Some (prompt form)))
     && match imageFile form with None => true | Some _ => false end
  then
    ([], Some (VideoCreator.mkState (VideoCreator.isKeyReady s)
                 (VideoCreator.isCheckingKey s) (VideoCreator.isLoading s)
                 (t "video.error.noPromptOrImage") false (VideoCreator.videoUrl s)))
  else
    let tried : GeminiService.Run string :=
      match imageFile form with
      | Some file =>
          match fileToBase64 file with
          | Threw e => ([], Some (Threw e))
          | Returned base64Image =>
              GeminiService.generateVideo env svc fuel (prompt form) (aspectRatio form)
                (duration form) (allowPeople form) base64Image (Some (fileType file))
          end
      | None =>
          GeminiService.generateVideo env svc fuel (prompt form) (aspectRatio form)
            (duration form) (allowPeople form) None None
      end in
    match tried with
    | (trace, None) => (trace, None)
    | (trace, Some (Returned url)) =>
        (trace, Some (VideoCreator.mkState (VideoCreator.isKeyReady s)
                        (VideoCreator.isCheckingKey s) false "" false (Some url)))
    | (trace, Some (Threw err)) => (trace, Some (failed s err))
    end.

(** [handleShareVideo]; [shared] is how its [try] block (fetch, blob,
    [navigator.canShare], [navigator.share]) ends. *)
Definition handleShareVideo (canShare : bool) (shared : Completion unit)
    (s : VideoCreator.State) : VideoCreator.State :=
  if negb (truthy (VideoCreator.videoUrl s)) || negb canShare then s
  else match shared with
       | Returned _ => s
       | Threw _ =>
           VideoCreator.mkState (VideoCreator.isKeyReady s)
             (VideoCreator.isCheckingKey s) (VideoCreator.isLoading s)
             (t "share.error") false (VideoCreator.videoUrl s)
       end.

(** What the user can make the component do. *)
Inductive Action : Type :=
| Generate (env : GeminiService.Env) (svc : GeminiService.Service) (fuel : nat)
    (form : Form)
| Share (canShare : bool) (shared : Completion unit)
| SelectKey (selected : Completion unit).

Definition step (s : VideoCreator.State) (a : Action) : option VideoCreator.State :=
  match a with
  | Generate env svc fuel form => (handleGenerate env svc fuel form s).2
  | Share canShare shared => Some (handleShareVideo canShare shared s)
  | SelectKey selected => Some (VideoCreator.handleSelectKey selected s)
  end.

(** The actions one after the other, each started when the one before it
    has ended. *)
Fixpoint steps (s : VideoCreator.State) (actions : list Action)
  : option VideoCreator.State :=
  match actions with
  | [] => Some s
  | a :: rest =>
      match step s a with
      | Some s' => steps s' rest
      | None => None
      end
  end.

(** [{error && <ErrorMessage message={error} allowHtml={allowHtmlError} />}] *)
Definition errorView (s : VideoCreator.State) : ErrorMessage.Rendered :=
  ErrorMessage.render (VideoCreator.error s) (VideoCreator.allowHtmlError s).

End Handlers.

(** The state of the component when it is mounted. *)
Definition initial : VideoCreator.State :=
  VideoCreator.mkState false true false "" false None.

(** A picture whose type the browser could not tell. *)
Definition untyped : File :=
  mkFile "" (Returned "data:application/octet-stream;base64,iVBORw0KGgo=").

Definition quota : GeminiService.Service :=
  {| GeminiService.generateContent := fun _ _ => Threw (NotAnError "offline");
     GeminiService.generateImages := fun _ _ => Threw (NotAnError "offline");
     GeminiService.generateVideos := fun _ =>
       Threw (JsError "429 <b>RESOURCE_EXHAUSTED</b>");
     GeminiService.getVideosOperation := fun _ op => Returned op;
     GeminiService.fetch := fun _ => Threw (NotAnError "offline") |}.

End VideoCreatorForm.

(** ** components/StoryCreator.tsx: reading the story aloud *)
Module StoryCreator.

(** The cells [handleReadAloud] involves: [story] (which is [undefined] when
    the service answered without text), the loading flag, the error message,
    [isPlaying], and whether [audioSourceRef.current] holds a source. *)
Record State : Type := mkState {
  story : option string;
  isLoadingAudio : bool;
  error : string;
  isPlaying : bool;
  hasAudioSource : bool
}.

Inductive Effect : Type :=
| Service (e : GeminiService.Event)
| StopSource
| StartSource (base64Audio : string).

Section Handlers.
Context (t : string -> string).
Context (env : GeminiService.Env) (svc : GeminiService.Service).
(** How the audio part of the [try] block ends for the given audio: the
    [AudioContext] is made if there is none, the audio is decoded with
    [decode] and [decodeAudioData], and the source is started. *)
Context (playback : string -> Completion unit).

Definition handleReadAloud (s : State) : list Effect * State :=
  if negb (truthy (story s)) then ([], s)
  else if isPlaying s then
    (if hasAudioSource s then [StopSource] else [],
     mkState (story s) (isLoadingAudio s) (error s) false (hasAudioSource s))
  else
    let spoken := GeminiService.generateSpeechFromText env svc (default "" (story s)) in
    let failed err :=
      mkState (story s) false
        (t "story.error.audioFail" +:+ " " +:+ errorMessageOf err)
        false (hasAudioSource s) in
    match spoken.2 with
    | Threw err => (map Service (spoken.1), failed err)
    | Returned base64Audio =>
        match playback base64Audio with
        | Threw err => (map Service (spoken.1), failed err)
        | Returned _ =>
            (map Service (spoken.1) ++ [StartSource base64Audio],
             mkState (story s) false "" true true)
        end
    end.

(** [source.onended]. *)
Definition onended (s : State) : State :=
  mkState (story s) (isLoadingAudio s) (error s) false false.

End Handlers.

Definition isService (e : Effect) : bool :=
  match e with Service _ => true | _ => false end.

(** A service that speaks. *)
Definition narrator : GeminiService.Service :=
  {| GeminiService.generateContent := fun _ _ =>
       Returned (GeminiService.mkContentResponse None (Some "UklGRg=="));
     GeminiService.generateImages := fun _ _ => Threw (NotAnError "offline");
     GeminiService.generateVideos := fun _ => Threw (NotAnError "offline");
     GeminiService.getVideosOperation := fun _ op => Returned op;
     GeminiService.fetch := fun _ => Threw (NotAnError "offline") |}.

End StoryCreator.

(** ** App.tsx: tabs and the relay of prompts *)
Module App.

Inductive Tab : Type := TabStory | TabIdea | TabImage | TabVideo.

Record State : Type := mkState {
  activeTab : Tab;
  videoPrompt : string;
  imagePrompt : string
}.

Definition initial : State := mkState TabStory "" "".

Definition setActiveTab (s : State) (tab : Tab) : State :=
  mkState tab (videoPrompt s) (imagePrompt s).

Definition sendPromptToVideoCreator (prompt : string) (s : State) : State :=
  mkState TabVideo prompt (imagePrompt s).

Definition sendPromptToImageGenerator (prompt : string) (s : State) : State :=
  mkState TabImage (videoPrompt s) prompt.

(** The component [renderContent] mounts, with its [initialPrompt]. *)
Inductive Content : Type :=
| ShowStoryCreator
| ShowIdeaGenerator
| ShowImageGenerator (initialPrompt : string)
| ShowVideoCreator (initialPrompt : string).

Definition renderContent (s : State) : Content :=
  match activeTab s with
  | TabStory => ShowStoryCreator
  | TabIdea => ShowIdeaGenerator
  | TabImage => ShowImageGenerator (imagePrompt s)
  | TabVideo => ShowVideoCreator (videoPrompt s)
  end.

(** The prompt field of a [VideoCreator] once mounted: [useState('')], then
    the effect [if (initialPrompt) setPrompt(initialPrompt)]. *)
Definition mountedVideoPrompt (initialPrompt : string) : string :=
  if truthy (Some initialPrompt) then initialPrompt else "".

(** [handleSendToVideo] of StoryCreator.tsx (on its story) and of
    ImageGenerator.tsx (on its prompt): nothing is sent when the text is
    empty. *)
Definition handleSendToVideo (text : option string) (s : State) : State :=
  if truthy text then sendPromptToVideoCreator (default "" text) s else s.

End App.

(** ** Concrete inputs used by the examples *)

(** A service for the examples: the job is pending at submission and at the
    first poll, and done, with a result locator, at the second poll.  The
    environment changes its key as soon as the call is under way. *)
Module Mock.
Import GeminiService.

Definition pending0 : Operation := mkOperation "operations/1" false None.
Definition pending1 : Operation := mkOperation "operations/1" false None.
Definition completed (uri : option string) : Operation :=
  mkOperation "operations/1" true uri.

Definition service (uri : option string) (download : Completion FetchResponse)
  : Service :=
  {| generateContent := fun _ _ => Threw (NotAnError "offline");
     generateImages := fun _ _ => Threw (JsError "quota");
     generateVideos := fun _ => Returned pending0;
     getVideosOperation := fun n _ =>
       match n with
       | 0 => Returned pending1
       | 1 => Returned (completed uri)
       | _ => Threw (JsError "unexpected poll")
       end;
     fetch := fun _ => download |}.

Definition env : Env :=
  {| API_KEY := fun n => match n with 0 => Some "key-A" | _ => Some "key-B" end |}.

Definition video : FetchResponse := mkFetchResponse true "OK" "" "blob:video".
Definition forbidden : FetchResponse :=
  mkFetchResponse false "Forbidden" "denied" "".
End Mock.

(** Inputs for the idea generator: three prompts, of which the second
    fails, in a state where the key is ready and nothing was generated. *)
Module MockBatch.
Import IdeaGenerator.

Definition translate (key : string) : string := key.

Definition state : State :=
  {| isLoading := false; error := "stale"; ideas := ["a"; "b"; "c"];
     isKeyReady := true; isCheckingKey := false;
     generatedContent := ∅; generatingState := ∅; batchJob := None |}.

Definition generateVideo (call : nat) (prompt aspectRatio : string) (duration : Z)
    (allowPeople : bool) : Completion string :=
  if String.eqb prompt "b" then Threw (JsError "429 RESOURCE_EXHAUSTED")
  else Returned ("blob:video-" +:+ prompt).

Definition generateImageFromPrompt (call : nat) (prompt aspectRatio : string)
  : Completion string :=
  if String.eqb prompt "b" then Threw (JsError "429 RESOURCE_EXHAUSTED")
  else Returned ("data:image/jpeg;base64," +:+ prompt).

(** A second run of the image batch over one prompt that already has an
    image, the call failing this time. *)
Definition rerun : State :=
  {| isLoading := false; error := ""; ideas := ["a"];
     isKeyReady := true; isCheckingKey := false;
     generatedContent := {[ "a" := mkContent (Some "data:image/jpeg;base64,old") None ]};
     generatingState := ∅; batchJob := None |}.

Definition alwaysFails (call : nat) (prompt aspectRatio : string)
  : Completion string := Threw (JsError "503").
End MockBatch.

(** Seven results for the image history, with distinct locators. *)
Module MockHistory.
Import ImageGenerator.

Definition entry (n : string) : ImageHistoryItem :=
  mkItem ("data:image/jpeg;base64," +:+ n) ("prompt " +:+ n) Ratio_1_1.

Definition seven : list ImageHistoryItem :=
  map entry ["1"; "2"; "3"; "4"; "5"; "6"; "7"].
End MockHistory.

(** A service whose second poll fails. *)
Module MockOutage.
Import GeminiService.

Definition service : Service :=
  {| generateContent := fun _ _ => Threw (JsError "503 Service Unavailable");
     generateImages := fun _ _ => Threw (JsError "503 Service Unavailable");
     generateVideos := fun _ => Returned Mock.pending0;
     getVideosOperation := fun n _ =>
       match n with
       | 0 => Returned Mock.pending1
       | _ => Threw (JsError "503 Service Unavailable")
       end;
     fetch := fun _ => Threw (NotAnError "offline") |}.
End MockOutage.

(** * Properties *)

(** ** The generation service *)
Section GeminiServiceFacts.
Import GeminiService.
Context (env : Env) (svc : Service).

Lemma truthy_Some (v : option string) :
  truthy v = true -> exists s, v = Some s /\ s <> "".
Proof.
  destruct v as [s|]; simpl; [|discriminate].
  intros H. exists s. split; [reflexivity|].
  intros ->. discriminate.
Qed.

Lemma truthy_Some_iff (v : option string) (s : string) :
  v = Some s /\ s <> "" <-> truthy v = true /\ default "" v = s.
Proof.
  split.
  - intros [-> Hs]. simpl. split; [|reflexivity].
    destruct (String.eqb_spec s ""); [contradiction|reflexivity].
  - intros [Ht <-]. destruct (truthy_Some _ Ht) as (s' & -> & Hs'). auto.
Qed.

Lemma pollRounds_cons apiKey op pending :
  pollRounds apiKey (op :: pending)
  = EvSleep 10000 :: EvGetVideosOperation apiKey op :: pollRounds apiKey pending.
Proof. reflexivity. Qed.

(** The loop follows the service's answers: one sleep and one poll per
    pending operation, and it leaves with the operation that is done. *)
Lemma pollLoop_chain apiKey (pending : list Operation) :
  forall fuel n first rest final,
    pending ++ [final] = first :: rest ->
    Forall (fun op => op_done op = false) pending ->
    op_done final = true ->
    chain svc n first rest ->
    length pending <= fuel ->
    pollLoop svc apiKey fuel n first
    = (pollRounds apiKey pending, Some (Returned final)).
Proof.
  induction pending as [|p pending IH]; intros fuel n first rest final Heq Hp Hf Hc Hfuel.
  - simpl in Heq. injection Heq as <- <-.
    destruct fuel; simpl; rewrite Hf; reflexivity.
  - simpl in Heq. injection Heq as <- <-.
    apply Forall_cons in Hp as [Hp0 Hp].
    destruct fuel as [|fuel]; [simpl in Hfuel; lia|].
    simpl. rewrite Hp0.
    destruct (pending ++ [final]) as [|next rest'] eqn:E.
    { destruct pending; discriminate. }
    destruct Hc as [Hpoll Hc]. rewrite Hpoll.
    rewrite (IH fuel (S n) next rest' final E Hp Hf Hc); [|simpl in Hfuel; lia].
    reflexivity.
Qed.

Lemma pollRounds_polls apiKey pending :
  List.filter isPoll (pollRounds apiKey pending)
  = map (EvGetVideosOperation apiKey) pending.
Proof. induction pending as [|p l IH]; simpl; [|rewrite IH]; reflexivity. Qed.

Lemma pollRounds_sleeps apiKey pending :
  List.filter isSleep (pollRounds apiKey pending)
  = replicate (length pending) (EvSleep 10000).
Proof. induction pending as [|p l IH]; simpl; [|rewrite IH]; reflexivity. Qed.

Lemma pollRounds_no_fetch apiKey pending :
  List.filter isFetch (pollRounds apiKey pending) = [].
Proof. induction pending as [|p l IH]; simpl; [|rewrite IH]; reflexivity. Qed.

Lemma download_polls apiKey op :
  List.filter isPoll (download svc apiKey op).1 = []
  /\ List.filter isSleep (download svc apiKey op).1 = [].
Proof.
  unfold download. destruct (negb (truthy (op_uri op))); [split; reflexivity|].
  destruct (fetch svc _) as [r|e]; [destruct (negb (fr_ok r))|]; split; reflexivity.
Qed.

Lemma download_fetch apiKey op url :
  In (EvFetch url) (download svc apiKey op).1 ->
  exists link, op_uri op = Some link /\ url = link +:+ "&key=" +:+ apiKey.
Proof.
  unfold download. destruct (truthy (op_uri op)) eqn:Ht; simpl; [|tauto].
  destruct (truthy_Some _ Ht) as (link & Hlink & _). rewrite Hlink. simpl.
  intros Hin. exists link. split; [reflexivity|].
  destruct (fetch svc _) as [r|e]; [destruct (negb (fr_ok r))|];
    simpl in Hin; destruct Hin as [Hin|[]]; congruence.
Qed.

(** A run in which the service answers [pending] and then [final]. *)
Lemma generateVideo_completes fuel prompt aspectRatio duration allowPeople
    base64Image mimeType (pending rest : list Operation) (first final : Operation) :
  truthy (API_KEY env 0) = true ->
  pending ++ [final] = first :: rest ->
  generateVideos svc
    (videoPayload prompt aspectRatio duration allowPeople base64Image mimeType)
    = Returned first ->
  chain svc 0 first rest ->
  Forall (fun op => op_done op = false) pending ->
  op_done final = true ->
  length pending <= fuel ->
  generateVideo env svc fuel prompt aspectRatio duration allowPeople base64Image mimeType
  = (EvGenerateVideos (default "" (API_KEY env 0))
       (videoPayload prompt aspectRatio duration allowPeople base64Image mimeType)
     :: pollRounds (default "" (API_KEY env 0)) pending
     ++ (download svc (default "" (API_KEY env 0)) final).1,
     Some (rethrow "An unknown error occurred during video generation."
             (download svc (default "" (API_KEY env 0)) final).2)).
Proof.
  intros Hkey Heq Hsub Hc Hp Hf Hfuel.
  unfold generateVideo. rewrite Hkey. simpl negb. cbv iota.
  rewrite Hsub.
  rewrite (pollLoop_chain _ pending fuel 0 first rest final Heq Hp Hf Hc Hfuel).
  destruct (download svc _ final) as [tr r]. reflexivity.
Qed.

End GeminiServiceFacts.

(** C1.  When the submitted operation reports [done = false] exactly
    [length pending] times and then [done = true], [generateVideo] returns
    (given at least that much fuel), and its trace is the submission followed
    by one 10000 ms sleep and one poll per pending report, each poll being
    handed the whole operation value returned by the call before it, followed
    by the download of the final operation.  Hence there are exactly
    [length pending] polls and as many sleeps, and the submission, every poll
    and the asset fetch carry the key read once, when the call started,
    whatever the environment holds later on. *)
Theorem C1_generateVideo_polls_with_captured_key :
  forall (env : GeminiService.Env) (svc : GeminiService.Service) (fuel : nat)
         (prompt aspectRatio : string) (duration : Z) (allowPeople : bool)
         (base64Image mimeType : option string)
         (pending rest : list GeminiService.Operation)
         (first final : GeminiService.Operation),
    truthy (GeminiService.API_KEY env 0) = true ->
    pending ++ [final] = first :: rest ->
    GeminiService.generateVideos svc
      (GeminiService.videoPayload prompt aspectRatio duration allowPeople
         base64Image mimeType) = Returned first ->
    GeminiService.chain svc 0 first rest ->
    Forall (fun op => GeminiService.op_done op = false) pending ->
    GeminiService.op_done final = true ->
    length pending <= fuel ->
    let apiKey := default "" (GeminiService.API_KEY env 0) in
    let run := GeminiService.generateVideo env svc fuel prompt aspectRatio duration
                 allowPeople base64Image mimeType in
    let fetched := (GeminiService.download svc apiKey final).1 in
    run.1 = GeminiService.EvGenerateVideos apiKey
              (GeminiService.videoPayload prompt aspectRatio duration allowPeople
                 base64Image mimeType)
            :: GeminiService.pollRounds apiKey pending ++ fetched
    /\ run.2 = Some (GeminiService.rethrow
                       "An unknown error occurred during video generation."
                       (GeminiService.download svc apiKey final).2)
    /\ List.filter GeminiService.isPoll run.1
       = map (GeminiService.EvGetVideosOperation apiKey) pending
    /\ List.filter GeminiService.isSleep run.1
       = replicate (length pending) (GeminiService.EvSleep 10000)
    /\ (forall url, In (GeminiService.EvFetch url) run.1 ->
          exists link, GeminiService.op_uri final = Some link
                       /\ url = link +:+ "&key=" +:+ apiKey).
Proof.
  intros env svc fuel prompt aspectRatio duration allowPeople base64Image mimeType
         pending rest first final Hkey Heq Hsub Hc Hp Hf Hfuel apiKey run fetched.
  assert (Hrun := generateVideo_completes env svc fuel prompt aspectRatio duration
                    allowPeople base64Image mimeType pending rest first final
                    Hkey Heq Hsub Hc Hp Hf Hfuel).
  fold apiKey in Hrun. fold run in Hrun. fold fetched in Hrun.
  rewrite Hrun. simpl fst. simpl snd.
  destruct (download_polls svc apiKey final) as [Hnp Hns]. fold fetched in Hnp, Hns.
  split; [reflexivity|]. split; [reflexivity|].
  split; [|split].
  - simpl. rewrite List.filter_app, pollRounds_polls, Hnp. apply app_nil_r.
  - simpl. rewrite List.filter_app, pollRounds_sleeps, Hns. apply app_nil_r.
  - intros url [Hin|Hin]; [discriminate|].
    apply in_app_or in Hin as [Hin|Hin].
    + exfalso. assert (Hno := pollRounds_no_fetch apiKey pending).
      assert (Hin' : In (GeminiService.EvFetch url)
                        (List.filter GeminiService.isFetch
                           (GeminiService.pollRounds apiKey pending))).
      { apply List.filter_In. split; [exact Hin|reflexivity]. }
      rewrite Hno in Hin'. destruct Hin'.
    + apply (download_fetch svc apiKey final url Hin).
Qed.

(** The mock run of the specification: two reports of [done = false], then
    completion; two polls, each after a 10000 ms sleep, all with the key
    captured at the start although the environment holds another one by
    then. *)
Lemma C1_witness :
  (GeminiService.generateVideo Mock.env
     (Mock.service (Some "https://v/1?alt=media") (Returned Mock.video))
     2 "a" "16:9" 8 true None None).1
  = [GeminiService.EvGenerateVideos "key-A"
       (GeminiService.videoPayload "a" "16:9" 8 true None None);
     GeminiService.EvSleep 10000;
     GeminiService.EvGetVideosOperation "key-A" Mock.pending0;
     GeminiService.EvSleep 10000;
     GeminiService.EvGetVideosOperation "key-A" Mock.pending1;
     GeminiService.EvFetch "https://v/1?alt=media&key=key-A"].
Proof.
  refine (proj1 (C1_generateVideo_polls_with_captured_key Mock.env
            (Mock.service (Some "https://v/1?alt=media") (Returned Mock.video))
            2 "a" "16:9" 8 true None None
            [Mock.pending0; Mock.pending1]
            [Mock.pending1; Mock.completed (Some "https://v/1?alt=media")]
            Mock.pending0 (Mock.completed (Some "https://v/1?alt=media"))
            _ _ _ _ _ _ _)).
  - reflexivity.
  - reflexivity.
  - reflexivity.
  - simpl. split; [reflexivity|]. split; reflexivity.
  - repeat constructor.
  - reflexivity.
  - simpl. lia.
Defined.

(** C4.  In a run where the operation reaches [done = true]:
    - if the final operation has no result locator, [generateVideo] fails
      with the no-download-link error and its trace holds no fetch at all;
    - if it has one and the fetch answers with a status that is not ok,
      [generateVideo] fails with an error whose message carries the response's
      status text and body. *)
Theorem C4_generateVideo_completion_failures :
  forall (env : GeminiService.Env) (svc : GeminiService.Service) (fuel : nat)
         (prompt aspectRatio : string) (duration : Z) (allowPeople : bool)
         (base64Image mimeType : option string)
         (pending rest : list GeminiService.Operation)
         (first final : GeminiService.Operation),
    truthy (GeminiService.API_KEY env 0) = true ->
    pending ++ [final] = first :: rest ->
    GeminiService.generateVideos svc
      (GeminiService.videoPayload prompt aspectRatio duration allowPeople
         base64Image mimeType) = Returned first ->
    GeminiService.chain svc 0 first rest ->
    Forall (fun op => GeminiService.op_done op = false) pending ->
    GeminiService.op_done final = true ->
    length pending <= fuel ->
    let apiKey := default "" (GeminiService.API_KEY env 0) in
    let run := GeminiService.generateVideo env svc fuel prompt aspectRatio duration
                 allowPeople base64Image mimeType in
    (truthy (GeminiService.op_uri final) = false ->
       run.2 = Some (Threw (JsError
                 "Video generation succeeded, but no download link was provided."))
       /\ List.filter GeminiService.isFetch run.1 = [])
    /\ (forall link response,
          GeminiService.op_uri final = Some link -> link <> "" ->
          GeminiService.fetch svc (link +:+ "&key=" +:+ apiKey) = Returned response ->
          GeminiService.fr_ok response = false ->
          run.2 = Some (Threw (JsError
                    ("Failed to download video: "
                     +:+ GeminiService.fr_statusText response
                     +:+ ". Details: " +:+ GeminiService.fr_text response)))).
Proof.
  intros env svc fuel prompt aspectRatio duration allowPeople base64Image mimeType
         pending rest first final Hkey Heq Hsub Hc Hp Hf Hfuel apiKey run.
  assert (Hrun := generateVideo_completes env svc fuel prompt aspectRatio duration
                    allowPeople base64Image mimeType pending rest first final
                    Hkey Heq Hsub Hc Hp Hf Hfuel).
  fold apiKey in Hrun. fold run in Hrun. rewrite Hrun. simpl fst. simpl snd.
  split.
  - intros Hno. unfold GeminiService.download. rewrite Hno. simpl.
    split; [reflexivity|].
    rewrite List.filter_app, pollRounds_no_fetch. reflexivity.
  - intros link response Hlink Hne Hfetch Hok.
    unfold GeminiService.download. rewrite Hlink. simpl.
    destruct (String.eqb_spec link ""); [contradiction|]. simpl.
    rewrite Hfetch, Hok. reflexivity.
Qed.

(** Both failures on the mock service, after two pending reports. *)
Lemma C4_witness :
  (GeminiService.generateVideo Mock.env (Mock.service None (Returned Mock.video))
     2 "a" "16:9" 8 true None None).2
  = Some (Threw (JsError
            "Video generation succeeded, but no download link was provided."))
  /\ (GeminiService.generateVideo Mock.env
        (Mock.service (Some "https://v/1?alt=media") (Returned Mock.forbidden))
        2 "a" "16:9" 8 true None None).2
     = Some (Threw (JsError "Failed to download video: Forbidden. Details: denied")).
Proof.
  split.
  - refine (proj1 (proj1 (C4_generateVideo_completion_failures Mock.env
              (Mock.service None (Returned Mock.video))
              2 "a" "16:9" 8 true None None
              [Mock.pending0; Mock.pending1]
              [Mock.pending1; Mock.completed None]
              Mock.pending0 (Mock.completed None) _ _ _ _ _ _ _) _));
      simpl; first [lia | reflexivity | repeat split; reflexivity | repeat constructor].
  - refine (proj2 (C4_generateVideo_completion_failures Mock.env
              (Mock.service (Some "https://v/1?alt=media") (Returned Mock.forbidden))
              2 "a" "16:9" 8 true None None
              [Mock.pending0; Mock.pending1]
              [Mock.pending1; Mock.completed (Some "https://v/1?alt=media")]
              Mock.pending0 (Mock.completed (Some "https://v/1?alt=media"))
              _ _ _ _ _ _ _) "https://v/1?alt=media" Mock.forbidden _ _ _ _);
      simpl;
      first [lia | discriminate | reflexivity | repeat split; reflexivity
            | repeat constructor].
Defined.

(** *** The request payload and the calls made *)
Section GeminiServiceCalls.
Import GeminiService.
Context (env : Env) (svc : Service).





Lemma generateVideo_first_event fuel prompt aspectRatio duration allowPeople
    base64Image mimeType :
  truthy (API_KEY env 0) = true ->
  head (generateVideo env svc fuel prompt aspectRatio duration allowPeople
          base64Image mimeType).1
  = Some (EvGenerateVideos (default "" (API_KEY env 0))
            (videoPayload prompt aspectRatio duration allowPeople base64Image mimeType)).
Proof.
  intros Hkey. unfold generateVideo. rewrite Hkey. simpl.
  destruct (generateVideos svc _) as [op|e]; [|reflexivity].
  destruct (pollLoop svc _ fuel 0 op) as [tr [[op'|e]|]]; try reflexivity.
  destruct (download svc _ op') as [tr' r']. reflexivity.
Qed.


Lemma videoPayload_image prompt aspectRatio duration allowPeople base64Image
    mimeType bytes mime :
  vp_image (videoPayload prompt aspectRatio duration allowPeople base64Image mimeType)
  = Some (bytes, mime)
  <-> base64Image = Some bytes /\ mimeType = Some mime /\ bytes <> "" /\ mime <> "".
Proof.
  unfold videoPayload. simpl. split.
  - destruct (truthy base64Image) eqn:Hb; [|discriminate].
    destruct (truthy mimeType) eqn:Hm; [|discriminate].
    simpl. intros H. injection H as H1 H2.
    destruct (proj2 (truthy_Some_iff base64Image bytes) (conj Hb H1)) as [? ?].
    destruct (proj2 (truthy_Some_iff mimeType mime) (conj Hm H2)) as [? ?].
    auto.
  - intros (Hb & Hm & Hnb & Hnm).
    destruct (proj1 (truthy_Some_iff base64Image bytes) (conj Hb Hnb)) as [-> ->].
    destruct (proj1 (truthy_Some_iff mimeType mime) (conj Hm Hnm)) as [-> ->].
    reflexivity.
Qed.

Lemma last_cons_default {A} (l : list A) :
  forall x d, List.last (x :: l) d = List.last l x.
Proof.
  induction l as [|y l IH]; intros x d; [reflexivity|].
  change (List.last (x :: y :: l) d) with (List.last (y :: l) d).
  rewrite (IH y d), (IH y x). reflexivity.
Qed.

(** The polls answer in turn and the last one throws. *)
Lemma pollLoop_chain_throws apiKey (rest : list Operation) :
  forall fuel n first e,
    Forall (fun op => op_done op = false) (first :: rest) ->
    chain svc n first rest ->
    getVideosOperation svc (n + length rest) (List.last rest first) = Threw e ->
    length rest < fuel ->
    pollLoop svc apiKey fuel n first
    = (pollRounds apiKey (first :: rest), Some (Threw e)).
Proof.
  induction rest as [|next rest IH]; intros fuel n first e Hnd Hc Hthrow Hfuel.
  - apply Forall_cons in Hnd as [Hd _]. simpl in Hthrow. rewrite Nat.add_0_r in Hthrow.
    destruct fuel as [|fuel]; [simpl in Hfuel; lia|].
    simpl. rewrite Hd, Hthrow. reflexivity.
  - apply Forall_cons in Hnd as [Hd Hnd]. destruct Hc as [Hpoll Hc].
    destruct fuel as [|fuel]; [simpl in Hfuel; lia|].
    cbn [pollLoop]. rewrite Hd, Hpoll.
    rewrite (IH fuel (S n) next e Hnd Hc); [reflexivity| |simpl in Hfuel; lia].
    replace (S n + length rest) with (n + length (next :: rest)) by (simpl; lia).
    rewrite <- (last_cons_default rest next first). exact Hthrow.
Qed.

End GeminiServiceCalls.

(** C9 as stated fails: with both arguments supplied, the MIME type being the
    empty string (what [File.type] is for a file of unknown type), the
    payload has no start image. *)
Lemma C9_counterexample :
  ~ (forall prompt aspectRatio duration allowPeople base64Image mimeType,
       is_Some (GeminiService.vp_image
                  (GeminiService.videoPayload prompt aspectRatio duration allowPeople
                     base64Image mimeType))
       <-> is_Some base64Image /\ is_Some mimeType).
Proof.
  intros H.
  destruct (proj2 (H "a" "16:9" 8%Z true (Some "iVBORw0KGgo=") (Some "")))
    as [x Hx]; [split; eexists; reflexivity|].
  discriminate Hx.
Qed.

(** C9, amended.  The submitted request has a start image if and only if both
    the image bytes and the MIME type are supplied and are non-empty strings,
    and then the image is made of exactly these two; when either is missing,
    the payload has no image, and in every case (the API key being
    available) the first thing the call does is to submit that payload: a
    missing or empty image argument fails nothing. *)
Theorem C9_start_image_needs_both_arguments :
  forall (env : GeminiService.Env) (svc : GeminiService.Service) (fuel : nat)
         (prompt aspectRatio : string) (duration : Z) (allowPeople : bool)
         (base64Image mimeType : option string),
    truthy (GeminiService.API_KEY env 0) = true ->
    let payload := GeminiService.videoPayload prompt aspectRatio duration allowPeople
                     base64Image mimeType in
    (forall bytes mime,
        GeminiService.vp_image payload = Some (bytes, mime)
        <-> base64Image = Some bytes /\ mimeType = Some mime
            /\ bytes <> "" /\ mime <> "")
    /\ (base64Image = None \/ mimeType = None -> GeminiService.vp_image payload = None)
    /\ head (GeminiService.generateVideo env svc fuel prompt aspectRatio duration
               allowPeople base64Image mimeType).1
       = Some (GeminiService.EvGenerateVideos
                 (default "" (GeminiService.API_KEY env 0)) payload).
Proof.
  intros env svc fuel prompt aspectRatio duration allowPeople base64Image mimeType
         Hkey payload.
  split; [|split].
  - intros bytes mime. apply videoPayload_image.
  - unfold payload, GeminiService.videoPayload. simpl.
    intros [-> | ->]; simpl; [reflexivity|].
    destruct (truthy base64Image); reflexivity.
  - apply generateVideo_first_event. exact Hkey.
Qed.

(** Only the image bytes supplied: the job is submitted without an image. *)
Lemma C9_witness :
  head (GeminiService.generateVideo Mock.env
          (Mock.service None (Returned Mock.video)) 0 "a" "16:9" 8 true
          (Some "iVBORw0KGgo=") None).1
  = Some (GeminiService.EvGenerateVideos "key-A"
            (GeminiService.mkVideoPayload "veo-2.0-generate-001" "a" 1 "16:9" 8
               GeminiService.ALLOW_ALL None)).
Proof.
  refine (proj2 (proj2 (C9_start_image_needs_both_arguments Mock.env
            (Mock.service None (Returned Mock.video)) 0 "a" "16:9" 8 true
            (Some "iVBORw0KGgo=") None _))).
  reflexivity.
Defined.




(** Case analysis on membership in an explicit list, dropping the members
    that are built with another constructor. *)
Ltac split_In H :=
  simpl in H;
  repeat (destruct H as [H|H]; [try discriminate H|]);
  try contradiction.

(** ** The idea generator: state updates *)
Section IdeaGeneratorFacts.
Import IdeaGenerator.

Lemma run_app (l1 l2 : list Action) (s : State) :
  run (l1 ++ l2) s = run l2 (run l1 s).
Proof. unfold run. apply foldl_app. Qed.

Lemma run_cons (a : Action) (l : list Action) (s : State) :
  run (a :: l) s = run l (reduce s a).
Proof. reflexivity. Qed.

Lemma withProgress_twice n m (j : option BatchJob) :
  withProgress n <$> (withProgress m <$> j) = withProgress n <$> j.
Proof. destruct j as [[ty p tot]|]; reflexivity. Qed.

Context (t : string -> string).
Context (generateVideo : nat -> string -> string -> Z -> bool -> Completion string).

(** The loop over a list whose prompts succeed up to [idea], which fails. *)
Lemma videoLoop_first_failure (done : list string) :
  forall cp s idea rest err,
    (forall i p, done !! i = Some p ->
                 isReturned (generateVideo (cp + i) p "16:9" 8%Z true) = true) ->
    generateVideo (cp + length done) idea "16:9" 8%Z true = Threw err ->
    let log := videoLoop t generateVideo (done ++ idea :: rest) cp in
    error (run log s) = t "video.error.apiFail" +:+ " " +:+ errorMessageOf err
    /\ batchJob (run log s) = withProgress (S (cp + length done)) <$> batchJob s
    /\ List.filter isCallVideo log
       = imap (fun i p => CallGenerateVideo (cp + i) p "16:9" 8 true) (done ++ [idea])
    /\ (forall n, In (SetBatchProgress n) log -> n <= S (cp + length done)).
Proof.
  induction done as [|d done IH]; intros cp s idea rest err Hok Hfail.
  - simpl in *. rewrite Nat.add_0_r in *. rewrite Hfail. simpl.
    repeat split; try reflexivity.
    intros n H. split_In H. injection H as <-. lia.
  - simpl app. cbn [videoLoop].
    assert (Hd := Hok 0 d eq_refl). rewrite Nat.add_0_r in Hd.
    destruct (generateVideo cp d "16:9" 8%Z true) as [url|e] eqn:E; [|discriminate].
    specialize (IH (S cp)
      (reduce (reduce (reduce (reduce s (MarkVideo d true)) (PutVideo d url))
                 (SetBatchProgress (S cp))) (MarkVideo d false))
      idea rest err).
    destruct IH as (IH1 & IH2 & IH3 & IH4).
    { intros i p Hi. replace (S cp + i) with (cp + S i) by lia. apply Hok. exact Hi. }
    { replace (S cp + length done) with (cp + length (d :: done))
        by (simpl; lia). exact Hfail. }
    cbv zeta. repeat split.
    + exact IH1.
    + simpl in IH2 |- *. rewrite IH2. rewrite withProgress_twice.
      f_equal. f_equal. lia.
    + simpl. rewrite IH3. rewrite Nat.add_0_r. f_equal.
      apply imap_ext. intros i p _. simpl. f_equal. lia.
    + intros n H. simpl in H.
      destruct H as [H|[H|[H|[H|[H|H]]]]]; try discriminate.
      * injection H as <-. simpl. lia.
      * apply IH4 in H. simpl. lia.
Qed.

End IdeaGeneratorFacts.

(** C2.  The key being ready, when the prompts before position [k] all
    succeed and the prompt at position [k] (1-based, [k = length done + 1])
    fails with [err]: the error message is recorded; the calls made are those
    of the first [k] prompts, in order, and no other; the progress counter is
    never set beyond [k] and the batch job holds exactly [k] of [total] right
    before the handler's last action, which clears it. *)
Theorem C2_video_batch_stops_at_first_failure :
  forall (t : string -> string)
         (generateVideo : nat -> string -> string -> Z -> bool -> Completion string)
         (s : IdeaGenerator.State) (done : list string) (idea : string)
         (rest : list string) (err : Thrown),
    IdeaGenerator.isKeyReady s = true ->
    IdeaGenerator.ideas s = done ++ idea :: rest ->
    (forall i p, done !! i = Some p ->
                 isReturned (generateVideo i p "16:9" 8%Z true) = true) ->
    generateVideo (length done) idea "16:9" 8%Z true = Threw err ->
    let k := S (length done) in
    let log := IdeaGenerator.handleGenerateAllVideos t generateVideo s in
    IdeaGenerator.error (IdeaGenerator.run log s)
    = t "video.error.apiFail" +:+ " " +:+ errorMessageOf err
    /\ List.filter IdeaGenerator.isCallVideo log
       = imap (fun i p => IdeaGenerator.CallGenerateVideo i p "16:9" 8 true)
              (done ++ [idea])
    /\ (forall n, In (IdeaGenerator.SetBatchProgress n) log -> n <= k)
    /\ (exists body,
          log = body ++ [IdeaGenerator.SetBatchJob None]
          /\ IdeaGenerator.batchJob (IdeaGenerator.run body s)
             = Some {| IdeaGenerator.type := IdeaGenerator.videos;
                       IdeaGenerator.progress := k;
                       IdeaGenerator.total := length (IdeaGenerator.ideas s) |})
    /\ IdeaGenerator.batchJob (IdeaGenerator.run log s) = None.
Proof.
  intros t generateVideo s done idea rest err Hkey Hideas Hok Hfail k log.
  set (start := [IdeaGenerator.SetError "";
                 IdeaGenerator.SetBatchJob
                   (Some {| IdeaGenerator.type := IdeaGenerator.videos;
                            IdeaGenerator.progress := 0;
                            IdeaGenerator.total := length (IdeaGenerator.ideas s) |})]).
  set (loop := IdeaGenerator.videoLoop t generateVideo (done ++ idea :: rest) 0).
  assert (Hlog : log = start ++ loop ++ [IdeaGenerator.SetBatchJob None]).
  { unfold log, IdeaGenerator.handleGenerateAllVideos. rewrite Hkey.
    unfold loop. rewrite <- Hideas. reflexivity. }
  destruct (videoLoop_first_failure t generateVideo done 0
              (IdeaGenerator.run start s) idea rest err Hok Hfail)
    as (H1 & H2 & H3 & H4).
  cbv zeta in H1, H2, H3, H4. simpl plus in H2, H4. fold loop in H1, H2, H3, H4.
  rewrite Hlog. clear Hlog.
  split; [|split; [|split; [|split]]].
  - rewrite !run_app. exact H1.
  - rewrite !List.filter_app. simpl. rewrite app_nil_r. exact H3.
  - intros n Hin. apply in_app_or in Hin as [Hin|Hin]; [split_In Hin|].
    apply in_app_or in Hin as [Hin|Hin]; [apply H4; exact Hin|split_In Hin].
  - exists (start ++ loop). split; [rewrite <- app_assoc; reflexivity|].
    rewrite run_app, H2. reflexivity.
  - rewrite app_assoc, run_app. reflexivity.
Qed.

(** The first two prompts of the mock batch are attempted, the third never. *)
Lemma C2_witness :
  List.filter IdeaGenerator.isCallVideo
    (IdeaGenerator.handleGenerateAllVideos MockBatch.translate
       MockBatch.generateVideo MockBatch.state)
  = [IdeaGenerator.CallGenerateVideo 0 "a" "16:9" 8 true;
     IdeaGenerator.CallGenerateVideo 1 "b" "16:9" 8 true]
  /\ (forall n,
        In (IdeaGenerator.SetBatchProgress n)
           (IdeaGenerator.handleGenerateAllVideos MockBatch.translate
              MockBatch.generateVideo MockBatch.state) -> n <= 2).
Proof.
  pose proof (C2_video_batch_stops_at_first_failure MockBatch.translate
                MockBatch.generateVideo MockBatch.state ["a"] "b" ["c"]
                (JsError "429 RESOURCE_EXHAUSTED") eq_refl eq_refl) as H.
  destruct H as (_ & H2 & H3 & _).
  - intros [|i] p Hi; [|discriminate Hi]. injection Hi as <-. reflexivity.
  - reflexivity.
  - split; [exact H2|exact H3].
Defined.

(** ** The idea generator: order of the video batch *)
Section VideoBatchOrder.
Import IdeaGenerator.
Context (t : string -> string).
Context (generateVideo : nat -> string -> string -> Z -> bool -> Completion string).

Lemma app_snoc_split {A} (l b a : list A) (x c : A) :
  l ++ [x] = b ++ c :: a -> c <> x ->
  exists a', a = a' ++ [x] /\ l = b ++ c :: a'.
Proof.
  intros H Hne. destruct a as [|y a' _] using rev_ind.
  - apply app_inj_tail in H as [_ H]. congruence.
  - replace (b ++ c :: a' ++ [y]) with ((b ++ c :: a') ++ [y]) in H
      by (rewrite <- app_assoc; reflexivity).
    apply app_inj_tail in H as [H ->]. eauto.
Qed.

(** Where a call sits in the log of the loop: right after the flag of its
    own prompt is raised, and, unless it is the first call of the loop,
    right after the whole block of the prompt before it, which succeeded. *)
Lemma videoLoop_call_before (l : list string) :
  forall cp before n p ar d ap after,
    videoLoop t generateVideo l cp
    = before ++ CallGenerateVideo n p ar d ap :: after ->
    cp <= n /\ l !! (n - cp) = Some p /\ ar = "16:9" /\ d = 8%Z /\ ap = true
    /\ exists before0,
         before = before0 ++ [MarkVideo p true]
         /\ (n = cp -> before0 = [])
         /\ (forall m, n = S m -> cp <= m ->
               exists q url before',
                 l !! (m - cp) = Some q
                 /\ generateVideo m q "16:9" 8%Z true = Returned url
                 /\ before0 = before' ++ [CallGenerateVideo m q "16:9" 8 true;
                                          PutVideo q url;
                                          SetBatchProgress (S m);
                                          MarkVideo q false]).
Proof.
  induction l as [|idea rest IH]; intros cp before n p ar d ap after H.
  - simpl in H. destruct before; discriminate H.
  - cbn [videoLoop] in H.
    destruct before as [|b0 before]; [discriminate H|].
    simpl in H. injection H as <- H.
    destruct before as [|b1 before].
    + simpl in H. injection H as <- <- <- <- <- _.
      rewrite Nat.sub_diag. repeat split; try reflexivity.
      exists []. split; [reflexivity|]. split; [reflexivity|].
      intros m -> Hle. lia.
    + simpl in H. injection H as <- H.
      destruct (generateVideo cp idea "16:9" 8%Z true) as [url|err] eqn:E.
      * simpl in H.
        destruct before as [|b2 before]; [discriminate H|].
        simpl in H. injection H as <- H.
        destruct before as [|b3 before]; [discriminate H|].
        simpl in H. injection H as <- H.
        destruct before as [|b4 before]; [discriminate H|].
        simpl in H. injection H as <- H.
        destruct (IH (S cp) before n p ar d ap after H)
          as (Hle & Hp & -> & -> & -> & before0 & -> & Hfirst & Hprev).
        split; [lia|].
        split; [replace (n - cp) with (S (n - S cp)) by lia; exact Hp|].
        repeat (split; [reflexivity|]).
        exists (MarkVideo idea true :: CallGenerateVideo cp idea "16:9" 8 true
                :: PutVideo idea url :: SetBatchProgress (S cp)
                :: MarkVideo idea false :: before0).
        split; [reflexivity|]. split; [intros ->; lia|].
        intros m -> Hm. destruct (decide (m = cp)) as [->|Hne].
        -- rewrite (Hfirst eq_refl). rewrite Nat.sub_diag.
           exists idea, url, [MarkVideo idea true]. repeat split. exact E.
        -- destruct (Hprev m eq_refl) as (q & url' & before' & Hq & Hurl & ->);
             [lia|].
           exists q, url',
             (MarkVideo idea true :: CallGenerateVideo cp idea "16:9" 8 true
              :: PutVideo idea url :: SetBatchProgress (S cp)
              :: MarkVideo idea false :: before').
           split; [replace (m - cp) with (S (m - S cp)) by lia; exact Hq|].
           split; [exact Hurl|reflexivity].
      * simpl in H.
        do 4 (destruct before as [|? before]; [discriminate H|];
              simpl in H; injection H as _ H).
        destruct before; discriminate H.
Qed.

End VideoBatchOrder.

(** C6.  In the log of the sequential video batch, the call for the prompt at
    index [n + 1] comes immediately after: the call for the prompt at index
    [n], which returned; the recording of its video; the progress counter set
    to [n + 1]; the reset of that prompt's generating flag; and only then the
    raising of the next prompt's flag.  (A prompt whose call fails is followed
    by no call at all.) *)
Theorem C6_video_batch_is_sequential :
  forall (t : string -> string)
         (generateVideo : nat -> string -> string -> Z -> bool -> Completion string)
         (s : IdeaGenerator.State) (before after : list IdeaGenerator.Action)
         (n : nat) (p ar : string) (d : Z) (ap : bool),
    IdeaGenerator.handleGenerateAllVideos t generateVideo s
    = before ++ IdeaGenerator.CallGenerateVideo (S n) p ar d ap :: after ->
    exists q url before',
      IdeaGenerator.ideas s !! n = Some q
      /\ IdeaGenerator.ideas s !! S n = Some p
      /\ generateVideo n q "16:9" 8%Z true = Returned url
      /\ before = before' ++ [IdeaGenerator.CallGenerateVideo n q "16:9" 8 true;
                              IdeaGenerator.PutVideo q url;
                              IdeaGenerator.SetBatchProgress (S n);
                              IdeaGenerator.MarkVideo q false;
                              IdeaGenerator.MarkVideo p true].
Proof.
  intros t generateVideo s before after n p ar d ap H.
  unfold IdeaGenerator.handleGenerateAllVideos in H.
  destruct (negb (IdeaGenerator.isKeyReady s)).
  { destruct before as [|? [|? ?]]; discriminate H. }
  destruct before as [|b0 before]; [discriminate H|].
  simpl in H. injection H as <- H.
  destruct before as [|b1 before]; [discriminate H|].
  simpl in H. injection H as <- H.
  apply app_snoc_split in H as (after' & -> & H); [|discriminate].
  destruct (videoLoop_call_before t generateVideo _ 0 before (S n) p ar d ap after' H)
    as (_ & Hp & -> & -> & -> & before0 & -> & _ & Hprev).
  destruct (Hprev n eq_refl) as (q & url & before' & Hq & Hurl & ->); [lia|].
  rewrite Nat.sub_0_r in Hp, Hq.
  exists q, url, (IdeaGenerator.SetError "" :: IdeaGenerator.SetBatchJob
                    (Some {| IdeaGenerator.type := IdeaGenerator.videos;
                             IdeaGenerator.progress := 0;
                             IdeaGenerator.total := length (IdeaGenerator.ideas s) |})
                  :: before').
  split; [exact Hq|]. split; [exact Hp|]. split; [exact Hurl|].
  simpl. rewrite <- !app_assoc. reflexivity.
Qed.

(** In the mock batch the call for "b" follows the settled block of "a". *)
Lemma C6_witness :
  exists q url before',
    IdeaGenerator.ideas MockBatch.state !! 0 = Some q
    /\ IdeaGenerator.ideas MockBatch.state !! 1 = Some "b"
    /\ MockBatch.generateVideo 0 q "16:9" 8%Z true = Returned url
    /\ [IdeaGenerator.SetError "";
        IdeaGenerator.SetBatchJob (Some (IdeaGenerator.mkBatchJob IdeaGenerator.videos 0 3));
        IdeaGenerator.MarkVideo "a" true;
        IdeaGenerator.CallGenerateVideo 0 "a" "16:9" 8 true;
        IdeaGenerator.PutVideo "a" "blob:video-a";
        IdeaGenerator.SetBatchProgress 1;
        IdeaGenerator.MarkVideo "a" false;
        IdeaGenerator.MarkVideo "b" true]
       = before' ++ [IdeaGenerator.CallGenerateVideo 0 q "16:9" 8 true;
                     IdeaGenerator.PutVideo q url;
                     IdeaGenerator.SetBatchProgress 1;
                     IdeaGenerator.MarkVideo q false;
                     IdeaGenerator.MarkVideo "b" true].
Proof.
  apply (C6_video_batch_is_sequential MockBatch.translate MockBatch.generateVideo
           MockBatch.state _
           [IdeaGenerator.ConsoleError
              ("Failed to generate video for prompt: " +:+ IdeaGenerator.dquote
               +:+ "b" +:+ IdeaGenerator.dquote) (JsError "429 RESOURCE_EXHAUSTED");
            IdeaGenerator.SetError
              (MockBatch.translate "video.error.apiFail" +:+ " "
               +:+ "429 RESOURCE_EXHAUSTED");
            IdeaGenerator.SetBatchProgress 2;
            IdeaGenerator.MarkVideo "b" false;
            IdeaGenerator.SetBatchJob None]
           0 "b" "16:9" 8%Z true).
  reflexivity.
Defined.

(** C10.  [handleGenerate] empties the ideas list, the content map, the
    generating flags and the batch job before it calls the service (the call
    is the seventh action, after the six updates; nothing is restored
    afterwards), so that when the call fails the final state has no ideas, no
    content, no flags and no job, is not loading, and carries the error
    message; the key flags are as they were. *)
Theorem C10_handleGenerate_clears_before_calling :
  forall (t : string -> string) (generateIdeas : Completion (list string))
         (s : IdeaGenerator.State),
    let log := IdeaGenerator.handleGenerate t generateIdeas in
    let cleared := [IdeaGenerator.SetIsLoading true; IdeaGenerator.SetError "";
                    IdeaGenerator.SetIdeas []; IdeaGenerator.SetGeneratedContent ∅;
                    IdeaGenerator.SetGeneratingState ∅;
                    IdeaGenerator.SetBatchJob None] in
    (exists after,
        log = cleared ++ IdeaGenerator.CallGenerateIdeas :: after
        /\ ~ In IdeaGenerator.CallGenerateIdeas after)
    /\ IdeaGenerator.run cleared s
       = IdeaGenerator.mkState true "" [] (IdeaGenerator.isKeyReady s)
           (IdeaGenerator.isCheckingKey s) ∅ ∅ None
    /\ (forall err,
          generateIdeas = Threw err ->
          IdeaGenerator.run log s
          = IdeaGenerator.mkState false
              (t "idea.error.apiFail" +:+ " " +:+ errorMessageOf err) []
              (IdeaGenerator.isKeyReady s) (IdeaGenerator.isCheckingKey s) ∅ ∅ None).
Proof.
  intros t generateIdeas s log cleared. split; [|split].
  - unfold log, IdeaGenerator.handleGenerate.
    destruct generateIdeas as [l|e]; eexists; (split; [reflexivity|]);
      intros Hin; split_In Hin.
  - reflexivity.
  - intros err ->. reflexivity.
Qed.

(** A failing idea call from a state that holds ideas, content and a job. *)
Lemma C10_witness :
  IdeaGenerator.run
    (IdeaGenerator.handleGenerate MockBatch.translate (Threw (NotAnError "offline")))
    MockBatch.rerun
  = IdeaGenerator.mkState false "idea.error.apiFail An unknown error occurred." []
      true false ∅ ∅ None.
Proof.
  apply (proj2 (proj2 (C10_handleGenerate_clears_before_calling MockBatch.translate
                         (Threw (NotAnError "offline")) MockBatch.rerun))
           (NotAnError "offline")).
  reflexivity.
Defined.

(** C8.  [handleSelectKey] of the idea generator and of the image generator
    sets the readiness flag and empties the error message in every state;
    the one of the video creator sets the flag but leaves the error message
    as it was, so a message shown before the key was selected is still
    shown afterwards. *)
Theorem C8_handleSelectKey_in_the_three_components :
  (forall (s : IdeaGenerator.State),
      let s' := IdeaGenerator.run (IdeaGenerator.handleSelectKey (Returned tt)) s in
      IdeaGenerator.isKeyReady s' = true /\ IdeaGenerator.error s' = "")
  /\ (forall (s : ImageGenerator.State),
        let s' := ImageGenerator.handleSelectKey (Returned tt) s in
        ImageGenerator.isKeyReady s' = true /\ ImageGenerator.error s' = "")
  /\ (forall (s : VideoCreator.State),
        let s' := VideoCreator.handleSelectKey (Returned tt) s in
        VideoCreator.isKeyReady s' = true
        /\ VideoCreator.error s' = VideoCreator.error s)
  /\ VideoCreator.error
       (VideoCreator.handleSelectKey (Returned tt)
          (VideoCreator.mkState false false false "video.error.invalidKey" false None))
     = "video.error.invalidKey".
Proof.
  repeat split.
Qed.

(** ** The image generator: bounded history *)
Section ImageHistoryFacts.
Import ImageGenerator.

Lemma updatedHistory_unfold item prev :
  updatedHistory item prev
  = item :: take 5 (filter (fun i => imageUrl i ≠ imageUrl item) prev).
Proof. reflexivity. Qed.

Lemma updatedHistory_length item prev :
  length (updatedHistory item prev) <= MAX_HISTORY_ITEMS.
Proof. unfold updatedHistory. rewrite length_take. lia. Qed.

Lemma filter_take_filter_nil (u : string) (l : list ImageHistoryItem) :
  forall n,
    filter (fun i => imageUrl i = u) (take n (filter (fun i => imageUrl i ≠ u) l)) = [].
Proof.
  induction l as [|x l IH]; intros n.
  - rewrite filter_nil, take_nil. reflexivity.
  - rewrite filter_cons. destruct (decide (imageUrl x ≠ u)) as [Hne|Heq].
    + destruct n as [|n]; [reflexivity|]. simpl take.
      rewrite filter_cons_False by exact Hne. apply IH.
    + apply IH.
Qed.

Lemma updatedHistory_occurrences item prev :
  occurrences (imageUrl item) (updatedHistory item prev) = 1.
Proof.
  unfold occurrences. rewrite updatedHistory_unfold.
  rewrite filter_cons_True by reflexivity.
  rewrite filter_take_filter_nil. reflexivity.
Qed.

(** The filter of the updater keeps a list none of whose entries carries
    the locator. *)
Lemma filter_fresh (u : string) (l : list ImageHistoryItem) :
  (forall i, i ∈ l -> imageUrl i ≠ u) ->
  filter (fun i => imageUrl i ≠ u) l = l.
Proof.
  induction l as [|x l IH]; intros Hfresh; [reflexivity|].
  rewrite filter_cons_True by (apply Hfresh; left).
  rewrite IH; [reflexivity|]. intros i Hi. apply Hfresh. right. exact Hi.
Qed.

Lemma updatedHistory_fresh item prev :
  (forall i, i ∈ prev -> imageUrl i ≠ imageUrl item) ->
  updatedHistory item prev = item :: take 5 prev.
Proof.
  intros Hfresh. rewrite updatedHistory_unfold, filter_fresh by exact Hfresh.
  reflexivity.
Qed.

(** Insertions of results with pairwise distinct locators into the empty
    history: the six latest, latest first. *)
Lemma insertions_distinct (items : list ImageHistoryItem) :
  NoDup (imageUrl <$> items) ->
  foldl (fun h item => updatedHistory item h) [] items = take 6 (reverse items).
Proof.
  induction items as [|x items IH] using rev_ind; intros Hnd; [reflexivity|].
  rewrite fmap_app in Hnd. apply NoDup_app in Hnd as (Hitems & Hfresh & _).
  rewrite foldl_app, reverse_snoc. cbn [foldl].
  rewrite (IH Hitems), updatedHistory_fresh.
  - rewrite take_take. reflexivity.
  - intros i Hi Heq. apply subseteq_take in Hi. rewrite elem_of_reverse in Hi.
    apply (Hfresh (imageUrl i)).
    + apply list_elem_of_fmap. exists i. split; [reflexivity|exact Hi].
    + rewrite Heq. cbn [fmap list_fmap]. left.
Qed.

Context (t : string -> string).
Context (generateImageFromPrompt : string -> string -> Completion string).
Context (storageAccepts : list ImageHistoryItem -> bool).

(** A call of [generate] either leaves the history alone or inserts one
    entry with the updater. *)
Lemma generate_history s currentPrompt :
  history (generate t generateImageFromPrompt storageAccepts s currentPrompt)
  = history s
  \/ exists url,
       generateImageFromPrompt currentPrompt (aspectRatioText (currentAspectRatio s))
       = Returned url
       /\ history (generate t generateImageFromPrompt storageAccepts s currentPrompt)
          = updatedHistory (mkItem url currentPrompt (currentAspectRatio s)) (history s).
Proof.
  unfold generate. destruct (negb (truthy (Some currentPrompt))); [left; reflexivity|].
  destruct (generateImageFromPrompt _ _) as [url|err].
  - right. exists url. split; reflexivity.
  - left. destruct (_ || _); reflexivity.
Qed.

Lemma generateAll_length prompts :
  forall s,
    length (history (generateAll t generateImageFromPrompt storageAccepts s prompts))
    <= Nat.max MAX_HISTORY_ITEMS (length (history s)).
Proof.
  unfold generateAll.
  induction prompts as [|p prompts IH] using rev_ind; intros s.
  - simpl. unfold MAX_HISTORY_ITEMS. lia.
  - rewrite foldl_app. simpl.
    destruct (generate_history
                (foldl (generate t generateImageFromPrompt storageAccepts) s prompts) p)
      as [H|(url & _ & H)]; rewrite H.
    + apply IH.
    + pose proof (updatedHistory_length (mkItem url p
                    (currentAspectRatio
                       (foldl (generate t generateImageFromPrompt storageAccepts)
                          s prompts)))
                    (history (foldl (generate t generateImageFromPrompt storageAccepts)
                                s prompts))) as Hlen.
      unfold MAX_HISTORY_ITEMS in *. lia.
Qed.

End ImageHistoryFacts.

(** C7.  One insertion, into any list: the result starts with the new
    entry, followed by the first five of the former entries with another
    locator, in their former order; so it has [min 6 (1 + kept)] entries,
    what is dropped is everything after the fifth kept entry (the old end),
    and the inserted locator occurs exactly once.  In particular a new
    locator pushed on a full history of six drops exactly the oldest (last)
    entry, and pushed on a shorter history drops nothing.  Any sequence of
    insertions, and any sequence of [generate] calls, from a history of at
    most six entries (the component starts with none) never shows more than
    six; a successful [generate] applies the updater to the result; and
    results with pairwise distinct locators inserted into the empty history
    leave the six latest, latest first. *)
Theorem C7_history_is_bounded_and_deduplicated :
  (forall (item : ImageGenerator.ImageHistoryItem)
          (prev : list ImageGenerator.ImageHistoryItem),
      let kept := filter (fun i => ImageGenerator.imageUrl i
                                   ≠ ImageGenerator.imageUrl item) prev in
      let updated := ImageGenerator.updatedHistory item prev in
      length updated <= 6
      /\ head updated = Some item
      /\ (exists evicted, item :: kept = updated ++ evicted)
      /\ ImageGenerator.occurrences (ImageGenerator.imageUrl item) updated = 1
      /\ length updated = Nat.min 6 (S (length kept))
      /\ (forall i, i < 5 -> updated !! S i = kept !! i)
      /\ (forall i, 6 <= i -> updated !! i = None)
      /\ item :: kept = updated ++ drop 5 kept)
  /\ (forall (items prev : list ImageGenerator.ImageHistoryItem),
        length (foldl (fun h item => ImageGenerator.updatedHistory item h) prev items)
        <= Nat.max 6 (length prev))
  /\ (forall (t : string -> string)
             (generateImageFromPrompt : string -> string -> Completion string)
             (storageAccepts : list ImageGenerator.ImageHistoryItem -> bool)
             (s : ImageGenerator.State) (prompts : list string),
        length (ImageGenerator.history
                  (ImageGenerator.generateAll t generateImageFromPrompt storageAccepts
                     s prompts))
        <= Nat.max 6 (length (ImageGenerator.history s)))
  /\ (forall (item oldest : ImageGenerator.ImageHistoryItem)
             (newer : list ImageGenerator.ImageHistoryItem),
        length newer = 5 ->
        (forall i, i ∈ newer ++ [oldest] ->
                   ImageGenerator.imageUrl i ≠ ImageGenerator.imageUrl item) ->
        ImageGenerator.updatedHistory item (newer ++ [oldest]) = item :: newer)
  /\ (forall (item : ImageGenerator.ImageHistoryItem)
             (prev : list ImageGenerator.ImageHistoryItem),
        length prev < 6 ->
        (forall i, i ∈ prev ->
                   ImageGenerator.imageUrl i ≠ ImageGenerator.imageUrl item) ->
        ImageGenerator.updatedHistory item prev = item :: prev)
  /\ (forall (t : string -> string)
             (generateImageFromPrompt : string -> string -> Completion string)
             (storageAccepts : list ImageGenerator.ImageHistoryItem -> bool)
             (s : ImageGenerator.State) (currentPrompt url : string),
        truthy (Some currentPrompt) = true ->
        generateImageFromPrompt currentPrompt
          (ImageGenerator.aspectRatioText (ImageGenerator.currentAspectRatio s))
        = Returned url ->
        ImageGenerator.history
          (ImageGenerator.generate t generateImageFromPrompt storageAccepts s
             currentPrompt)
        = ImageGenerator.updatedHistory
            (ImageGenerator.mkItem url currentPrompt
               (ImageGenerator.currentAspectRatio s))
            (ImageGenerator.history s))
  /\ (forall items : list ImageGenerator.ImageHistoryItem,
        NoDup (ImageGenerator.imageUrl <$> items) ->
        foldl (fun h item => ImageGenerator.updatedHistory item h) [] items
        = take 6 (reverse items)).
Proof.
  split; [|split; [|split; [|split; [|split; [|split]]]]].
  - intros item prev kept updated.
    assert (Hupd : updated = item :: take 5 kept) by reflexivity.
    split; [apply updatedHistory_length|].
    split; [reflexivity|]. split.
    + exists (drop 5 kept). rewrite Hupd. cbn [app]. rewrite take_drop. reflexivity.
    + split; [apply updatedHistory_occurrences|].
      split; [rewrite Hupd; cbn [length]; rewrite length_take; lia|].
      split; [intros i Hi; rewrite Hupd; cbn [lookup list_lookup];
              apply lookup_take_lt; exact Hi|].
      split.
      * intros i Hi. apply lookup_ge_None_2.
        pose proof (updatedHistory_length item prev) as Hlen.
        unfold ImageGenerator.MAX_HISTORY_ITEMS in Hlen. fold updated in Hlen. lia.
      * rewrite Hupd. cbn [app]. rewrite take_drop. reflexivity.
  - intros items. induction items as [|x items IH] using rev_ind; intros prev.
    + simpl. lia.
    + rewrite foldl_app. cbn [foldl].
      pose proof (updatedHistory_length x
                    (foldl (fun h item => ImageGenerator.updatedHistory item h)
                       prev items)) as H.
      unfold ImageGenerator.MAX_HISTORY_ITEMS in H. lia.
  - intros. apply generateAll_length.
  - intros item oldest newer Hlen Hfresh.
    rewrite updatedHistory_fresh by exact Hfresh.
    rewrite take_app_le by lia. rewrite take_ge by lia. reflexivity.
  - intros item prev Hlen Hfresh.
    rewrite updatedHistory_fresh by exact Hfresh.
    rewrite take_ge by lia. reflexivity.
  - intros t gi sa s p url Hp Hurl. unfold ImageGenerator.generate.
    rewrite Hp, Hurl. reflexivity.
  - apply insertions_distinct.
Qed.

(** A full history of six and a seventh, new result: the first one is the
    one that goes. *)
Lemma C7_witness :
  NoDup (ImageGenerator.imageUrl <$> MockHistory.seven)
  /\ foldl (fun h item => ImageGenerator.updatedHistory item h) [] MockHistory.seven
     = map MockHistory.entry ["7"; "6"; "5"; "4"; "3"; "2"].
Proof.
  assert (Hnd : NoDup (ImageGenerator.imageUrl <$> MockHistory.seven))
    by (apply (bool_decide_unpack _); vm_compute; exact I).
  split; [exact Hnd|].
  destruct C7_history_is_bounded_and_deduplicated
    as (_ & _ & _ & _ & _ & _ & Hseq).
  rewrite (Hseq MockHistory.seven Hnd). reflexivity.
Defined.

(** ** The idea generator: the parallel image batch *)
Section ImageBatchStages.
Import IdeaGenerator.

Lemma settledCount_insert_reacted (stages : list Stage) :
  forall i, stages !! i = Some InFlight ->
            settledCount (<[i := Reacted]> stages) = settledCount stages.
Proof.
  induction stages as [|st stages IH]; intros [|i] H; try discriminate H.
  - injection H as ->. reflexivity.
  - simpl in *. rewrite (IH i H). reflexivity.
Qed.

Lemma settledCount_insert_settled (stages : list Stage) :
  forall i, stages !! i = Some Reacted ->
            settledCount (<[i := Settled]> stages) = S (settledCount stages).
Proof.
  induction stages as [|st stages IH]; intros [|i] H; try discriminate H.
  - injection H as ->. reflexivity.
  - simpl in *. rewrite (IH i H). lia.
Qed.

Lemma settledCount_replicate n : settledCount (replicate n InFlight) = 0.
Proof. induction n as [|n IH]; simpl; [|rewrite IH]; reflexivity. Qed.

Lemma allSettled_count (stages : list Stage) :
  allSettled stages = true -> settledCount stages = length stages.
Proof.
  unfold allSettled. induction stages as [|st stages IH]; simpl; [reflexivity|].
  intros H. apply andb_prop in H as [H1 H2]. rewrite H1, (IH H2). reflexivity.
Qed.

Lemma allSettled_lookup (stages : list Stage) :
  allSettled stages = true ->
  forall i st, stages !! i = Some st -> st = Settled.
Proof.
  unfold allSettled. induction stages as [|st0 stages IH]; simpl; intros H i st Hi.
  - destruct i; discriminate Hi.
  - apply andb_prop in H as [H1 H2]. destruct i as [|i]; simpl in Hi.
    + injection Hi as <-. destruct st0; try discriminate H1. reflexivity.
    + eapply IH; eauto.
Qed.

Lemma hasReacted_insert (stages : list Stage) (i j : nat) (st : Stage) :
  st <> InFlight ->
  hasReacted (<[i := st]> stages) j
  <-> hasReacted stages j \/ (j = i /\ i < length stages).
Proof.
  intros Hst. unfold hasReacted. rewrite list_lookup_insert.
  destruct (decide (i = j /\ i < length stages)) as [[-> Hlt]|Hn].
  - split; [intros _; right; auto|]. intros _. exists st. auto.
  - split; [intros H; left; exact H|].
    intros [H|[-> Hlt]]; [exact H|]. exfalso. apply Hn. auto.
Qed.

End ImageBatchStages.

Section ImageBatchInvariant.
Import IdeaGenerator.
Context (generateImageFromPrompt : nat -> string -> string -> Completion string).
Context (ids : list string) (s1 : State).

Lemma run_snoc (l : list Action) (a : Action) (s : State) :
  run (l ++ [a]) s = reduce (run l s) a.
Proof. unfold run. rewrite foldl_app. reflexivity. Qed.

Lemma content_PutImage s idea url :
  generatedContent (reduce s (PutImage idea url))
  = <[idea := withImage (generatedContent s !! idea) url]> (generatedContent s).
Proof. reflexivity. Qed.

Lemma imageOf_PutImage s idea url p :
  imageOf (reduce s (PutImage idea url)) p
  = if decide (idea = p) then Some url else imageOf s p.
Proof.
  unfold imageOf. rewrite content_PutImage, lookup_insert.
  destruct (decide (idea = p)); reflexivity.
Qed.

Lemma stepChain_invariant (sl : list Stage * list Action) (i : nat) :
  batchInvariant generateImageFromPrompt ids s1 sl ->
  batchInvariant generateImageFromPrompt ids s1
    (stepChain generateImageFromPrompt ids sl i).
Proof.
  intros (Hlen & Hjob & Hincr & Hclear & Hslots). unfold stepChain.
  destruct (sl.1 !! i) as [st|] eqn:Hst;
    [|repeat split; assumption].
  destruct (ids !! i) as [idea|] eqn:Hid;
    [|destruct st; repeat split; assumption].
  assert (Hlt : i < length (sl.1)) by (eapply lookup_lt_Some; eauto).
  destruct st.
  - (* the [then] or [catch] reaction *)
    unfold onReact.
    destruct (generateImageFromPrompt i idea "16:9") as [url|err] eqn:Hg.
    + split; [simpl; rewrite length_insert; exact Hlen|].
      split; [simpl; rewrite run_snoc, settledCount_insert_reacted by exact Hst;
              exact Hjob|].
      split; [simpl; rewrite List.filter_app, settledCount_insert_reacted by exact Hst;
              simpl; rewrite app_nil_r; exact Hincr|].
      split; [simpl; rewrite List.filter_app, Hclear; reflexivity|].
      intros p. unfold slotInvariant. simpl fst. simpl snd. rewrite run_snoc.
      destruct (decide (idea = p)) as [->|Hne].
      * left. exists i, url. split; [exact Hid|]. split; [exact Hg|].
        split; [apply hasReacted_insert; [discriminate|right; auto]|].
        rewrite imageOf_PutImage. destruct (decide (p = p)); congruence.
      * destruct (Hslots p) as [(i0 & url0 & Hi0 & Hg0 & Hr0 & Him)|(Hall & Hsame)].
        -- left. exists i0, url0. split; [exact Hi0|]. split; [exact Hg0|].
           split; [apply hasReacted_insert; [discriminate|left; exact Hr0]|].
           rewrite imageOf_PutImage. destruct (decide (idea = p)); congruence.
        -- right. split.
           ++ intros i0 Hi0 Hr0. apply hasReacted_insert in Hr0; [|discriminate].
              destruct Hr0 as [Hr0|[-> _]]; [apply Hall; assumption|congruence].
           ++ rewrite content_PutImage, lookup_insert_ne by exact Hne. exact Hsame.
    + split; [simpl; rewrite length_insert; exact Hlen|].
      split; [simpl; rewrite run_snoc, settledCount_insert_reacted by exact Hst;
              exact Hjob|].
      split; [simpl; rewrite List.filter_app, settledCount_insert_reacted by exact Hst;
              simpl; rewrite app_nil_r; exact Hincr|].
      split; [simpl; rewrite List.filter_app, Hclear; reflexivity|].
      intros p. unfold slotInvariant. simpl fst. simpl snd. rewrite run_snoc.
      change (reduce (run (sl.2) s1) (ConsoleError _ err)) with (run (sl.2) s1).
      destruct (Hslots p) as [(i0 & url0 & Hi0 & Hg0 & Hr0 & Him)|(Hall & Hsame)].
      * left. exists i0, url0. split; [exact Hi0|]. split; [exact Hg0|].
        split; [apply hasReacted_insert; [discriminate|left; exact Hr0]|exact Him].
      * right. split; [|exact Hsame].
        intros i0 Hi0 Hr0. apply hasReacted_insert in Hr0; [|discriminate].
        destruct Hr0 as [Hr0|[-> _]]; [apply Hall; assumption|].
        assert (p = idea) as -> by congruence. rewrite Hg. reflexivity.
  - (* the [finally] reaction *)
    unfold onFinally.
    split; [simpl; rewrite length_insert; exact Hlen|].
    split.
    { simpl fst. simpl snd. rewrite run_app.
      rewrite settledCount_insert_settled by exact Hst.
      change (batchJob (run [IncrBatchProgress; MarkImage idea false] (run (sl.2) s1)))
        with ((fun prev => withProgress (progress prev + 1) prev)
                <$> batchJob (run (sl.2) s1)).
      rewrite Hjob. simpl. unfold withProgress. simpl. do 2 f_equal. lia. }
    split; [simpl; rewrite List.filter_app, length_app, Hincr,
              settledCount_insert_settled by exact Hst; simpl; lia|].
    split; [simpl; rewrite List.filter_app, Hclear; reflexivity|].
    intros p. unfold slotInvariant. simpl fst. simpl snd. rewrite run_app.
    change (generatedContent
              (run [IncrBatchProgress; MarkImage idea false] (run (sl.2) s1)))
      with (generatedContent (run (sl.2) s1)).
    change (imageOf (run [IncrBatchProgress; MarkImage idea false] (run (sl.2) s1)) p)
      with (imageOf (run (sl.2) s1) p).
    destruct (Hslots p) as [(i0 & url0 & Hi0 & Hg0 & Hr0 & Him)|(Hall & Hsame)].
    + left. exists i0, url0. split; [exact Hi0|]. split; [exact Hg0|].
      split; [apply hasReacted_insert; [discriminate|left; exact Hr0]|exact Him].
    + right. split; [|exact Hsame].
      intros i0 Hi0 Hr0. apply hasReacted_insert in Hr0; [|discriminate].
      destruct Hr0 as [Hr0|[-> _]]; [apply Hall; assumption|].
      apply Hall; [exact Hi0|]. exists Reacted. split; [exact Hst|discriminate].
  - repeat split; assumption.
Qed.

Hypothesis Hstart :
  batchJob s1 = Some {| type := images; progress := 0; total := length ids |}.

Lemma runSchedule_invariant (schedule : list nat) :
  batchInvariant generateImageFromPrompt ids s1
    (runSchedule generateImageFromPrompt ids schedule).
Proof.
  unfold runSchedule. induction schedule as [|i schedule IH] using rev_ind.
  - simpl. split; [apply length_replicate|].
    split; [simpl; rewrite settledCount_replicate; exact Hstart|].
    split; [simpl; rewrite settledCount_replicate; reflexivity|].
    split; [reflexivity|].
    intros p. right. split; [|reflexivity].
    intros i _ (st & Hst & Hne). simpl in Hst.
    apply lookup_replicate_1 in Hst as [-> _]. congruence.
  - rewrite foldl_app. simpl. apply stepChain_invariant. exact IH.
Qed.

End ImageBatchInvariant.

Section ImageBatchLog.
Import IdeaGenerator.

(** Issuing the calls changes nothing in the state, and the calls are the
    only actions of their kind. *)
Lemma imageCalls_neutral (l : list string) :
  forall (f : nat -> nat) s,
    let calls := imap (fun i idea => CallGenerateImage (f i) idea "16:9") l in
    run calls s = s
    /\ List.filter isClear calls = []
    /\ List.filter isIncr calls = []
    /\ List.filter isCallImage calls = calls.
Proof.
  induction l as [|x l IH]; intros f s; [repeat split|].
  destruct (IH (f ∘ S) s) as (H1 & H2 & H3 & H4).
  cbv zeta. rewrite imap_cons.
  change ((fun i idea => CallGenerateImage (f i) idea "16:9") ∘ S)
    with (fun i idea => CallGenerateImage ((f ∘ S) i) idea "16:9").
  split; [exact H1|]. split; [exact H2|]. split; [exact H3|].
  exact (f_equal (cons (CallGenerateImage (f 0) x "16:9")) H4).
Qed.

Lemma filter_nil_not_In {A} (f : A -> bool) (l : list A) (x : A) :
  List.filter f l = [] -> f x = true -> ~ In x l.
Proof.
  intros Hnil Hx Hin.
  assert (H : In x (List.filter f l)) by (apply List.filter_In; auto).
  rewrite Hnil in H. destruct H.
Qed.

Lemma runSchedule_no_calls
    (generateImageFromPrompt : nat -> string -> string -> Completion string)
    (ids : list string) (schedule : list nat) :
  List.filter isCallImage (runSchedule generateImageFromPrompt ids schedule).2 = [].
Proof.
  unfold runSchedule. induction schedule as [|i schedule IH] using rev_ind;
    [reflexivity|].
  rewrite foldl_app. cbn [foldl].
  set (sl := foldl (stepChain generateImageFromPrompt ids)
               (replicate (length ids) InFlight, []) schedule) in *.
  unfold stepChain.
  destruct (sl.1 !! i) as [[| |]|]; destruct (ids !! i) as [idea|];
    try exact IH; cbn [snd]; rewrite List.filter_app, IH; [|reflexivity].
  unfold onReact. destruct (generateImageFromPrompt i idea "16:9"); reflexivity.
Qed.

(** However the calls turn out, the batch can run to its end: letting the
    calls settle in turn settles them all. *)
Lemma inTurn_stages
    (generateImageFromPrompt : nat -> string -> string -> Completion string)
    (ids : list string) (k : nat) :
  k <= length ids ->
  (foldl (stepChain generateImageFromPrompt ids)
     (replicate (length ids) InFlight, []) (inTurn k)).1
  = replicate k Settled ++ replicate (length ids - k) InFlight.
Proof.
  unfold inTurn. induction k as [|k IH]; intros Hk.
  - simpl. rewrite Nat.sub_0_r. reflexivity.
  - rewrite seq_S, flat_map_app, foldl_app. change (0 + k) with k.
    cbn [flat_map app foldl].
    set (sl := foldl (stepChain generateImageFromPrompt ids)
                 (replicate (length ids) InFlight, [])
                 (flat_map (fun i => [i; i]) (seq 0 k))) in *.
    specialize (IH ltac:(lia)).
    destruct (lookup_lt_is_Some_2 ids k ltac:(lia)) as [idea Hidea].
    replace (length ids - k) with (S (length ids - S k)) in IH by lia.
    rewrite replicate_S in IH.
    assert (Hins : forall st st' rest,
               <[k := st]> (replicate k Settled ++ st' :: rest)
               = replicate k Settled ++ st :: rest).
    { intros st st' rest. rewrite insert_app_r_alt by (rewrite length_replicate; lia).
      rewrite length_replicate, Nat.sub_diag. reflexivity. }
    assert (Hlook : forall st rest,
               (replicate k Settled ++ st :: rest) !! k = Some st).
    { intros st rest. rewrite lookup_app_r by (rewrite length_replicate; lia).
      rewrite length_replicate, Nat.sub_diag. reflexivity. }
    unfold stepChain at 2. rewrite IH, Hlook, Hidea. cbn [fst snd].
    unfold stepChain. cbn [fst snd]. rewrite Hins, Hlook, Hidea. cbn [fst].
    rewrite Hins, replicate_S_end, <- app_assoc. reflexivity.
Qed.

Lemma image_batch_can_settle
    (generateImageFromPrompt : nat -> string -> string -> Completion string)
    (ids : list string) :
  allSettled (runSchedule generateImageFromPrompt ids (inTurn (length ids))).1 = true.
Proof.
  unfold runSchedule. rewrite inTurn_stages by lia.
  rewrite Nat.sub_diag, app_nil_r. unfold allSettled.
  induction (length ids) as [|n IH]; [reflexivity|exact IH].
Qed.

End ImageBatchLog.

(** C3 as stated fails on its last-but-one clause: a failed prompt's image
    slot is not emptied, it is left as it was.  Here the batch is run a
    second time over a prompt that has an image from the first run; the call
    fails and the slot still holds that image. *)
Lemma C3_counterexample :
  ~ (forall (t : string -> string)
            (generateImageFromPrompt : nat -> string -> string -> Completion string)
            (s : IdeaGenerator.State) (schedule : list nat),
        IdeaGenerator.isKeyReady s = true ->
        IdeaGenerator.allSettled
          (IdeaGenerator.runSchedule generateImageFromPrompt
             (IdeaGenerator.ideas s) schedule).1 = true ->
        forall i p,
          IdeaGenerator.ideas s !! i = Some p ->
          isReturned (generateImageFromPrompt i p "16:9") = false ->
          IdeaGenerator.imageOf
            (IdeaGenerator.run
               (IdeaGenerator.handleGenerateAllImages t generateImageFromPrompt
                  s schedule) s) p = None).
Proof.
  intros H.
  specialize (H MockBatch.translate MockBatch.alwaysFails MockBatch.rerun [0; 0]
                eq_refl eq_refl 0 "a" eq_refl eq_refl).
  vm_compute in H. discriminate H.
Qed.

(** C3, amended.  The key being ready, for every order in which the event
    loop runs the reactions of the [N] calls:
    - all [N] calls are issued, whatever their outcomes;
    - the job is cleared if and only if every chain has settled, and until
      then its progress is the number of settled chains;
    - once every chain has settled: the clearing is the last action, the
      progress stood at [N] of [N] right before it, having been incremented
      [N] times; a prompt with a call that returned has in its slot the
      image of a call for that prompt that returned (the image of its one
      call when the prompts are distinct); and the entry of a prompt whose
      calls all failed is left as it was before the batch, so empty exactly
      when it was empty. *)
Theorem C3_image_batch_isolates_failures :
  forall (t : string -> string)
         (generateImageFromPrompt : nat -> string -> string -> Completion string)
         (s : IdeaGenerator.State) (schedule : list nat),
    IdeaGenerator.isKeyReady s = true ->
    let N := length (IdeaGenerator.ideas s) in
    let log := IdeaGenerator.handleGenerateAllImages t generateImageFromPrompt
                 s schedule in
    let stages := (IdeaGenerator.runSchedule generateImageFromPrompt
                     (IdeaGenerator.ideas s) schedule).1 in
    List.filter IdeaGenerator.isCallImage log
    = imap (fun i idea => IdeaGenerator.CallGenerateImage i idea "16:9")
           (IdeaGenerator.ideas s)
    /\ (In (IdeaGenerator.SetBatchJob None) log
        <-> IdeaGenerator.allSettled stages = true)
    /\ (IdeaGenerator.allSettled stages = false ->
        IdeaGenerator.batchJob (IdeaGenerator.run log s)
        = Some {| IdeaGenerator.type := IdeaGenerator.images;
                  IdeaGenerator.progress := IdeaGenerator.settledCount stages;
                  IdeaGenerator.total := N |})
    /\ (IdeaGenerator.allSettled stages = true ->
        (exists body,
            log = body ++ [IdeaGenerator.SetBatchJob None]
            /\ IdeaGenerator.batchJob (IdeaGenerator.run body s)
               = Some {| IdeaGenerator.type := IdeaGenerator.images;
                         IdeaGenerator.progress := N;
                         IdeaGenerator.total := N |})
        /\ length (List.filter IdeaGenerator.isIncr log) = N
        /\ IdeaGenerator.batchJob (IdeaGenerator.run log s) = None
        /\ (forall i p url,
              IdeaGenerator.ideas s !! i = Some p ->
              generateImageFromPrompt i p "16:9" = Returned url ->
              exists j url',
                IdeaGenerator.ideas s !! j = Some p
                /\ generateImageFromPrompt j p "16:9" = Returned url'
                /\ IdeaGenerator.imageOf (IdeaGenerator.run log s) p = Some url')
        /\ (NoDup (IdeaGenerator.ideas s) ->
            forall i p url,
              IdeaGenerator.ideas s !! i = Some p ->
              generateImageFromPrompt i p "16:9" = Returned url ->
              IdeaGenerator.imageOf (IdeaGenerator.run log s) p = Some url)
        /\ (forall p,
              (forall i, IdeaGenerator.ideas s !! i = Some p ->
                         isReturned (generateImageFromPrompt i p "16:9") = false) ->
              IdeaGenerator.generatedContent (IdeaGenerator.run log s) !! p
              = IdeaGenerator.generatedContent s !! p)).
Proof.
  intros t gi s schedule Hkey N log stages.
  set (pre := [IdeaGenerator.SetError "";
               IdeaGenerator.SetBatchJob
                 (Some {| IdeaGenerator.type := IdeaGenerator.images;
                          IdeaGenerator.progress := 0; IdeaGenerator.total := N |});
               IdeaGenerator.SetGeneratingState (IdeaGenerator.initialImageFlags s)]).
  set (calls := imap (fun i idea => IdeaGenerator.CallGenerateImage i idea "16:9")
                     (IdeaGenerator.ideas s)).
  set (sl := IdeaGenerator.runSchedule gi (IdeaGenerator.ideas s) schedule).
  assert (Hlog : log = pre ++ calls ++ sl.2
                       ++ (if IdeaGenerator.allSettled stages
                           then [IdeaGenerator.SetBatchJob None] else [])).
  { unfold log, IdeaGenerator.handleGenerateAllImages. rewrite Hkey. reflexivity. }
  destruct (imageCalls_neutral (IdeaGenerator.ideas s) (fun i => i)
              (IdeaGenerator.run pre s)) as (Hc1 & Hc2 & Hc3 & Hc4).
  cbv zeta in Hc1, Hc2, Hc3, Hc4. fold calls in Hc1, Hc2, Hc3, Hc4.
  set (s1 := IdeaGenerator.run (pre ++ calls) s).
  assert (Hs1 : s1 = IdeaGenerator.run pre s) by (unfold s1; rewrite run_app; exact Hc1).
  assert (Hstart : IdeaGenerator.batchJob s1
                   = Some {| IdeaGenerator.type := IdeaGenerator.images;
                             IdeaGenerator.progress := 0; IdeaGenerator.total := N |})
    by (rewrite Hs1; reflexivity).
  assert (Hcontent : IdeaGenerator.generatedContent s1 = IdeaGenerator.generatedContent s)
    by (rewrite Hs1; reflexivity).
  destruct (runSchedule_invariant gi (IdeaGenerator.ideas s) s1 Hstart schedule)
    as (Hlen & Hjob & Hincr & Hclear & Hslots).
  fold sl in Hlen, Hjob, Hincr, Hclear, Hslots. fold stages in Hlen, Hjob, Hincr. fold N in Hjob.
  assert (Hbody : IdeaGenerator.run (pre ++ calls ++ sl.2) s = IdeaGenerator.run (sl.2) s1).
  { unfold s1. rewrite app_assoc, run_app. reflexivity. }
  split; [|split; [|split]].
  - rewrite Hlog, !List.filter_app, Hc4.
    assert (Hsl := runSchedule_no_calls gi (IdeaGenerator.ideas s) schedule).
    fold sl in Hsl.
    rewrite Hsl. unfold pre.
    destruct (IdeaGenerator.allSettled stages); simpl; apply app_nil_r.
  - rewrite Hlog. split.
    + intros Hin. destruct (IdeaGenerator.allSettled stages); [reflexivity|].
      exfalso. rewrite app_nil_r in Hin.
      apply in_app_or in Hin as [Hin|Hin]; [split_In Hin|].
      apply in_app_or in Hin as [Hin|Hin].
      * exact (filter_nil_not_In IdeaGenerator.isClear calls
                 (IdeaGenerator.SetBatchJob None) Hc2 eq_refl Hin).
      * exact (filter_nil_not_In IdeaGenerator.isClear (sl.2)
                 (IdeaGenerator.SetBatchJob None) Hclear eq_refl Hin).
    + intros ->. rewrite !app_assoc. apply in_or_app. right. left. reflexivity.
  - intros Hall. rewrite Hlog, Hall, app_nil_r, Hbody. exact Hjob.
  - intros Hall. rewrite Hlog, Hall.
    assert (Hcount : IdeaGenerator.settledCount (sl.1) = N)
      by (unfold N; rewrite <- Hlen; apply allSettled_count; exact Hall).
    assert (Hfinal : forall p,
               IdeaGenerator.generatedContent
                 (IdeaGenerator.run (pre ++ calls ++ sl.2 ++ [IdeaGenerator.SetBatchJob None]) s)
               !! p
               = IdeaGenerator.generatedContent (IdeaGenerator.run (sl.2) s1) !! p).
    { intros p. rewrite !app_assoc, run_snoc, <- app_assoc, Hbody. reflexivity. }
    assert (Hreacted : forall i p, IdeaGenerator.ideas s !! i = Some p ->
                                   IdeaGenerator.hasReacted stages i).
    { intros i p Hi. apply lookup_lt_Some in Hi. rewrite <- Hlen in Hi.
      apply lookup_lt_is_Some in Hi as [st Hst]. exists st. split; [exact Hst|].
      rewrite (allSettled_lookup stages Hall i st Hst). discriminate. }
    assert (Hkept : forall i p url,
               IdeaGenerator.ideas s !! i = Some p ->
               gi i p "16:9" = Returned url ->
               exists j url',
                 IdeaGenerator.ideas s !! j = Some p
                 /\ gi j p "16:9" = Returned url'
                 /\ IdeaGenerator.imageOf
                      (IdeaGenerator.run
                         (pre ++ calls ++ sl.2 ++ [IdeaGenerator.SetBatchJob None]) s) p
                    = Some url').
    { intros i p url Hi Hg.
      destruct (Hslots p) as [(j & url' & Hj & Hgj & _ & Him)|(Hnone & _)].
      - exists j, url'. split; [exact Hj|]. split; [exact Hgj|].
        unfold IdeaGenerator.imageOf in *. rewrite Hfinal. exact Him.
      - specialize (Hnone i Hi (Hreacted i p Hi)). rewrite Hg in Hnone.
        discriminate Hnone. }
    split; [|split; [|split; [|split; [|split]]]].
    + exists (pre ++ calls ++ sl.2). split; [rewrite <- !app_assoc; reflexivity|].
      rewrite Hbody, Hjob, Hcount. reflexivity.
    + rewrite !List.filter_app, !length_app, Hc3, Hincr, Hcount. simpl. lia.
    + rewrite !app_assoc, run_snoc. reflexivity.
    + exact Hkept.
    + intros Hnd i p url Hi Hg.
      destruct (Hkept i p url Hi Hg) as (j & url' & Hj & Hgj & Him).
      assert (i = j) as <- by (eapply NoDup_lookup; eauto).
      rewrite Him. congruence.
    + intros p Hfail. rewrite Hfinal, <- Hcontent.
      destruct (Hslots p) as [(j & url' & Hj & Hgj & _)|(_ & Hsame)]; [|exact Hsame].
      specialize (Hfail j Hj). rewrite Hgj in Hfail. discriminate Hfail.
Qed.

(** The batch of the specification: prompts "a", "b", "c", where "b" fails,
    the reactions running interleaved.  Progress is incremented three times,
    "a" and "c" have their images, "b" has none, and the job is cleared. *)
Lemma C3_witness :
  let log := IdeaGenerator.handleGenerateAllImages MockBatch.translate
               MockBatch.generateImageFromPrompt MockBatch.state [2; 0; 1; 0; 2; 1] in
  length (List.filter IdeaGenerator.isIncr log) = 3
  /\ IdeaGenerator.batchJob (IdeaGenerator.run log MockBatch.state) = None
  /\ IdeaGenerator.imageOf (IdeaGenerator.run log MockBatch.state) "a"
     = Some "data:image/jpeg;base64,a"
  /\ IdeaGenerator.imageOf (IdeaGenerator.run log MockBatch.state) "c"
     = Some "data:image/jpeg;base64,c"
  /\ IdeaGenerator.generatedContent (IdeaGenerator.run log MockBatch.state) !! "b"
     = None.
Proof.
  pose proof (C3_image_batch_isolates_failures MockBatch.translate
                MockBatch.generateImageFromPrompt MockBatch.state [2; 0; 1; 0; 2; 1]
                eq_refl) as H.
  cbv zeta in H. destruct H as (_ & _ & _ & H).
  destruct (H eq_refl) as (_ & Hincr & Hnone & _ & Hdistinct & Hfailed).
  assert (Hnd : NoDup (IdeaGenerator.ideas MockBatch.state)).
  { apply (bool_decide_unpack _). vm_compute. exact I. }
  cbv zeta. split; [exact Hincr|]. split; [exact Hnone|].
  split; [exact (Hdistinct Hnd 0 "a" _ eq_refl eq_refl)|].
  split; [exact (Hdistinct Hnd 2 "c" _ eq_refl eq_refl)|].
  apply (Hfailed "b"). intros i _. reflexivity.
Defined.

(** ** The models at work on concrete inputs *)

(** The seventh insertion evicts the first entry; the newest comes first. *)
Example history_overflow :
  map ImageGenerator.prompt
      (foldl (fun h item => ImageGenerator.updatedHistory item h) [] MockHistory.seven)
  = ["prompt 7"; "prompt 6"; "prompt 5"; "prompt 4"; "prompt 3"; "prompt 2"].
Proof. vm_compute. reflexivity. Qed.

(** Inserting a locator again moves its entry to the front. *)
Example history_repeat :
  map ImageGenerator.prompt
      (ImageGenerator.updatedHistory (MockHistory.entry "2")
         (map MockHistory.entry ["3"; "2"; "1"]))
  = ["prompt 2"; "prompt 3"; "prompt 1"].
Proof. vm_compute. reflexivity. Qed.

(** With too little fuel the poll loop is still running: two polls are
    needed on the mock service. *)
Example generateVideo_still_polling :
  (GeminiService.generateVideo Mock.env (Mock.service None (Returned Mock.video))
     1 "a" "16:9" 8 true None None).2 = None.
Proof. reflexivity. Qed.

(** Without an API key nothing is submitted. *)
Example generateVideo_without_key :
  GeminiService.generateVideo (GeminiService.mkEnv (fun _ => None))
    (Mock.service None (Returned Mock.video)) 5 "a" "16:9" 8 true None None
  = ([], Some (Threw (JsError "API key is not available."))).
Proof. reflexivity. Qed.

(** The whole log of the mock video batch. *)
Example video_batch_log :
  IdeaGenerator.handleGenerateAllVideos MockBatch.translate MockBatch.generateVideo
    MockBatch.state
  = [IdeaGenerator.SetError "";
     IdeaGenerator.SetBatchJob (Some (IdeaGenerator.mkBatchJob IdeaGenerator.videos 0 3));
     IdeaGenerator.MarkVideo "a" true;
     IdeaGenerator.CallGenerateVideo 0 "a" "16:9" 8 true;
     IdeaGenerator.PutVideo "a" "blob:video-a";
     IdeaGenerator.SetBatchProgress 1;
     IdeaGenerator.MarkVideo "a" false;
     IdeaGenerator.MarkVideo "b" true;
     IdeaGenerator.CallGenerateVideo 1 "b" "16:9" 8 true;
     IdeaGenerator.ConsoleError
       ("Failed to generate video for prompt: " +:+ IdeaGenerator.dquote +:+ "b"
        +:+ IdeaGenerator.dquote) (JsError "429 RESOURCE_EXHAUSTED");
     IdeaGenerator.SetError "video.error.apiFail 429 RESOURCE_EXHAUSTED";
     IdeaGenerator.SetBatchProgress 2;
     IdeaGenerator.MarkVideo "b" false;
     IdeaGenerator.SetBatchJob None].
Proof. reflexivity. Qed.

(** When the key is not ready neither batch starts. *)
Example batches_need_the_key :
  let s := IdeaGenerator.setIsKeyReady false MockBatch.state in
  IdeaGenerator.handleGenerateAllVideos MockBatch.translate MockBatch.generateVideo s
  = [IdeaGenerator.SetError "idea.error.apiKey"]
  /\ IdeaGenerator.handleGenerateAllImages MockBatch.translate
       MockBatch.generateImageFromPrompt s [0; 0; 1; 1; 2; 2]
     = [IdeaGenerator.SetError "idea.error.apiKey"].
Proof. split; reflexivity. Qed.


(** * Further properties of the service *)

Section GenerateVideoRuns.
Import GeminiService.
Context (env : Env) (svc : Service).

(** Whatever the service answers and however long the loop is followed, the
    loop only ever sleeps 10000 ms and then polls an operation that reported
    [done = false]; it stops on the first operation that is done. *)
Lemma pollLoop_shape apiKey fuel :
  forall n op,
    exists ops,
      (pollLoop svc apiKey fuel n op).1 = pollRounds apiKey ops
      /\ Forall (fun o => op_done o = false) ops
      /\ length ops <= fuel
      /\ ((pollLoop svc apiKey fuel n op).2 = None -> length ops = fuel)
      /\ (forall op', (pollLoop svc apiKey fuel n op).2 = Some (Returned op') ->
                      op_done op' = true).
Proof.
  induction fuel as [|fuel IH]; intros n op; simpl.
  - destruct (op_done op) eqn:Hd; exists []; simpl;
      (split; [reflexivity|]; split; [constructor|]; split; [lia|]; split;
       [try discriminate; reflexivity|]); intros op' H; congruence.
  - destruct (op_done op) eqn:Hd.
    + exists []. simpl. split; [reflexivity|]. split; [constructor|].
      split; [lia|]. split; [discriminate|]. intros op' H. congruence.
    + destruct (getVideosOperation svc n op) as [next|e].
      * destruct (IH (S n) next) as (ops & Htr & Hnd & Hlen & Hnone & Hdone).
        destruct (pollLoop svc apiKey fuel (S n) next) as [tr r]. simpl in *.
        exists (op :: ops). rewrite pollRounds_cons, Htr.
        split; [reflexivity|]. split; [constructor; assumption|].
        split; [simpl; lia|]. split; [intros H; simpl; rewrite (Hnone H); reflexivity|].
        exact Hdone.
      * exists [op]. simpl. split; [reflexivity|].
        split; [constructor; [exact Hd|constructor]|].
        split; [lia|]. split; discriminate.
Qed.

Lemma download_shape apiKey op :
  (download svc apiKey op).1 = []
  \/ exists link, op_uri op = Some link /\ link <> ""
                  /\ (download svc apiKey op).1 = [EvFetch (link +:+ "&key=" +:+ apiKey)].
Proof.
  unfold download. destruct (truthy (op_uri op)) eqn:Ht; simpl; [|left; reflexivity].
  destruct (truthy_Some _ Ht) as (link & Hlink & Hne). rewrite Hlink. simpl.
  right. exists link. split; [reflexivity|]. split; [exact Hne|].
  destruct (fetch svc _) as [r|e]; [destruct (negb (fr_ok r))|]; reflexivity.
Qed.

End GenerateVideoRuns.

(** X1.  For every environment, service, fuel and arguments, a run of
    [generateVideo] does nothing at all when the API key is unavailable;
    otherwise it submits first, then only repeats [sleep 10000 ms; poll] on
    operations that reported [done = false], and ends with at most one
    fetch, of a locator followed by the captured key.  In particular it never
    polls an operation that is done, never fetches while the loop runs, and a
    run cut short by the fuel has fetched nothing. *)
Theorem X1_generateVideo_trace_shape :
  forall (env : GeminiService.Env) (svc : GeminiService.Service) (fuel : nat)
         (prompt aspectRatio : string) (duration : Z) (allowPeople : bool)
         (base64Image mimeType : option string),
    let key := default "" (GeminiService.API_KEY env 0) in
    let run := GeminiService.generateVideo env svc fuel prompt aspectRatio duration
                 allowPeople base64Image mimeType in
    (truthy (GeminiService.API_KEY env 0) = false
     /\ run = ([], Some (Threw (JsError "API key is not available."))))
    \/ (truthy (GeminiService.API_KEY env 0) = true
        /\ exists ops tail,
             run.1 = GeminiService.EvGenerateVideos key
                       (GeminiService.videoPayload prompt aspectRatio duration
                          allowPeople base64Image mimeType)
                     :: GeminiService.pollRounds key ops ++ tail
             /\ Forall (fun o => GeminiService.op_done o = false) ops
             /\ length ops <= fuel
             /\ (tail = []
                 \/ exists link, link <> ""
                                 /\ tail = [GeminiService.EvFetch
                                              (link +:+ "&key=" +:+ key)])
             /\ (run.2 = None -> tail = [] /\ length ops = fuel)).
Proof.
  intros env svc fuel prompt aspectRatio duration allowPeople base64Image mimeType
         key run.
  unfold run, GeminiService.generateVideo.
  destruct (truthy (GeminiService.API_KEY env 0)) eqn:Hkey; simpl negb; cbv iota;
    [right|left; split; reflexivity].
  split; [reflexivity|]. fold key.
  destruct (GeminiService.generateVideos svc _) as [op|e].
  - destruct (pollLoop_shape svc key fuel 0 op) as (ops & Htr & Hnd & Hlen & Hnone & _).
    destruct (GeminiService.pollLoop svc key fuel 0 op) as [tr [[op'|e]|]]; simpl in *.
    + destruct (download_shape svc key op') as [Hd|(link & _ & Hne & Hd)];
        destruct (GeminiService.download svc key op') as [tr' r']; simpl in *;
        exists ops, tr'; rewrite Htr, Hd;
        (split; [reflexivity|]; split; [exact Hnd|]; split; [exact Hlen|]; split;
         [|discriminate]).
      * left. reflexivity.
      * right. exists link. split; [exact Hne|reflexivity].
    + exists ops, []. rewrite Htr, app_nil_r.
      split; [reflexivity|]. split; [exact Hnd|]. split; [exact Hlen|].
      split; [left; reflexivity|discriminate].
    + exists ops, []. rewrite Htr, app_nil_r.
      split; [reflexivity|]. split; [exact Hnd|]. split; [exact Hlen|].
      split; [left; reflexivity|]. intros _. split; [reflexivity|apply Hnone; reflexivity].
  - exists [], []. simpl. split; [reflexivity|]. split; [constructor|].
    split; [lia|]. split; [left; reflexivity|discriminate].
Qed.

(** X2.  When the operation completes with a result locator and the fetch
    of that locator (with the captured key appended) answers ok,
    [generateVideo] returns the object URL made of the fetched body, the
    fetch being the last thing it does. *)
Theorem X2_generateVideo_returns_the_object_URL :
  forall (env : GeminiService.Env) (svc : GeminiService.Service) (fuel : nat)
         (prompt aspectRatio : string) (duration : Z) (allowPeople : bool)
         (base64Image mimeType : option string)
         (pending rest : list GeminiService.Operation)
         (first final : GeminiService.Operation)
         (link : string) (response : GeminiService.FetchResponse),
    truthy (GeminiService.API_KEY env 0) = true ->
    pending ++ [final] = first :: rest ->
    GeminiService.generateVideos svc
      (GeminiService.videoPayload prompt aspectRatio duration allowPeople
         base64Image mimeType) = Returned first ->
    GeminiService.chain svc 0 first rest ->
    Forall (fun op => GeminiService.op_done op = false) pending ->
    GeminiService.op_done final = true ->
    length pending <= fuel ->
    GeminiService.op_uri final = Some link ->
    link <> "" ->
    GeminiService.fetch svc
      (link +:+ "&key=" +:+ default "" (GeminiService.API_KEY env 0))
      = Returned response ->
    GeminiService.fr_ok response = true ->
    GeminiService.generateVideo env svc fuel prompt aspectRatio duration allowPeople
      base64Image mimeType
    = (GeminiService.EvGenerateVideos (default "" (GeminiService.API_KEY env 0))
         (GeminiService.videoPayload prompt aspectRatio duration allowPeople
            base64Image mimeType)
       :: GeminiService.pollRounds (default "" (GeminiService.API_KEY env 0)) pending
       ++ [GeminiService.EvFetch
             (link +:+ "&key=" +:+ default "" (GeminiService.API_KEY env 0))],
       Some (Returned (GeminiService.fr_objectURL response))).
Proof.
  intros env svc fuel prompt aspectRatio duration allowPeople base64Image mimeType
         pending rest first final link response
         Hkey Heq Hsub Hc Hp Hf Hfuel Hlink Hne Hfetch Hok.
  rewrite (generateVideo_completes env svc fuel prompt aspectRatio duration allowPeople
             base64Image mimeType pending rest first final Hkey Heq Hsub Hc Hp Hf Hfuel).
  unfold GeminiService.download. rewrite Hlink. simpl.
  destruct (String.eqb_spec link ""); [contradiction|]. simpl.
  rewrite Hfetch, Hok. reflexivity.
Qed.

Lemma X2_witness :
  GeminiService.generateVideo Mock.env
    (Mock.service (Some "https://v/1?alt=media") (Returned Mock.video))
    7 "a" "16:9" 8 true None None
  = ([GeminiService.EvGenerateVideos "key-A"
        (GeminiService.videoPayload "a" "16:9" 8 true None None);
      GeminiService.EvSleep 10000;
      GeminiService.EvGetVideosOperation "key-A" Mock.pending0;
      GeminiService.EvSleep 10000;
      GeminiService.EvGetVideosOperation "key-A" Mock.pending1;
      GeminiService.EvFetch "https://v/1?alt=media&key=key-A"],
     Some (Returned "blob:video")).
Proof.
  refine (X2_generateVideo_returns_the_object_URL Mock.env
            (Mock.service (Some "https://v/1?alt=media") (Returned Mock.video))
            7 "a" "16:9" 8 true None None
            [Mock.pending0; Mock.pending1]
            [Mock.pending1; Mock.completed (Some "https://v/1?alt=media")]
            Mock.pending0 (Mock.completed (Some "https://v/1?alt=media"))
            "https://v/1?alt=media" Mock.video _ _ _ _ _ _ _ _ _ _ _);
    simpl;
    first [lia | discriminate | reflexivity | repeat split; reflexivity
          | repeat constructor].
Defined.

(** X3.  A failure ends the run where it happens.  If the submission throws,
    nothing is polled; if the polls answer with pending operations and then
    one throws, no further sleep, poll or fetch follows.  In both cases the
    caller gets the thrown [Error] itself, or the fixed unknown-error message
    when what was thrown is not an [Error]. *)
Theorem X3_generateVideo_stops_at_a_failure :
  forall (env : GeminiService.Env) (svc : GeminiService.Service) (fuel : nat)
         (prompt aspectRatio : string) (duration : Z) (allowPeople : bool)
         (base64Image mimeType : option string),
    truthy (GeminiService.API_KEY env 0) = true ->
    let key := default "" (GeminiService.API_KEY env 0) in
    let payload := GeminiService.videoPayload prompt aspectRatio duration allowPeople
                     base64Image mimeType in
    let run := GeminiService.generateVideo env svc fuel prompt aspectRatio duration
                 allowPeople base64Image mimeType in
    let unknown := "An unknown error occurred during video generation." in
    (forall e,
        GeminiService.generateVideos svc payload = Threw e ->
        run = ([GeminiService.EvGenerateVideos key payload],
               Some (GeminiService.rethrow unknown (Threw e))))
    /\ (forall first rest e,
          GeminiService.generateVideos svc payload = Returned first ->
          Forall (fun op => GeminiService.op_done op = false) (first :: rest) ->
          GeminiService.chain svc 0 first rest ->
          GeminiService.getVideosOperation svc (length rest) (List.last rest first)
            = Threw e ->
          length rest < fuel ->
          run = (GeminiService.EvGenerateVideos key payload
                 :: GeminiService.pollRounds key (first :: rest),
                 Some (GeminiService.rethrow unknown (Threw e)))).
Proof.
  intros env svc fuel prompt aspectRatio duration allowPeople base64Image mimeType
         Hkey key payload run unknown.
  split.
  - intros e Hsub. unfold run, GeminiService.generateVideo.
    rewrite Hkey. simpl negb. cbv iota. fold payload. rewrite Hsub. reflexivity.
  - intros first rest e Hsub Hnd Hc Hthrow Hfuel.
    unfold run, GeminiService.generateVideo.
    rewrite Hkey. simpl negb. cbv iota. fold payload key. rewrite Hsub.
    rewrite (pollLoop_chain_throws svc key rest fuel 0 first e Hnd Hc Hthrow Hfuel).
    reflexivity.
Qed.

Lemma X3_witness :
  GeminiService.generateVideo Mock.env MockOutage.service 5 "a" "16:9" 8 true None None
  = ([GeminiService.EvGenerateVideos "key-A"
        (GeminiService.videoPayload "a" "16:9" 8 true None None);
      GeminiService.EvSleep 10000;
      GeminiService.EvGetVideosOperation "key-A" Mock.pending0;
      GeminiService.EvSleep 10000;
      GeminiService.EvGetVideosOperation "key-A" Mock.pending1],
     Some (Threw (JsError "503 Service Unavailable"))).
Proof.
  refine (proj2 (X3_generateVideo_stops_at_a_failure Mock.env MockOutage.service 5
                   "a" "16:9" 8 true None None _)
            Mock.pending0 [Mock.pending1] (JsError "503 Service Unavailable")
            _ _ _ _ _);
    simpl;
    first [lia | reflexivity | repeat split; reflexivity | repeat constructor].
Defined.

(** * Further properties of the idea generator *)

Section VideoBatchRuns.
Import IdeaGenerator IdeaGeneratorView.
Context (t : string -> string).
Context (generateVideo : nat -> string -> string -> Z -> bool -> Completion string).

(** The state after the block of a prompt whose call returned. *)
Lemma run_video_success (d url : string) (cp : nat) (l : list Action) (s : State) :
  run (MarkVideo d true :: CallGenerateVideo cp d "16:9" 8 true :: PutVideo d url
       :: videoFinally d (S cp) ++ l) s
  = run l (reduce (reduce (reduce (reduce s (MarkVideo d true)) (PutVideo d url))
                     (SetBatchProgress (S cp))) (MarkVideo d false)).
Proof. reflexivity. Qed.

Lemma imageOf_video_success (d url : string) (cp : nat) (s : State) (p : string) :
  imageOf (reduce (reduce (reduce (reduce s (MarkVideo d true)) (PutVideo d url))
                     (SetBatchProgress (S cp))) (MarkVideo d false)) p
  = imageOf s p.
Proof.
  unfold imageOf.
  change (generatedContent
            (reduce (reduce (reduce (reduce s (MarkVideo d true)) (PutVideo d url))
                       (SetBatchProgress (S cp))) (MarkVideo d false)))
    with (<[d := withVideo (generatedContent s !! d) url]> (generatedContent s)).
  rewrite lookup_insert. destruct (decide (d = p)) as [->|]; reflexivity.
Qed.

Lemma content_video_success (d url : string) (cp : nat) (s : State) :
  generatedContent
    (reduce (reduce (reduce (reduce s (MarkVideo d true)) (PutVideo d url))
               (SetBatchProgress (S cp))) (MarkVideo d false))
  = <[d := withVideo (generatedContent s !! d) url]> (generatedContent s).
Proof. reflexivity. Qed.

Lemma flags_video_block (d : string) (s : State) (p : string) :
  generatingState
    (reduce (reduce s (MarkVideo d true)) (MarkVideo d false)) !! p
  = if decide (d = p)
    then Some (withGeneratingVideo
                 (Some (withGeneratingVideo (generatingState s !! d) true)) false)
    else generatingState s !! p.
Proof.
  change (generatingState (reduce (reduce s (MarkVideo d true)) (MarkVideo d false)))
    with (<[d := withGeneratingVideo
                    (<[d := withGeneratingVideo (generatingState s !! d) true]>
                       (generatingState s) !! d) false]>
            (<[d := withGeneratingVideo (generatingState s !! d) true]>
               (generatingState s))).
  rewrite lookup_insert. destruct (decide (d = p)) as [->|Hne].
  - rewrite lookup_insert_eq. reflexivity.
  - rewrite lookup_insert_ne by exact Hne. reflexivity.
Qed.

(** The loop, whatever the calls answer. *)
Lemma videoLoop_any_outcome (l : list string) :
  forall cp s,
    let log := videoLoop t generateVideo l cp in
    (forall p, imageOf (run log s) p = imageOf s p)
    /\ (forall p, existsb (callsVideoFor p) log = true ->
                  videoFlag (run log s) p = Some false)
    /\ (forall p, existsb (callsVideoFor p) log = false ->
                  generatingState (run log s) !! p = generatingState s !! p
                  /\ generatedContent (run log s) !! p = generatedContent s !! p)
    /\ (forall n, In (SetBatchProgress n) log -> cp < n <= cp + length l).
Proof.
  induction l as [|d rest IH]; intros cp s.
  - simpl. split; [reflexivity|]. split; [discriminate|].
    split; [intros p _; split; reflexivity|]. intros n [].
  - cbn [videoLoop].
    destruct (generateVideo cp d "16:9" 8%Z true) as [url|err] eqn:E.
    + set (s1 := reduce (reduce (reduce (reduce s (MarkVideo d true)) (PutVideo d url))
                           (SetBatchProgress (S cp))) (MarkVideo d false)).
      destruct (IH (S cp) s1) as (IH1 & IH2 & IH3 & IH4). cbv zeta in IH1, IH2, IH3, IH4.
      cbv zeta. rewrite run_video_success. fold s1.
      set (tail := videoLoop t generateVideo rest (S cp)) in *.
      assert (Hflag : forall p,
                 generatingState s1 !! p
                 = if decide (d = p)
                   then Some (withGeneratingVideo
                                (Some (withGeneratingVideo (generatingState s !! d) true))
                                false)
                   else generatingState s !! p)
        by (intros p; apply flags_video_block).
      split; [|split; [|split]].
      * intros p. rewrite IH1. apply imageOf_video_success.
      * intros p Hp. destruct (existsb (callsVideoFor p) tail) eqn:Ht.
        -- apply IH2. exact Ht.
        -- simpl in Hp. rewrite Ht, orb_false_r in Hp.
           apply String.eqb_eq in Hp as ->.
           unfold videoFlag. rewrite (proj1 (IH3 p Ht)), Hflag.
           destruct (decide (p = p)); [reflexivity|congruence].
      * intros p Hp. simpl in Hp. apply orb_false_elim in Hp as [Hd Hp].
        apply String.eqb_neq in Hd.
        destruct (IH3 p Hp) as [Hg Hc]. rewrite Hg, Hc, Hflag.
        unfold s1. rewrite content_video_success, lookup_insert_ne by exact Hd.
        destruct (decide (d = p)); [congruence|]. split; reflexivity.
      * intros n Hin. simpl in Hin.
        destruct Hin as [Hin|[Hin|[Hin|[Hin|[Hin|Hin]]]]]; try discriminate Hin.
        -- injection Hin as <-. simpl. lia.
        -- apply IH4 in Hin. simpl. lia.
    + cbv zeta. split; [|split; [|split]].
      * intros p. reflexivity.
      * intros p Hp. simpl in Hp. rewrite orb_false_r in Hp.
        apply String.eqb_eq in Hp as ->.
        unfold videoFlag.
        change (generatingState (run _ s))
          with (generatingState (reduce (reduce s (MarkVideo p true)) (MarkVideo p false))).
        rewrite flags_video_block. destruct (decide (p = p)); [reflexivity|congruence].
      * intros p Hp. simpl in Hp. rewrite orb_false_r in Hp.
        apply String.eqb_neq in Hp.
        change (generatingState (run _ s))
          with (generatingState (reduce (reduce s (MarkVideo d true)) (MarkVideo d false))).
        rewrite flags_video_block. destruct (decide (d = p)); [congruence|].
        split; reflexivity.
      * intros n Hin. split_In Hin. injection Hin as <-. simpl. lia.
Qed.

End VideoBatchRuns.

Section VideoBatchSuccess.
Import IdeaGenerator IdeaGeneratorView.
Context (t : string -> string).
Context (generateVideo : nat -> string -> string -> Z -> bool -> Completion string).

(** The loop over prompts that all succeed. *)
Lemma videoLoop_all_succeed (l : list string) :
  forall cp s,
    (forall i p, l !! i = Some p ->
                 isReturned (generateVideo (cp + i) p "16:9" 8%Z true) = true) ->
    let log := videoLoop t generateVideo l cp in
    error (run log s) = error s
    /\ batchJob (run log s)
       = match l with
         | [] => batchJob s
         | _ => withProgress (cp + length l) <$> batchJob s
         end
    /\ List.filter isCallVideo log
       = imap (fun i p => CallGenerateVideo (cp + i) p "16:9" 8 true) l
    /\ (forall p, p ∈ l ->
                  exists i url,
                    l !! i = Some p
                    /\ generateVideo (cp + i) p "16:9" 8%Z true = Returned url
                    /\ videoOf (run log s) p = Some url)
    /\ (forall p, p ∉ l ->
                  generatedContent (run log s) !! p = generatedContent s !! p).
Proof.
  induction l as [|d rest IH]; intros cp s Hok.
  - simpl. split; [reflexivity|]. split; [reflexivity|]. split; [reflexivity|].
    split; [intros p Hp; inversion Hp|reflexivity].
  - cbn [videoLoop].
    assert (Hd := Hok 0 d eq_refl). rewrite Nat.add_0_r in Hd.
    destruct (generateVideo cp d "16:9" 8%Z true) as [url|e] eqn:E; [|discriminate].
    set (s1 := reduce (reduce (reduce (reduce s (MarkVideo d true)) (PutVideo d url))
                         (SetBatchProgress (S cp))) (MarkVideo d false)).
    destruct (IH (S cp) s1) as (IH1 & IH2 & IH3 & IH4 & IH5).
    { intros i p Hi. replace (S cp + i) with (cp + S i) by lia. apply Hok. exact Hi. }
    cbv zeta in IH1, IH2, IH3, IH4, IH5.
    cbv zeta. rewrite run_video_success. fold s1.
    set (tail := videoLoop t generateVideo rest (S cp)) in *.
    split; [|split; [|split; [|split]]].
    + rewrite IH1. reflexivity.
    + rewrite IH2.
      change (batchJob s1) with (withProgress (S cp) <$> batchJob s).
      destruct rest as [|r rest'].
      * simpl. do 2 f_equal. lia.
      * rewrite withProgress_twice. simpl. do 2 f_equal. lia.
    + simpl. rewrite IH3, Nat.add_0_r. f_equal.
      apply imap_ext. intros i p _. simpl. f_equal. lia.
    + intros p Hp. destruct (decide (p ∈ rest)) as [Hin|Hnin].
      * destruct (IH4 p Hin) as (i & url' & Hi & Hg & Hv).
        exists (S i), url'. split; [exact Hi|].
        split; [replace (cp + S i) with (S cp + i) by lia; exact Hg|exact Hv].
      * apply elem_of_cons in Hp as [->|Hp]; [|contradiction].
        exists 0, url. split; [reflexivity|]. rewrite Nat.add_0_r. split; [exact E|].
        unfold videoOf. rewrite (IH5 d Hnin). unfold s1.
        rewrite content_video_success, lookup_insert_eq. reflexivity.
    + intros p Hp. apply not_elem_of_cons in Hp as [Hne Hp].
      rewrite (IH5 p Hp). unfold s1.
      rewrite content_video_success, lookup_insert_ne by congruence. reflexivity.
Qed.

End VideoBatchSuccess.

(** X5.  The key being ready, when the call of every prompt returns, the
    sequential video batch calls all the prompts in order, sets no error
    message, counts up to the number of prompts before it clears the job, and
    leaves in the slot of every prompt the video of a call made for it. *)
Theorem X5_video_batch_completes_when_all_calls_return :
  forall (t : string -> string)
         (generateVideo : nat -> string -> string -> Z -> bool -> Completion string)
         (s : IdeaGenerator.State),
    IdeaGenerator.isKeyReady s = true ->
    (forall i p, IdeaGenerator.ideas s !! i = Some p ->
                 isReturned (generateVideo i p "16:9" 8%Z true) = true) ->
    let N := length (IdeaGenerator.ideas s) in
    let log := IdeaGenerator.handleGenerateAllVideos t generateVideo s in
    IdeaGenerator.error (IdeaGenerator.run log s) = ""
    /\ List.filter IdeaGenerator.isCallVideo log
       = imap (fun i p => IdeaGenerator.CallGenerateVideo i p "16:9" 8 true)
              (IdeaGenerator.ideas s)
    /\ (exists body,
          log = body ++ [IdeaGenerator.SetBatchJob None]
          /\ IdeaGenerator.batchJob (IdeaGenerator.run body s)
             = Some {| IdeaGenerator.type := IdeaGenerator.videos;
                       IdeaGenerator.progress := N; IdeaGenerator.total := N |})
    /\ IdeaGenerator.batchJob (IdeaGenerator.run log s) = None
    /\ (forall p, p ∈ IdeaGenerator.ideas s ->
                  exists i url,
                    IdeaGenerator.ideas s !! i = Some p
                    /\ generateVideo i p "16:9" 8%Z true = Returned url
                    /\ IdeaGenerator.videoOf (IdeaGenerator.run log s) p = Some url).
Proof.
  intros t generateVideo s Hkey Hok N log.
  set (start := [IdeaGenerator.SetError "";
                 IdeaGenerator.SetBatchJob
                   (Some {| IdeaGenerator.type := IdeaGenerator.videos;
                            IdeaGenerator.progress := 0; IdeaGenerator.total := N |})]).
  set (loop := IdeaGenerator.videoLoop t generateVideo (IdeaGenerator.ideas s) 0).
  assert (Hlog : log = start ++ loop ++ [IdeaGenerator.SetBatchJob None]).
  { unfold log, IdeaGenerator.handleGenerateAllVideos. rewrite Hkey. reflexivity. }
  destruct (videoLoop_all_succeed t generateVideo (IdeaGenerator.ideas s) 0
              (IdeaGenerator.run start s) Hok) as (H1 & H2 & H3 & H4 & _).
  cbv zeta in H1, H2, H3, H4. fold loop in H1, H2, H3, H4.
  rewrite Hlog. clear Hlog.
  split; [|split; [|split; [|split]]].
  - rewrite app_assoc, run_snoc, run_app. exact H1.
  - rewrite !List.filter_app. simpl. rewrite app_nil_r. exact H3.
  - exists (start ++ loop). split; [rewrite <- app_assoc; reflexivity|].
    rewrite run_app, H2. unfold N. destruct (IdeaGenerator.ideas s); reflexivity.
  - rewrite app_assoc, run_snoc. reflexivity.
  - intros p Hp. destruct (H4 p Hp) as (i & url & Hi & Hg & Hv).
    exists i, url. split; [exact Hi|]. split; [exact Hg|].
    rewrite app_assoc, run_snoc, run_app. exact Hv.
Qed.

Lemma X5_witness :
  let log := IdeaGenerator.handleGenerateAllVideos MockBatch.translate
               MockBatch.generateVideo
               (IdeaGenerator.setIdeas ["a"; "c"] MockBatch.state) in
  IdeaGenerator.error
    (IdeaGenerator.run log (IdeaGenerator.setIdeas ["a"; "c"] MockBatch.state)) = ""
  /\ List.filter IdeaGenerator.isCallVideo log
     = [IdeaGenerator.CallGenerateVideo 0 "a" "16:9" 8 true;
        IdeaGenerator.CallGenerateVideo 1 "c" "16:9" 8 true].
Proof.
  pose proof (X5_video_batch_completes_when_all_calls_return MockBatch.translate
                MockBatch.generateVideo
                (IdeaGenerator.setIdeas ["a"; "c"] MockBatch.state) eq_refl) as H.
  destruct H as (H1 & H2 & _).
  - intros [|[|i]] p Hi; try discriminate Hi; injection Hi as <-; reflexivity.
  - split; [exact H1|exact H2].
Defined.

(** X6.  The key being ready, whatever the calls answer, the sequential
    video batch ends with no batch job; every prompt it called is left with
    its video flag reset to false; a prompt it did not call keeps its flags
    and its content entry; no image slot changes; and the progress counter
    is never set above the number of prompts. *)
Theorem X6_video_batch_always_ends_clean :
  forall (t : string -> string)
         (generateVideo : nat -> string -> string -> Z -> bool -> Completion string)
         (s : IdeaGenerator.State),
    IdeaGenerator.isKeyReady s = true ->
    let log := IdeaGenerator.handleGenerateAllVideos t generateVideo s in
    let s' := IdeaGenerator.run log s in
    IdeaGenerator.batchJob s' = None
    /\ (forall p, existsb (IdeaGeneratorView.callsVideoFor p) log = true ->
                  IdeaGeneratorView.videoFlag s' p = Some false)
    /\ (forall p, existsb (IdeaGeneratorView.callsVideoFor p) log = false ->
                  IdeaGenerator.generatingState s' !! p
                  = IdeaGenerator.generatingState s !! p
                  /\ IdeaGenerator.generatedContent s' !! p
                     = IdeaGenerator.generatedContent s !! p)
    /\ (forall p, IdeaGenerator.imageOf s' p = IdeaGenerator.imageOf s p)
    /\ (forall n, In (IdeaGenerator.SetBatchProgress n) log ->
                  n <= length (IdeaGenerator.ideas s)).
Proof.
  intros t generateVideo s Hkey log s'.
  set (start := [IdeaGenerator.SetError "";
                 IdeaGenerator.SetBatchJob
                   (Some {| IdeaGenerator.type := IdeaGenerator.videos;
                            IdeaGenerator.progress := 0;
                            IdeaGenerator.total := length (IdeaGenerator.ideas s) |})]).
  set (loop := IdeaGenerator.videoLoop t generateVideo (IdeaGenerator.ideas s) 0).
  assert (Hlog : log = start ++ loop ++ [IdeaGenerator.SetBatchJob None]).
  { unfold log, IdeaGenerator.handleGenerateAllVideos. rewrite Hkey. reflexivity. }
  destruct (videoLoop_any_outcome t generateVideo (IdeaGenerator.ideas s) 0
              (IdeaGenerator.run start s)) as (H1 & H2 & H3 & H4).
  cbv zeta in H1, H2, H3, H4. fold loop in H1, H2, H3, H4.
  assert (Hs' : s' = IdeaGenerator.setBatchJob None
                       (IdeaGenerator.run loop (IdeaGenerator.run start s))).
  { unfold s'. rewrite Hlog, app_assoc, run_snoc, run_app. reflexivity. }
  assert (Hex : forall p, existsb (IdeaGeneratorView.callsVideoFor p) log
                          = existsb (IdeaGeneratorView.callsVideoFor p) loop).
  { intros p. rewrite Hlog, !existsb_app. simpl. apply orb_false_r. }
  split; [rewrite Hs'; reflexivity|].
  split; [intros p Hp; rewrite Hex in Hp; rewrite Hs'; exact (H2 p Hp)|].
  split; [intros p Hp; rewrite Hex in Hp; rewrite Hs'; exact (H3 p Hp)|].
  split; [intros p; rewrite Hs'; exact (H1 p)|].
  intros n Hin. rewrite Hlog in Hin.
  apply in_app_or in Hin as [Hin|Hin]; [split_In Hin|].
  apply in_app_or in Hin as [Hin|Hin]; [|split_In Hin].
  apply H4 in Hin. lia.
Qed.

Lemma X6_witness :
  let log := IdeaGenerator.handleGenerateAllVideos MockBatch.translate
               MockBatch.generateVideo MockBatch.state in
  IdeaGeneratorView.videoFlag (IdeaGenerator.run log MockBatch.state) "b" = Some false
  /\ IdeaGenerator.generatingState (IdeaGenerator.run log MockBatch.state) !! "c" = None.
Proof.
  pose proof (X6_video_batch_always_ends_clean MockBatch.translate
                MockBatch.generateVideo MockBatch.state eq_refl) as H.
  cbv zeta in H. destruct H as (_ & H2 & H3 & _).
  cbv zeta. split; [exact (H2 "b" eq_refl)|exact (proj1 (H3 "c" eq_refl))].
Defined.

Section ImageBatchRuns.
Import IdeaGenerator IdeaGeneratorView.
Context (generateImageFromPrompt : nat -> string -> string -> Completion string).

Lemma settledCount_le (stages : list Stage) : settledCount stages <= length stages.
Proof.
  induction stages as [|st stages IH]; simpl; [lia|]. destruct (isSettled st); lia.
Qed.

Lemma runSchedule_reactions (ids : list string) (schedule : list nat) :
  forallb isImageReaction (runSchedule generateImageFromPrompt ids schedule).2 = true.
Proof.
  unfold runSchedule. induction schedule as [|i schedule IH] using rev_ind;
    [reflexivity|].
  rewrite foldl_app. cbn [foldl].
  set (sl := foldl (stepChain generateImageFromPrompt ids)
               (replicate (length ids) InFlight, []) schedule) in *.
  unfold stepChain.
  destruct (sl.1 !! i) as [[| |]|]; destruct (ids !! i) as [idea|];
    try exact IH; cbn [snd]; rewrite forallb_app, IH; [|reflexivity].
  unfold onReact. destruct (generateImageFromPrompt i idea "16:9"); reflexivity.
Qed.

(** The reactions touch neither the video slots, nor the video flags, nor
    the error message. *)
Lemma reactions_keep_video (l : list Action) :
  forall s,
    forallb isImageReaction l = true ->
    error (run l s) = error s
    /\ forall p, videoOf (run l s) p = videoOf s p
                 /\ videoFlag (run l s) p = videoFlag s p.
Proof.
  induction l as [|a l IH]; intros s Hl; [split; [|intros p; split]; reflexivity|].
  simpl in Hl. apply andb_prop in Hl as [Ha Hl].
  rewrite run_cons. destruct (IH (reduce s a) Hl) as [He Hv].
  destruct a; try discriminate Ha.
  - split; [exact He|]. intros p. exact (Hv p).
  - split; [exact He|]. intros p. destruct (Hv p) as [H1 H2]. rewrite H1, H2.
    split; [|reflexivity]. unfold videoOf. rewrite content_PutImage, lookup_insert.
    destruct (decide (idea = p)) as [->|]; reflexivity.
  - destruct b; [discriminate Ha|].
    split; [exact He|]. intros p. destruct (Hv p) as [H1 H2]. rewrite H1, H2.
    split; [reflexivity|]. unfold videoFlag.
    change (generatingState (reduce s (MarkImage idea false)))
      with (<[idea := withGeneratingImage (generatingState s !! idea) false]>
              (generatingState s)).
    rewrite lookup_insert. destruct (decide (idea = p)) as [->|]; reflexivity.
  - split; [exact He|]. intros p. exact (Hv p).
Qed.

Lemma imageFlag_MarkImage s idea b p :
  imageFlag (reduce s (MarkImage idea b)) p
  = if decide (idea = p) then Some b else imageFlag s p.
Proof.
  unfold imageFlag.
  change (generatingState (reduce s (MarkImage idea b)))
    with (<[idea := withGeneratingImage (generatingState s !! idea) b]>
            (generatingState s)).
  rewrite lookup_insert. destruct (decide (idea = p)); reflexivity.
Qed.

(** A prompt one of whose chains has settled is no longer flagged. *)
Lemma settled_chain_unflagged (ids : list string) (s1 : State) (schedule : list nat) :
  let sl := runSchedule generateImageFromPrompt ids schedule in
  forall i p, ids !! i = Some p -> sl.1 !! i = Some Settled ->
              imageFlag (run (sl.2) s1) p = Some false.
Proof.
  unfold runSchedule. induction schedule as [|k schedule IH] using rev_ind.
  - simpl. intros i p _ H. apply lookup_replicate_1 in H as [H _]. discriminate H.
  - rewrite foldl_app. cbn [foldl].
    set (sl := foldl (stepChain generateImageFromPrompt ids)
                 (replicate (length ids) InFlight, []) schedule) in *.
    cbv zeta in IH |- *. unfold stepChain.
    destruct (sl.1 !! k) as [st|] eqn:Hst; [|exact IH].
    destruct (ids !! k) as [idea|] eqn:Hid; [|destruct st; exact IH].
    destruct st; [| |exact IH].
    + intros i p Hi Hs. cbn [fst snd] in *.
      apply list_lookup_insert_Some in Hs as [(_ & Hs & _)|[_ Hs]]; [discriminate Hs|].
      rewrite run_app.
      assert (Hsame : generatingState
                        (run (onReact generateImageFromPrompt k idea) (run (sl.2) s1))
                      = generatingState (run (sl.2) s1)).
      { unfold onReact. destruct (generateImageFromPrompt k idea "16:9"); reflexivity. }
      unfold imageFlag. rewrite Hsame. exact (IH i p Hi Hs).
    + intros i p Hi Hs. cbn [fst snd] in *. rewrite run_app.
      change (run (onFinally idea) (run (sl.2) s1))
        with (reduce (reduce (run (sl.2) s1) IncrBatchProgress) (MarkImage idea false)).
      rewrite imageFlag_MarkImage.
      destruct (decide (idea = p)) as [|Hne]; [reflexivity|].
      apply list_lookup_insert_Some in Hs as [(-> & _ & _)|[_ Hs]]; [congruence|].
      exact (IH i p Hi Hs).
Qed.

(** The state the handler leaves, in terms of the reactions run. *)
Lemma handleGenerateAllImages_run (t : string -> string) (s : State)
    (schedule : list nat) :
  isKeyReady s = true ->
  let sl := runSchedule generateImageFromPrompt (ideas s) schedule in
  let s1 := setGeneratingState (initialImageFlags s)
              (setBatchJob (Some {| type := images; progress := 0;
                                    total := length (ideas s) |})
                 (setError "" s)) in
  run (handleGenerateAllImages t generateImageFromPrompt s schedule) s
  = run (if allSettled (sl.1) then [SetBatchJob None] else []) (run (sl.2) s1).
Proof.
  intros Hkey sl s1. unfold handleGenerateAllImages. rewrite Hkey. simpl negb. cbv iota.
  fold sl. rewrite !run_app.
  destruct (imageCalls_neutral (ideas s) (fun i => i)
              (run [SetError "";
                    SetBatchJob (Some {| type := images; progress := 0;
                                         total := length (ideas s) |});
                    SetGeneratingState (initialImageFlags s)] s)) as (Hc & _).
  cbv zeta in Hc. rewrite Hc. reflexivity.
Qed.

End ImageBatchRuns.

(** X7.  The key being ready, at every point of the parallel image batch
    (after any sequence of reactions): the batch job, while there is one,
    has counted no more than its total; the error message is empty, failed
    calls being only logged; and no video slot or video flag has changed.
    Once every call has settled, no prompt of the list is flagged as
    generating an image any more. *)
Theorem X7_image_batch_bookkeeping :
  forall (t : string -> string)
         (generateImageFromPrompt : nat -> string -> string -> Completion string)
         (s : IdeaGenerator.State) (schedule : list nat),
    IdeaGenerator.isKeyReady s = true ->
    let s' := IdeaGenerator.run
                (IdeaGenerator.handleGenerateAllImages t generateImageFromPrompt
                   s schedule) s in
    IdeaGeneratorView.jobWithinTotal (IdeaGenerator.batchJob s')
    /\ IdeaGenerator.error s' = ""
    /\ (forall p, IdeaGenerator.videoOf s' p = IdeaGenerator.videoOf s p)
    /\ (IdeaGenerator.allSettled
          (IdeaGenerator.runSchedule generateImageFromPrompt
             (IdeaGenerator.ideas s) schedule).1 = true ->
        forall p, p ∈ IdeaGenerator.ideas s ->
                  IdeaGeneratorView.imageFlag s' p = Some false).
Proof.
  intros t gi s schedule Hkey s'.
  assert (Hrun := handleGenerateAllImages_run gi t s schedule Hkey).
  cbv zeta in Hrun. fold s' in Hrun.
  set (sl := IdeaGenerator.runSchedule gi (IdeaGenerator.ideas s) schedule) in *.
  set (s1 := IdeaGenerator.setGeneratingState _ _) in *.
  destruct (runSchedule_invariant gi (IdeaGenerator.ideas s) s1 eq_refl schedule)
    as (Hlen & Hjob & _).
  fold sl in Hlen, Hjob.
  destruct (reactions_keep_video (sl.2) s1
              (runSchedule_reactions gi (IdeaGenerator.ideas s) schedule))
    as (Herr & Hvid).
  split; [|split; [|split]].
  - rewrite Hrun. destruct (IdeaGenerator.allSettled (sl.1)); [exact I|].
    simpl. rewrite Hjob. simpl. rewrite <- Hlen. apply settledCount_le.
  - rewrite Hrun. destruct (IdeaGenerator.allSettled (sl.1)); simpl; exact Herr.
  - intros p. rewrite Hrun.
    destruct (IdeaGenerator.allSettled (sl.1)); simpl; exact (proj1 (Hvid p)).
  - intros Hall p Hp. rewrite Hrun, Hall.
    apply list_elem_of_lookup in Hp as [i Hi].
    assert (Hst : sl.1 !! i = Some IdeaGenerator.Settled).
    { assert (Hlt := lookup_lt_Some _ _ _ Hi). rewrite <- Hlen in Hlt.
      apply lookup_lt_is_Some in Hlt as [st Hst].
      rewrite (allSettled_lookup (sl.1) Hall i st Hst) in Hst. exact Hst. }
    exact (settled_chain_unflagged gi (IdeaGenerator.ideas s) s1 schedule i p Hi Hst).
Qed.

Lemma X7_witness :
  let s' := IdeaGenerator.run
              (IdeaGenerator.handleGenerateAllImages MockBatch.translate
                 MockBatch.generateImageFromPrompt MockBatch.state [2; 0; 1; 0; 2; 1])
              MockBatch.state in
  IdeaGenerator.error s' = ""
  /\ IdeaGeneratorView.imageFlag s' "b" = Some false.
Proof.
  pose proof (X7_image_batch_bookkeeping MockBatch.translate
                MockBatch.generateImageFromPrompt MockBatch.state [2; 0; 1; 0; 2; 1]
                eq_refl) as H.
  cbv zeta in H. destruct H as (_ & H2 & _ & H4).
  cbv zeta. split; [exact H2|]. apply (H4 eq_refl "b").
  apply (bool_decide_unpack _). vm_compute. exact I.
Defined.

(** X8.  Idea generation end to end, for every service: [handleGenerate]
    run on the outcome of [generateIdeas] always ends not loading, with no
    content, no flags and no job, the key flags as they were; it shows the
    parsed prompts, with no error, exactly when the service answered with a
    text that parses to a [prompts] array, and otherwise shows no idea and
    the one fixed message, whatever went wrong underneath. *)
Theorem X8_idea_generation_end_to_end :
  forall (t : string -> string) (env : GeminiService.Env)
         (svc : GeminiService.Service)
         (parsePrompts : string -> option (list string)) (s : IdeaGenerator.State),
    let outcome := (GeminiService.generateIdeas env svc parsePrompts).2 in
    let s' := IdeaGenerator.run (IdeaGenerator.handleGenerate t outcome) s in
    IdeaGenerator.isLoading s' = false
    /\ IdeaGenerator.generatedContent s' = ∅
    /\ IdeaGenerator.generatingState s' = ∅
    /\ IdeaGenerator.batchJob s' = None
    /\ IdeaGenerator.isKeyReady s' = IdeaGenerator.isKeyReady s
    /\ IdeaGenerator.isCheckingKey s' = IdeaGenerator.isCheckingKey s
    /\ ((exists response text prompts,
            GeminiService.generateContent svc "gemini-2.5-flash"
              (GeminiService.TextContents GeminiService.ideasPrompt) = Returned response
            /\ GeminiService.cr_text response = Some text
            /\ parsePrompts text = Some prompts
            /\ IdeaGenerator.ideas s' = prompts
            /\ IdeaGenerator.error s' = "")
        \/ ((forall response text,
                GeminiService.generateContent svc "gemini-2.5-flash"
                  (GeminiService.TextContents GeminiService.ideasPrompt)
                = Returned response ->
                GeminiService.cr_text response = Some text ->
                parsePrompts text = None)
            /\ IdeaGenerator.ideas s' = []
            /\ IdeaGenerator.error s'
               = t "idea.error.apiFail"
                 +:+ " Failed to communicate with the AI model for idea generation.")).
Proof.
  intros t env svc parsePrompts s outcome s'.
  unfold s', outcome, GeminiService.generateIdeas. simpl snd.
  destruct (GeminiService.generateContent svc _ _) as [response|e] eqn:Hg.
  - destruct (GeminiService.cr_text response) as [text|] eqn:Ht.
    + destruct (parsePrompts text) as [prompts|] eqn:Hp.
      * repeat (split; [reflexivity|]). left. exists response, text, prompts.
        repeat split; assumption.
      * repeat (split; [reflexivity|]). right. split; [|split; reflexivity].
        intros r x Hr Hx. congruence.
    + repeat (split; [reflexivity|]). right. split; [|split; reflexivity].
      intros r x Hr Hx. congruence.
  - repeat (split; [reflexivity|]). right. split; [|split; reflexivity].
    intros r x Hr Hx. congruence.
Qed.

(** ** checkKey *)
Section KeyCheckFacts.
Import KeyCheck.
Context (aistudio : nat -> option (Completion bool)).

Lemma checkKey_waits (n : nat) :
  forall fuel attempt hasSelectedApiKey,
    (forall m, m < n -> aistudio (attempt + m) = None) ->
    aistudio (attempt + n) = Some hasSelectedApiKey ->
    n <= fuel ->
    checkKey aistudio fuel attempt
    = (replicate n (SetTimeout 100) ++ (checkKey aistudio 0 (attempt + n)).1, true).
Proof.
  induction n as [|n IH]; intros fuel attempt h Hnone Hsome Hfuel.
  - rewrite Nat.add_0_r in *. destruct fuel; simpl; rewrite Hsome; reflexivity.
  - destruct fuel as [|fuel]; [lia|]. simpl.
    assert (H0 := Hnone 0 ltac:(lia)). rewrite Nat.add_0_r in H0. rewrite H0.
    rewrite (IH fuel (S attempt) h).
    + replace (S attempt + n) with (attempt + S n) by lia. reflexivity.
    + intros m Hm. replace (S attempt + m) with (attempt + S m) by lia.
      apply Hnone. lia.
    + replace (S attempt + n) with (attempt + S n) by lia. exact Hsome.
    + lia.
Qed.

Lemma checkKey_still_waiting (fuel : nat) :
  forall attempt,
    (forall m, m <= fuel -> aistudio (attempt + m) = None) ->
    checkKey aistudio fuel attempt = (replicate fuel (SetTimeout 100), false).
Proof.
  induction fuel as [|fuel IH]; intros attempt Hnone.
  - assert (H0 := Hnone 0 ltac:(lia)). rewrite Nat.add_0_r in H0.
    simpl. rewrite H0. reflexivity.
  - assert (H0 := Hnone 0 ltac:(lia)). rewrite Nat.add_0_r in H0.
    simpl. rewrite H0. rewrite IH; [reflexivity|].
    intros m Hm. replace (S attempt + m) with (attempt + S m) by lia.
    apply Hnone. lia.
Qed.

Lemma run_timeouts (n : nat) (log : list Effect) (f : Flags) :
  run (replicate n (SetTimeout 100) ++ log) f = run log f.
Proof. induction n as [|n IH]; [reflexivity|exact IH]. Qed.

End KeyCheckFacts.

(** X9.  [checkKey] looks for [window.aistudio] every 100 ms.  If it shows
    up at the n-th retry, the check is made once, after exactly n timeouts,
    and it leaves the component not checking and ready exactly when
    [hasSelectedApiKey] resolved to true: a check that throws leaves it not
    ready.  As long as [window.aistudio] is missing, nothing is set and the
    component stays in its checking state. *)
Theorem X9_checkKey_fails_closed :
  forall (aistudio : nat -> option (Completion bool)) (fuel : nat)
         (flags : KeyCheck.Flags),
    (forall n hasSelectedApiKey,
        (forall m, m < n -> aistudio m = None) ->
        aistudio n = Some hasSelectedApiKey ->
        n <= fuel ->
        let log := (KeyCheck.checkKey aistudio fuel 0).1 in
        (KeyCheck.checkKey aistudio fuel 0).2 = true
        /\ List.filter (fun e => match e with KeyCheck.SetTimeout _ => true
                                            | _ => false end) log
           = replicate n (KeyCheck.SetTimeout 100)
        /\ List.filter (fun e => match e with KeyCheck.CallHasSelectedApiKey => true
                                            | _ => false end) log
           = [KeyCheck.CallHasSelectedApiKey]
        /\ KeyCheck.isCheckingKey (KeyCheck.run log flags) = false
        /\ KeyCheck.isKeyReady (KeyCheck.run log flags)
           = match hasSelectedApiKey with
             | Returned keyExists => keyExists
             | Threw _ => false
             end)
    /\ ((forall m, m <= fuel -> aistudio m = None) ->
        KeyCheck.checkKey aistudio fuel 0
        = (replicate fuel (KeyCheck.SetTimeout 100), false)
        /\ KeyCheck.run (KeyCheck.checkKey aistudio fuel 0).1 flags = flags).
Proof.
  intros aistudio fuel flags. split.
  - intros n h Hnone Hsome Hfuel log.
    assert (H := checkKey_waits aistudio n fuel 0 h Hnone Hsome Hfuel).
    unfold log. rewrite H. cbn [fst snd]. change (0 + n) with n.
    assert (Hlast : (KeyCheck.checkKey aistudio 0 n).1
                    = KeyCheck.SetIsCheckingKey true :: KeyCheck.CallHasSelectedApiKey
                      :: match h with
                         | Returned keyExists => [KeyCheck.SetIsKeyReady keyExists]
                         | Threw e => [KeyCheck.ConsoleError e;
                                       KeyCheck.SetIsKeyReady false]
                         end ++ [KeyCheck.SetIsCheckingKey false]).
    { simpl. rewrite Hsome. reflexivity. }
    rewrite Hlast. split; [reflexivity|].
    split; [|split; [|split]].
    + rewrite List.filter_app.
      replace (List.filter _ (replicate n (KeyCheck.SetTimeout 100)))
        with (replicate n (KeyCheck.SetTimeout 100))
        by (clear; induction n as [|n IH]; simpl; [|rewrite <- IH]; reflexivity).
      destruct h; simpl; apply app_nil_r.
    + rewrite List.filter_app.
      replace (List.filter _ (replicate n (KeyCheck.SetTimeout 100)))
        with (@nil KeyCheck.Effect)
        by (clear; induction n as [|n IH]; simpl; [|rewrite <- IH]; reflexivity).
      destruct h; reflexivity.
    + rewrite run_timeouts. destruct h; reflexivity.
    + rewrite run_timeouts. destruct h; reflexivity.
  - intros Hnone.
    rewrite (checkKey_still_waiting aistudio fuel 0 Hnone). split; [reflexivity|].
    simpl fst. rewrite <- (app_nil_r (replicate fuel _)). apply run_timeouts.
Qed.

Lemma X9_witness :
  (KeyCheck.checkKey KeyCheck.late 10 0).1
  = [KeyCheck.SetTimeout 100; KeyCheck.SetTimeout 100;
     KeyCheck.SetIsCheckingKey true; KeyCheck.CallHasSelectedApiKey;
     KeyCheck.ConsoleError (JsError "not allowed"); KeyCheck.SetIsKeyReady false;
     KeyCheck.SetIsCheckingKey false]
  /\ KeyCheck.isKeyReady
       (KeyCheck.run (KeyCheck.checkKey KeyCheck.late 10 0).1
          (KeyCheck.mkFlags true true)) = false.
Proof.
  pose proof (proj1 (X9_checkKey_fails_closed KeyCheck.late 10
                       (KeyCheck.mkFlags true true))
                2 (Threw (JsError "not allowed"))) as H.
  cbv zeta in H. destruct H as (_ & _ & _ & _ & H).
  - intros [|[|m]] Hm; [reflexivity|reflexivity|lia].
  - reflexivity.
  - lia.
  - split; [reflexivity|exact H].
Defined.


(** * Further properties of the image generator *)

Section ImageHistoryMore.
Import ImageGenerator ImageGeneratorView.

Lemma filter_take_filter_id (u : string) (l : list ImageHistoryItem) :
  forall n,
    filter (fun i => imageUrl i ≠ u) (take n (filter (fun i => imageUrl i ≠ u) l))
    = take n (filter (fun i => imageUrl i ≠ u) l).
Proof.
  induction l as [|x l IH]; intros n.
  - rewrite filter_nil, take_nil. reflexivity.
  - rewrite filter_cons. destruct (decide (imageUrl x ≠ u)) as [Hne|Heq].
    + destruct n as [|n]; [reflexivity|]. simpl take.
      rewrite filter_cons_True by exact Hne. rewrite IH. reflexivity.
    + apply IH.
Qed.

Lemma updatedHistory_tail_sublist item prev :
  tail (updatedHistory item prev) `sublist_of` prev.
Proof.
  rewrite updatedHistory_unfold. simpl.
  transitivity (filter (fun i => imageUrl i ≠ imageUrl item) prev).
  - apply sublist_take.
  - apply sublist_filter.
Qed.

Lemma updatedHistory_NoDup item prev :
  NoDup (imageUrl <$> prev) -> NoDup (imageUrl <$> updatedHistory item prev).
Proof.
  intros Hnd. rewrite updatedHistory_unfold, fmap_cons. apply NoDup_cons. split.
  - intros Hin. apply list_elem_of_fmap in Hin as (y & Hy & Hin).
    apply subseteq_take in Hin. apply list_elem_of_filter in Hin as [Hne _].
    congruence.
  - apply (sublist_NoDup _ (imageUrl <$> prev)); [exact Hnd|].
    apply fmap_sublist. exact (updatedHistory_tail_sublist item prev).
Qed.

Lemma prefix_spec (a : string) :
  forall b, String.prefix a b = true <-> exists c, b = a +:+ c.
Proof.
  induction a as [|x a IH]; intros b.
  - simpl. destruct b; split; eauto.
  - destruct b as [|y b]; simpl.
    + split; [discriminate|]. intros [c Hc].
      change ("" = String x (a +:+ c)) in Hc. discriminate Hc.
    + destruct (Ascii.ascii_dec x y) as [->|Hne].
      * rewrite IH. split; intros [c Hc]; exists c.
        -- rewrite Hc. reflexivity.
        -- change (String y b = String y (a +:+ c)) in Hc. congruence.
      * split; [discriminate|]. intros [c Hc].
        change (String y b = String x (a +:+ c)) in Hc. congruence.
Qed.

Lemma includes_unfold (needle haystack : string) :
  includes needle haystack
  = if String.prefix needle haystack then true
    else match haystack with
         | EmptyString => false
         | String _ rest => includes needle rest
         end.
Proof. destruct haystack; reflexivity. Qed.

(** [includes] is the substring test. *)
Lemma includes_spec (needle : string) :
  forall haystack,
    includes needle haystack = true
    <-> exists before after, haystack = before +:+ needle +:+ after.
Proof.
  induction haystack as [|x h IH]; rewrite includes_unfold.
  - destruct (String.prefix needle "") eqn:Hp.
    + split; [intros _|reflexivity].
      apply prefix_spec in Hp as [c Hc]. exists "", c. exact Hc.
    + split; [discriminate|]. intros (b & a & H).
      destruct b; [|discriminate H]. change ("" = needle +:+ a) in H.
      assert (String.prefix needle "" = true) by (apply prefix_spec; eauto).
      congruence.
  - destruct (String.prefix needle (String x h)) eqn:Hp.
    + split; [intros _|reflexivity].
      apply prefix_spec in Hp as [c Hc]. exists "", c. exact Hc.
    + rewrite IH. split.
      * intros (b & a & ->). exists (String x b), a. reflexivity.
      * intros (b & a & H). destruct b as [|y b].
        -- change (String x h = needle +:+ a) in H.
           assert (String.prefix needle (String x h) = true)
             by (apply prefix_spec; eauto).
           congruence.
        -- change (String x h = String y (b +:+ needle +:+ a)) in H.
           injection H as _ ->. eauto.
Qed.

End ImageHistoryMore.

(** X10.  Inserting into the image history never invents or reorders
    entries: what follows the new entry is a sublist of the former history.
    Hence locators that were pairwise distinct stay so, after one insertion
    and after any sequence of [generate] calls. *)
Theorem X10_history_locators_stay_distinct :
  (forall item prev,
      tail (ImageGenerator.updatedHistory item prev) `sublist_of` prev)
  /\ (forall item prev,
        NoDup (ImageGenerator.imageUrl <$> prev) ->
        NoDup (ImageGenerator.imageUrl <$> ImageGenerator.updatedHistory item prev))
  /\ (forall (t : string -> string)
             (generateImageFromPrompt : string -> string -> Completion string)
             (storageAccepts : list ImageGenerator.ImageHistoryItem -> bool)
             (prompts : list string) (s : ImageGenerator.State),
        NoDup (ImageGenerator.imageUrl <$> ImageGenerator.history s) ->
        NoDup (ImageGenerator.imageUrl
                 <$> ImageGenerator.history
                       (ImageGenerator.generateAll t generateImageFromPrompt
                          storageAccepts s prompts))).
Proof.
  split; [exact updatedHistory_tail_sublist|]. split; [exact updatedHistory_NoDup|].
  intros t gi sa prompts. unfold ImageGenerator.generateAll.
  induction prompts as [|p prompts IH] using rev_ind; intros s Hnd; [exact Hnd|].
  rewrite foldl_app. cbn [foldl].
  destruct (generate_history t gi sa (foldl (ImageGenerator.generate t gi sa) s prompts) p)
    as [H|(url & _ & H)]; rewrite H.
  - apply IH. exact Hnd.
  - apply updatedHistory_NoDup. apply IH. exact Hnd.
Qed.

Lemma X10_witness :
  NoDup (ImageGenerator.imageUrl
           <$> ImageGenerator.history
                 (ImageGenerator.generateAll MockBatch.translate
                    ImageGeneratorView.echo (fun _ => true)
                    ImageGeneratorView.fresh ["a"; "b"; "a"; "too long"; "c"])).
Proof.
  apply (proj2 (proj2 X10_history_locators_stay_distinct)).
  apply NoDup_nil_2.
Defined.

(** X11.  Inserting a result whose locator is the one inserted just before
    replaces that entry and changes nothing else: generating the same image
    twice leaves the history as generating it once. *)
Theorem X11_inserting_the_same_locator_twice :
  forall (first again : ImageGenerator.ImageHistoryItem)
         (prev : list ImageGenerator.ImageHistoryItem),
    ImageGenerator.imageUrl again = ImageGenerator.imageUrl first ->
    ImageGenerator.updatedHistory again (ImageGenerator.updatedHistory first prev)
    = ImageGenerator.updatedHistory again prev.
Proof.
  intros first again prev Heq.
  rewrite (updatedHistory_unfold first), !(updatedHistory_unfold again), Heq.
  rewrite filter_cons_False by (intros H; apply H; reflexivity).
  rewrite filter_take_filter_id, take_idemp. reflexivity.
Qed.

Lemma X11_witness :
  ImageGenerator.updatedHistory (MockHistory.entry "7")
    (ImageGenerator.updatedHistory (MockHistory.entry "7") MockHistory.seven)
  = ImageGenerator.updatedHistory (MockHistory.entry "7") MockHistory.seven.
Proof.
  apply X11_inserting_the_same_locator_twice. reflexivity.
Defined.

Section GenerateImageFacts.
Import ImageGenerator ImageGeneratorView.
Context (t : string -> string).
Context (generateImageFromPrompt : string -> string -> Completion string).
Context (storageAccepts : list ImageHistoryItem -> bool).

Lemma truthy_nonempty (p : string) : p <> "" -> truthy (Some p) = true.
Proof. intros Hp. simpl. destruct (String.eqb_spec p ""); [contradiction|reflexivity]. Qed.

Lemma generate_keeps_sync (s : State) (p : string) :
  (forall l, storageAccepts l = true) ->
  inSync s ->
  inSync (generate t generateImageFromPrompt storageAccepts s p).
Proof.
  intros Hsa Hs. unfold generate.
  destruct (negb (truthy (Some p))); [exact Hs|].
  destruct (generateImageFromPrompt _ _) as [url|err].
  - left. simpl. rewrite Hsa. reflexivity.
  - destruct (_ || _); exact Hs.
Qed.

End GenerateImageFacts.

(** X12.  After a [generate] call that succeeds, the image shown is the
    locator of the newest history entry, no error is shown, and the history
    written to [localStorage], when the write is accepted, is the history
    shown.  So when every write is accepted, the stored history and the
    shown one agree after any sequence of [generate] calls if they agreed
    before (as they do when nothing was stored and nothing is shown). *)
Theorem X12_stored_history_follows_the_shown_one :
  forall (t : string -> string)
         (generateImageFromPrompt : string -> string -> Completion string)
         (storageAccepts : list ImageGenerator.ImageHistoryItem -> bool),
    (forall (s : ImageGenerator.State) (p url : string),
        p <> "" ->
        generateImageFromPrompt p
          (ImageGenerator.aspectRatioText (ImageGenerator.currentAspectRatio s))
          = Returned url ->
        let s' := ImageGenerator.generate t generateImageFromPrompt storageAccepts s p in
        ImageGenerator.currentImageUrl s' = Some url
        /\ head (ImageGenerator.history s')
           = Some (ImageGenerator.mkItem url p (ImageGenerator.currentAspectRatio s))
        /\ ImageGenerator.error s' = ""
        /\ ImageGenerator.isLoading s' = false
        /\ (storageAccepts (ImageGenerator.history s') = true ->
            ImageGenerator.storedHistory s' = Some (ImageGenerator.history s'))
        /\ (storageAccepts (ImageGenerator.history s') = false ->
            ImageGenerator.storedHistory s' = ImageGenerator.storedHistory s))
    /\ ((forall l, storageAccepts l = true) ->
        forall (prompts : list string) (s : ImageGenerator.State),
          ImageGeneratorView.inSync s ->
          ImageGeneratorView.inSync
            (ImageGenerator.generateAll t generateImageFromPrompt storageAccepts
               s prompts)).
Proof.
  intros t gi sa. split.
  - intros s p url Hp Hg s'. unfold s', ImageGenerator.generate.
    rewrite (truthy_nonempty p Hp), Hg. simpl.
    split; [reflexivity|]. split; [reflexivity|]. split; [reflexivity|].
    split; [reflexivity|]. split; intros ->; reflexivity.
  - intros Hsa prompts. unfold ImageGenerator.generateAll.
    induction prompts as [|p prompts IH] using rev_ind; intros s Hs; [exact Hs|].
    rewrite foldl_app. cbn [foldl]. apply generate_keeps_sync; [exact Hsa|].
    apply IH. exact Hs.
Qed.

Lemma X12_witness :
  ImageGenerator.storedHistory
    (ImageGenerator.generateAll MockBatch.translate ImageGeneratorView.echo
       (fun _ => true) ImageGeneratorView.fresh ["a"; "too long"; "b"])
  = Some [ImageGenerator.mkItem "data:image/jpeg;base64,b" "b"
            ImageGenerator.Ratio_16_9;
          ImageGenerator.mkItem "data:image/jpeg;base64,a" "a"
            ImageGenerator.Ratio_16_9].
Proof.
  destruct (proj2 (X12_stored_history_follows_the_shown_one MockBatch.translate
                     ImageGeneratorView.echo (fun _ => true))
              (fun _ => eq_refl) ["a"; "too long"; "b"] ImageGeneratorView.fresh)
    as [H|[H _]].
  - right. split; reflexivity.
  - exact H.
  - discriminate H.
Defined.

(** X13.  A [generate] call that fails shows no image, stops loading and
    touches neither the history nor its stored copy.  If the message contains
    'billed users' or 'Requested entity was not found', the key is marked not
    ready and the billing message is shown; otherwise the key flag is kept
    and the message shown ends with the underlying one.  With an empty prompt
    only the error message changes, whatever the service would answer. *)
Theorem X13_generate_failure_handling :
  forall (t : string -> string)
         (generateImageFromPrompt : string -> string -> Completion string)
         (storageAccepts : list ImageGenerator.ImageHistoryItem -> bool)
         (s : ImageGenerator.State),
    (forall (p : string) (err : Thrown),
        p <> "" ->
        generateImageFromPrompt p
          (ImageGenerator.aspectRatioText (ImageGenerator.currentAspectRatio s))
          = Threw err ->
        let message := errorMessageOf err in
        let billing :=
          (exists before after, message = before +:+ "billed users" +:+ after)
          \/ (exists before after,
                 message = before +:+ "Requested entity was not found" +:+ after) in
        let s' := ImageGenerator.generate t generateImageFromPrompt storageAccepts s p in
        ImageGenerator.history s' = ImageGenerator.history s
        /\ ImageGenerator.storedHistory s' = ImageGenerator.storedHistory s
        /\ ImageGenerator.currentImageUrl s' = None
        /\ ImageGenerator.isLoading s' = false
        /\ (billing ->
            ImageGenerator.isKeyReady s' = false
            /\ ImageGenerator.error s' = t "image.error.billingRequired")
        /\ (~ billing ->
            ImageGenerator.isKeyReady s' = ImageGenerator.isKeyReady s
            /\ ImageGenerator.error s' = t "image.error.apiFail" +:+ " " +:+ message))
    /\ ImageGenerator.generate t generateImageFromPrompt storageAccepts s ""
       = ImageGenerator.mkState (ImageGenerator.isKeyReady s)
           (ImageGenerator.isCheckingKey s) (ImageGenerator.currentAspectRatio s)
           (ImageGenerator.isLoading s) (t "image.error.noPrompt")
           (ImageGenerator.currentImageUrl s) (ImageGenerator.history s)
           (ImageGenerator.storedHistory s).
Proof.
  intros t gi sa s. split; [|reflexivity].
  intros p err Hp Hg message billing s'. unfold s', ImageGenerator.generate.
  rewrite (truthy_nonempty p Hp), Hg. simpl negb. cbv iota. fold message.
  destruct (ImageGenerator.includes "billed users" message) eqn:H1;
    [|destruct (ImageGenerator.includes "Requested entity was not found" message)
        eqn:H2]; simpl.
  - repeat (split; [reflexivity|]). split; [intros _; split; reflexivity|].
    intros Hn. exfalso. apply Hn. left. apply includes_spec. exact H1.
  - repeat (split; [reflexivity|]). split; [intros _; split; reflexivity|].
    intros Hn. exfalso. apply Hn. right. apply includes_spec. exact H2.
  - repeat (split; [reflexivity|]). split; [|intros _; split; reflexivity].
    intros [Hb|Hb]; apply includes_spec in Hb; congruence.
Qed.

Lemma X13_witness :
  ImageGenerator.isKeyReady
    (ImageGenerator.generate MockBatch.translate ImageGeneratorView.echo
       (fun _ => true) ImageGeneratorView.fresh "too long") = false.
Proof.
  refine (proj1 (proj1 (proj2 (proj2 (proj2 (proj2
            (proj1 (X13_generate_failure_handling MockBatch.translate
                      ImageGeneratorView.echo (fun _ => true) ImageGeneratorView.fresh)
               "too long"
               (JsError "Imagen API is only accessible to billed users at this time.")
               _ _))))) _)).
  - discriminate.
  - reflexivity.
  - left. exists "Imagen API is only accessible to ", " at this time.". reflexivity.
Defined.


(** * Properties of the video creator form *)

Section VideoCreatorFacts.
Import VideoCreatorForm.
Context (t : string -> string).

(** Raw HTML is allowed only together with the quota message. *)
Lemma failed_html (s : VideoCreator.State) (err : Thrown) :
  VideoCreator.allowHtmlError (failed t s err) = true ->
  VideoCreator.error (failed t s err) = t "video.error.quotaExceeded".
Proof.
  unfold failed. destruct (_ || _); [reflexivity|].
  destruct (ImageGenerator.includes _ _); discriminate.
Qed.

Lemma step_keeps_html_safe (s s' : VideoCreator.State) (a : Action) :
  (VideoCreator.allowHtmlError s = true ->
   VideoCreator.error s = t "video.error.quotaExceeded") ->
  step t s a = Some s' ->
  VideoCreator.allowHtmlError s' = true ->
  VideoCreator.error s' = t "video.error.quotaExceeded".
Proof.
  intros Hs Hstep. destruct a as [env svc fuel form|canShare shared|selected];
    simpl in Hstep.
  - unfold handleGenerate in Hstep.
    destruct (_ && _); [injection Hstep as <-; discriminate|].
    match type of Hstep with
    | (match ?r with _ => _ end).2 = _ => destruct r as [trace [[url|err]|]]
    end; simpl in Hstep; try discriminate Hstep; injection Hstep as <-.
    + discriminate.
    + apply failed_html.
  - injection Hstep as <-. unfold handleShareVideo.
    destruct (_ || _); [exact Hs|]. destruct shared; [exact Hs|discriminate].
  - injection Hstep as <-. unfold VideoCreator.handleSelectKey.
    destruct selected; exact Hs.
Qed.

Lemma splitComma_cons (c : Ascii.ascii) (rest : string) :
  splitComma (String c rest)
  = if Ascii.eqb c comma then "" :: splitComma rest
    else match splitComma rest with
         | piece :: pieces => String c piece :: pieces
         | [] => [String c ""]
         end.
Proof. reflexivity. Qed.

Lemma noComma_cons (c : Ascii.ascii) (rest : string) :
  noComma (String c rest) = negb (Ascii.eqb c comma) && noComma rest.
Proof. reflexivity. Qed.

(** Splitting at the first comma. *)
Lemma splitComma_first (head : string) :
  forall rest,
    noComma head = true ->
    splitComma (head +:+ String comma rest) = head :: splitComma rest.
Proof.
  induction head as [|c head IH]; intros rest Hn.
  - change (splitComma (String comma rest) = "" :: splitComma rest).
    rewrite splitComma_cons, Ascii.eqb_refl. reflexivity.
  - rewrite noComma_cons in Hn. apply andb_prop in Hn as [Hc Hn].
    change (splitComma (String c (head +:+ String comma rest))
            = String c head :: splitComma rest).
    apply negb_true_iff in Hc. rewrite splitComma_cons, Hc, (IH rest Hn). reflexivity.
Qed.

Lemma splitComma_noComma (s : string) : noComma s = true -> splitComma s = [s].
Proof.
  induction s as [|c s IH]; intros Hn; [reflexivity|].
  rewrite noComma_cons in Hn. apply andb_prop in Hn as [Hc Hn].
  apply negb_true_iff in Hc. rewrite splitComma_cons, Hc, (IH Hn). reflexivity.
Qed.

End VideoCreatorFacts.

(** X14.  However the user generates, shares and selects keys from the
    mounted component (each action started when the one before has ended),
    raw HTML is allowed for the error display only while the message is the
    translated quota message: what [ErrorMessage] injects as HTML is that
    message and never a text that came from the service or the browser. *)
Theorem X14_only_the_quota_message_is_rendered_as_html :
  forall (t : string -> string) (actions : list VideoCreatorForm.Action)
         (s s' : VideoCreator.State),
    (VideoCreator.allowHtmlError s = true ->
     VideoCreator.error s = t "video.error.quotaExceeded") ->
    VideoCreatorForm.steps t s actions = Some s' ->
    (VideoCreator.allowHtmlError s' = true ->
     VideoCreator.error s' = t "video.error.quotaExceeded")
    /\ (forall html,
          VideoCreatorForm.errorView s' = ErrorMessage.Html html ->
          html = t "video.error.quotaExceeded").
Proof.
  intros t actions. induction actions as [|a actions IH]; intros s s' Hs Hsteps.
  - simpl in Hsteps. injection Hsteps as <-. split; [exact Hs|].
    intros html. unfold VideoCreatorForm.errorView, ErrorMessage.render.
    destruct (negb _); [discriminate|].
    destruct (VideoCreator.allowHtmlError s) eqn:Ha; [|discriminate].
    intros H. injection H as <-. apply Hs. reflexivity.
  - simpl in Hsteps. destruct (VideoCreatorForm.step t s a) as [s1|] eqn:Hstep;
      [|discriminate Hsteps].
    apply (IH s1 s'); [|exact Hsteps].
    exact (step_keeps_html_safe t s s1 a Hs Hstep).
Qed.

Lemma X14_witness :
  VideoCreatorForm.errorView
    (VideoCreator.mkState true false false "video.error.quotaExceeded" true None)
  = ErrorMessage.Html "video.error.quotaExceeded"
  /\ "video.error.quotaExceeded" = MockBatch.translate "video.error.quotaExceeded".
Proof.
  split; [reflexivity|].
  refine (proj2 (X14_only_the_quota_message_is_rendered_as_html MockBatch.translate
                   [VideoCreatorForm.SelectKey (Returned tt);
                    VideoCreatorForm.Generate Mock.env VideoCreatorForm.quota 3
                      (VideoCreatorForm.mkForm "a" "16:9" None 8 true)]
                   VideoCreatorForm.initial
                   (VideoCreator.mkState true true false "video.error.quotaExceeded"
                      true None) _ _)
            "video.error.quotaExceeded" _).
  - discriminate.
  - reflexivity.
  - reflexivity.
Defined.

(** X15.  What [handleGenerate] of the video creator sends.  With neither a
    prompt nor a file it calls nothing and only shows its message.  If the
    file cannot be read it calls nothing and reports the failure.  If the
    file is read, the API key being available, the request it submits has a
    start image exactly when both the text after the first comma of the data
    URL and the file's type are non-empty: a file whose type is empty is
    dropped from the request without any message. *)
Theorem X15_video_form_request :
  forall (t : string -> string) (env : GeminiService.Env)
         (svc : GeminiService.Service) (fuel : nat)
         (form : VideoCreatorForm.Form) (s : VideoCreator.State),
    (VideoCreatorForm.prompt form = "" ->
     VideoCreatorForm.imageFile form = None ->
     VideoCreatorForm.handleGenerate t env svc fuel form s
     = ([], Some (VideoCreator.mkState (VideoCreator.isKeyReady s)
                    (VideoCreator.isCheckingKey s) (VideoCreator.isLoading s)
                    (t "video.error.noPromptOrImage") false (VideoCreator.videoUrl s))))
    /\ (forall file e,
          VideoCreatorForm.imageFile form = Some file ->
          VideoCreatorForm.dataURL file = Threw e ->
          VideoCreatorForm.handleGenerate t env svc fuel form s
          = ([], Some (VideoCreatorForm.failed t s e)))
    /\ (forall file result,
          VideoCreatorForm.imageFile form = Some file ->
          VideoCreatorForm.dataURL file = Returned result ->
          truthy (GeminiService.API_KEY env 0) = true ->
          exists payload,
            head (VideoCreatorForm.handleGenerate t env svc fuel form s).1
            = Some (GeminiService.EvGenerateVideos
                      (default "" (GeminiService.API_KEY env 0)) payload)
            /\ GeminiService.vp_prompt payload = VideoCreatorForm.prompt form
            /\ (forall bytes mime,
                  GeminiService.vp_image payload = Some (bytes, mime)
                  <-> VideoCreatorForm.splitComma result !! 1 = Some bytes
                      /\ mime = VideoCreatorForm.fileType file
                      /\ bytes <> "" /\ mime <> "")).
Proof.
  intros t env svc fuel form s. split; [|split].
  - intros Hp Hf. unfold VideoCreatorForm.handleGenerate. rewrite Hp, Hf. reflexivity.
  - intros file e Hf Hd. unfold VideoCreatorForm.handleGenerate,
      VideoCreatorForm.fileToBase64. rewrite Hf, Hd.
    rewrite andb_false_r. reflexivity.
  - intros file result Hf Hd Hkey.
    exists (GeminiService.videoPayload (VideoCreatorForm.prompt form)
              (VideoCreatorForm.aspectRatio form) (VideoCreatorForm.duration form)
              (VideoCreatorForm.allowPeople form)
              (VideoCreatorForm.splitComma result !! 1)
              (Some (VideoCreatorForm.fileType file))).
    split; [|split; [reflexivity|]].
    + unfold VideoCreatorForm.handleGenerate, VideoCreatorForm.fileToBase64.
      rewrite Hf, Hd, andb_false_r.
      assert (H := generateVideo_first_event env svc fuel (VideoCreatorForm.prompt form)
                     (VideoCreatorForm.aspectRatio form) (VideoCreatorForm.duration form)
                     (VideoCreatorForm.allowPeople form)
                     (VideoCreatorForm.splitComma result !! 1)
                     (Some (VideoCreatorForm.fileType file)) Hkey).
      destruct (GeminiService.generateVideo env svc fuel _ _ _ _ _ _)
        as [trace [[url|err]|]]; exact H.
    + intros bytes mime. rewrite videoPayload_image. split.
      * intros (Hb & Hm & Hnb & Hnm). injection Hm as <-. auto.
      * intros (Hb & -> & Hnb & Hnm). auto.
Qed.

Lemma X15_witness :
  head (VideoCreatorForm.handleGenerate MockBatch.translate Mock.env
          (Mock.service None (Returned Mock.video)) 0
          (VideoCreatorForm.mkForm "a" "16:9" (Some VideoCreatorForm.untyped) 8 true)
          VideoCreatorForm.initial).1
  = Some (GeminiService.EvGenerateVideos "key-A"
            (GeminiService.mkVideoPayload "veo-2.0-generate-001" "a" 1 "16:9" 8
               GeminiService.ALLOW_ALL None)).
Proof.
  destruct (proj2 (proj2 (X15_video_form_request MockBatch.translate Mock.env
                            (Mock.service None (Returned Mock.video)) 0
                            (VideoCreatorForm.mkForm "a" "16:9"
                               (Some VideoCreatorForm.untyped) 8 true)
                            VideoCreatorForm.initial))
              VideoCreatorForm.untyped
              "data:application/octet-stream;base64,iVBORw0KGgo="
              eq_refl eq_refl eq_refl) as (payload & H & _).
  reflexivity.
Defined.

(** X16.  [fileToBase64] gives back the payload of a data URL: when neither
    the part before the comma nor the payload contains a comma, the promise
    resolves to the payload and to nothing else; when the reader's result
    has no comma at all, it resolves to [undefined]. *)
Theorem X16_fileToBase64_extracts_the_payload :
  forall (fileType header payload : string),
    (VideoCreatorForm.noComma header = true ->
     VideoCreatorForm.noComma payload = true ->
     VideoCreatorForm.fileToBase64
       (VideoCreatorForm.mkFile fileType
          (Returned (header +:+ String VideoCreatorForm.comma payload)))
     = Returned (Some payload))
    /\ (VideoCreatorForm.noComma header = true ->
        VideoCreatorForm.fileToBase64
          (VideoCreatorForm.mkFile fileType (Returned header))
        = Returned None).
Proof.
  intros fileType header payload. split.
  - intros Hh Hp. unfold VideoCreatorForm.fileToBase64. cbn [VideoCreatorForm.dataURL].
    rewrite (splitComma_first header payload Hh), (splitComma_noComma payload Hp).
    reflexivity.
  - intros Hh. unfold VideoCreatorForm.fileToBase64. cbn [VideoCreatorForm.dataURL].
    rewrite (splitComma_noComma header Hh). reflexivity.
Qed.

Lemma X16_witness :
  VideoCreatorForm.fileToBase64
    (VideoCreatorForm.mkFile "image/png" (Returned "data:image/png;base64,iVBORw0KGgo="))
  = Returned (Some "iVBORw0KGgo=").
Proof.
  apply (proj1 (X16_fileToBase64_extracts_the_payload "image/png"
                  "data:image/png;base64" "iVBORw0KGgo=")); reflexivity.
Defined.


(** * Properties of the story reader and of the prompt relay *)

(** X17.  [handleReadAloud] for every service and every audio back end.
    Without a story it does nothing.  While audio is playing it only stops
    it: no service call is made and [isPlaying] is cleared.  Otherwise it
    calls the speech service exactly once, with the story, and always ends
    not loading; it starts a source, and sets [isPlaying], exactly when the
    service returned audio and the audio could be played, and on any failure
    of the service the message shown ends with the one fixed text. *)
Theorem X17_read_aloud :
  forall (t : string -> string) (env : GeminiService.Env)
         (svc : GeminiService.Service) (playback : string -> Completion unit)
         (s : StoryCreator.State),
    let run := StoryCreator.handleReadAloud t env svc playback s in
    (truthy (StoryCreator.story s) = false -> run = ([], s))
    /\ (truthy (StoryCreator.story s) = true ->
        StoryCreator.isPlaying s = true ->
        List.filter StoryCreator.isService run.1 = []
        /\ StoryCreator.isPlaying run.2 = false
        /\ StoryCreator.error run.2 = StoryCreator.error s)
    /\ (forall text,
          StoryCreator.story s = Some text -> text <> "" ->
          StoryCreator.isPlaying s = false ->
          let spoken := GeminiService.generateSpeechFromText env svc text in
          List.filter StoryCreator.isService run.1 = map StoryCreator.Service spoken.1
          /\ length spoken.1 = 1
          /\ StoryCreator.isLoadingAudio run.2 = false
          /\ (StoryCreator.isPlaying run.2 = true
              <-> exists audio, spoken.2 = Returned audio
                                /\ isReturned (playback audio) = true)
          /\ (StoryCreator.isPlaying run.2 = true ->
              exists audio, In (StoryCreator.StartSource audio) run.1
                            /\ spoken.2 = Returned audio
                            /\ StoryCreator.error run.2 = "")
          /\ (isReturned spoken.2 = false ->
              StoryCreator.error run.2
              = t "story.error.audioFail"
                +:+ " Failed to communicate with the TTS AI model.")).
Proof.
  intros t env svc playback s run. unfold run, StoryCreator.handleReadAloud.
  split; [|split].
  - intros ->. reflexivity.
  - intros -> ->. simpl. destruct (StoryCreator.hasAudioSource s); repeat split.
  - intros text Hs Hne Hplay. cbv zeta.
    rewrite Hs, (truthy_nonempty text Hne), Hplay. simpl negb. cbv iota.
    simpl default. set (spoken := GeminiService.generateSpeechFromText env svc text).
    assert (Hsvc : forall l : list GeminiService.Event,
               List.filter StoryCreator.isService (map StoryCreator.Service l)
               = map StoryCreator.Service l)
      by (induction l as [|e l IH]; simpl; [|rewrite IH]; reflexivity).
    assert (Hwrap : forall e, spoken.2 = Threw e ->
                              e = JsError "Failed to communicate with the TTS AI model.").
    { intros e. unfold spoken, GeminiService.generateSpeechFromText. simpl.
      destruct (GeminiService.generateContent svc _ _) as [r|e0];
        [destruct (GeminiService.cr_inlineData r) as [a|];
         [destruct (negb (String.eqb a ""))|]|]; congruence. }
    destruct (spoken.2) as [audio|err] eqn:Hsp.
    + destruct (playback audio) as [[]|perr] eqn:Hpb; cbn [fst snd].
      * split; [rewrite List.filter_app, Hsvc; apply app_nil_r|].
        split; [reflexivity|]. split; [reflexivity|].
        split; [split; [intros _; exists audio; rewrite Hpb; auto|reflexivity]|].
        split; [|discriminate].
        intros _. exists audio. split; [|split; reflexivity].
        apply in_or_app. right. left. reflexivity.
      * split; [apply Hsvc|]. split; [reflexivity|]. split; [reflexivity|].
        split; [split; [discriminate|]|split; discriminate].
        intros (a & Ha & Hr). injection Ha as <-. rewrite Hpb in Hr. discriminate Hr.
    + cbn [fst snd]. split; [apply Hsvc|]. split; [reflexivity|].
      split; [reflexivity|].
      split; [split; [discriminate|intros (a & Ha & _); discriminate Ha]|].
      split; [discriminate|]. intros _. rewrite (Hwrap err eq_refl). reflexivity.
Qed.

Lemma X17_witness :
  StoryCreator.handleReadAloud MockBatch.translate Mock.env StoryCreator.narrator
    (fun _ => Returned tt)
    (StoryCreator.mkState (Some "Once upon a time") false "old" false false)
  = ([StoryCreator.Service
        (GeminiService.EvGenerateContent (Some "key-A") "gemini-2.5-flash-preview-tts"
           (GeminiService.SpeechContents
              "Read this with an expressive, narrative voice: Once upon a time" "Kore"));
      StoryCreator.StartSource "UklGRg=="],
     StoryCreator.mkState (Some "Once upon a time") false "" true true)
  /\ StoryCreator.isPlaying
       (StoryCreator.handleReadAloud MockBatch.translate Mock.env StoryCreator.narrator
          (fun _ => Returned tt)
          (StoryCreator.mkState (Some "Once upon a time") false "old" false false)).2
     = true.
Proof.
  split; [reflexivity|].
  apply (proj1 (proj2 (proj2 (proj2 (proj2 (proj2
           (X17_read_aloud MockBatch.translate Mock.env StoryCreator.narrator
              (fun _ => Returned tt)
              (StoryCreator.mkState (Some "Once upon a time") false "old" false false)))
           "Once upon a time" eq_refl ltac:(discriminate) eq_refl))))).
  exists "UklGRg==". split; reflexivity.
Defined.

(** X18.  The prompt relay.  After [sendPromptToVideoCreator p], from any
    state of the app, the video creator is what is shown, its prompt field
    once mounted is [p], and the prompt kept for the image generator is as
    before; the prompt stays attached to the video tab through any later
    change of tab, until another prompt is sent there.  [handleSendToVideo]
    sends nothing, and changes no tab, when its text is empty. *)
Theorem X18_prompt_relay :
  forall (prompt : string) (s : App.State),
    let sent := App.sendPromptToVideoCreator prompt s in
    App.renderContent sent = App.ShowVideoCreator prompt
    /\ App.mountedVideoPrompt prompt = prompt
    /\ App.imagePrompt sent = App.imagePrompt s
    /\ (forall tabs,
          App.renderContent (App.setActiveTab (foldl App.setActiveTab sent tabs)
                               App.TabVideo)
          = App.ShowVideoCreator prompt)
    /\ (forall tabs image,
          App.renderContent
            (App.setActiveTab
               (App.sendPromptToImageGenerator image (foldl App.setActiveTab sent tabs))
               App.TabVideo)
          = App.ShowVideoCreator prompt)
    /\ (forall text, truthy text = false -> App.handleSendToVideo text s = s)
    /\ (forall text, text <> "" ->
                     App.handleSendToVideo (Some text) s
                     = App.sendPromptToVideoCreator text s).
Proof.
  intros prompt s sent.
  assert (Hkeep : forall tabs s0,
             App.videoPrompt (foldl App.setActiveTab s0 tabs) = App.videoPrompt s0).
  { induction tabs as [|tab tabs IH]; intros s0; [reflexivity|]. simpl.
    rewrite IH. reflexivity. }
  split; [reflexivity|].
  split; [unfold App.mountedVideoPrompt; simpl;
          destruct (String.eqb_spec prompt ""); simpl; congruence|].
  split; [reflexivity|].
  split; [intros tabs; unfold App.renderContent; simpl; rewrite Hkeep; reflexivity|].
  split; [intros tabs image; unfold App.renderContent; simpl; rewrite Hkeep;
          reflexivity|].
  split.
  - intros text Ht. unfold App.handleSendToVideo. rewrite Ht. reflexivity.
  - intros text Hne. unfold App.handleSendToVideo.
    rewrite (truthy_nonempty text Hne). reflexivity.
Qed.

Lemma X18_witness :
  App.handleSendToVideo (Some "a quiet harbour at dawn") App.initial
  = App.mkState App.TabVideo "a quiet harbour at dawn" "".
Proof.
  apply (proj2 (proj2 (proj2 (proj2 (proj2 (proj2
           (X18_prompt_relay "" App.initial))))))).
  discriminate.
Defined.
